(** * ObjectAllocator: a fixed-size block allocator, embedded from
      [ObjectAllocator.cpp].

    The allocator keeps its free list and its page list inside the raw
    storage it manages, so the embedding keeps a byte-addressed memory and
    threads it through every operation.  Integers of the program are [Z]
    with the wrap-around of their C++ type written out ([unsigned] is 32
    bits, [size_t] and pointers are 64 bits, as on the LP64 target of the
    Makefile).  Addresses are [Z]; arithmetic on pointers is exact, and a
    dereference of the null pointer is the outcome [Crash]. *)

From Stdlib Require Import ZArith List Bool Lia String Ascii.
Import ListNotations.
Open Scope Z_scope.

(** ** Machine integers *)

Definition u16 (x : Z) : Z := x mod 2 ^ 16.
Definition u32 (x : Z) : Z := x mod 2 ^ 32.
Definition u64 (x : Z) : Z := x mod 2 ^ 64.

Definition sizeof_ptr : Z := 8.
Definition sizeof_int : Z := 4.
Definition sizeof_short : Z := 2.
Definition sizeof_char : Z := 1.

(** ** Byte-addressed memory *)

Definition ptr := Z.
Definition nullptr : ptr := 0.
Definition memory := Z -> Z.

Definition in_range (lo n a : Z) : bool := (lo <=? a) && (a <? lo + n).

(** [std::memset (dst, c, n)] *)
Definition memset (m : memory) (dst : ptr) (c n : Z) : memory :=
  fun a => if in_range dst n a then c mod 256 else m a.

(** A little-endian store of the [n] low bytes of [v] at [a]. *)
Definition store (m : memory) (a : ptr) (n v : Z) : memory :=
  fun x => if in_range a n x then (v / 2 ^ (8 * (x - a))) mod 256 else m x.

Fixpoint load_bytes (m : memory) (a : ptr) (n : nat) : Z :=
  match n with
  | O => 0
  | S k => (m a) mod 256 + 256 * load_bytes m (a + 1) k
  end.

(** A little-endian load of [n] bytes at [a]. *)
Definition load (m : memory) (a : ptr) (n : Z) : Z :=
  load_bytes m a (Z.to_nat n).

Definition load_ptr (m : memory) (a : ptr) : ptr := load m a sizeof_ptr.
Definition store_ptr (m : memory) (a : ptr) (v : ptr) : memory :=
  store m a sizeof_ptr v.

(** [strcpy (dst, src)]: the characters of [src] and the closing NUL. *)
Fixpoint strcpy (m : memory) (dst : ptr) (src : string) : memory :=
  match src with
  | EmptyString => store m dst 1 0
  | String c rest => strcpy (store m dst 1 (Z.of_nat (nat_of_ascii c))) (dst + 1) rest
  end.

(** ** Declarations of [ObjectAllocator.h] *)

(** Modelled from the spec: the debug patterns declared in
    [ObjectAllocator.h], which is not among the sources; the values are the
    reference values the spec lists. *)
Definition UNALLOCATED_PATTERN : Z := 0xAA.
Definition ALLOCATED_PATTERN : Z := 0xBB.
Definition FREED_PATTERN : Z := 0xCC.
Definition PAD_PATTERN : Z := 0xFF.

Inductive OA_EXCEPTION : Type :=
| E_NO_MEMORY
| E_NO_PAGES
| E_BAD_BOUNDARY
| E_MULTIPLE_FREE
| E_CORRUPTED_BLOCK.

Inductive HBLOCK_TYPE : Type := hbNone | hbBasic | hbExtended | hbExternal.

Record HeaderBlockInfo : Type := mkHeaderBlockInfo {
  type_ : HBLOCK_TYPE;
  size_ : Z;          (* size_t *)
  additional_ : Z     (* size_t *)
}.

Record OAConfig : Type := mkOAConfig {
  UseCPPMemManager_ : bool;
  ObjectsPerPage_ : Z;   (* unsigned *)
  MaxPages_ : Z;         (* unsigned *)
  DebugOn_ : bool;
  PadBytes_ : Z;         (* unsigned *)
  HBlockInfo_ : HeaderBlockInfo
}.

Record OAStats : Type := mkOAStats {
  ObjectSize_ : Z;     (* size_t *)
  PageSize_ : Z;       (* size_t *)
  FreeObjects_ : Z;    (* unsigned *)
  ObjectsInUse_ : Z;   (* unsigned *)
  PagesInUse_ : Z;     (* unsigned *)
  MostObjects_ : Z;    (* unsigned *)
  Allocations_ : Z;    (* unsigned *)
  Deallocations_ : Z   (* unsigned *)
}.

(** Modelled from the spec: the record [MemBlockInfo] of the external
    header, declared in [ObjectAllocator.h]: an in-use flag, an owned label
    string and the allocation number, laid out in this order. *)
Definition MemBlockInfo_in_use : Z := 0.
Definition MemBlockInfo_label : Z := 8.
Definition MemBlockInfo_alloc_num : Z := 16.
Definition sizeof_MemBlockInfo : Z := 24.

(** The members of the class. *)
Record ObjectAllocator : Type := mkOA {
  clientConfig : OAConfig;
  stats : OAStats;
  PageList_ : ptr;
  FreeList_ : ptr;
  blockIter : Z;
  heap : memory
}.

Definition set_stats (f : OAStats -> OAStats) (s : ObjectAllocator) : ObjectAllocator :=
  mkOA (clientConfig s) (f (stats s)) (PageList_ s) (FreeList_ s) (blockIter s) (heap s).
Definition set_heap (f : memory -> memory) (s : ObjectAllocator) : ObjectAllocator :=
  mkOA (clientConfig s) (stats s) (PageList_ s) (FreeList_ s) (blockIter s) (f (heap s)).
Definition set_PageList (p : ptr) (s : ObjectAllocator) : ObjectAllocator :=
  mkOA (clientConfig s) (stats s) p (FreeList_ s) (blockIter s) (heap s).
Definition set_FreeList (p : ptr) (s : ObjectAllocator) : ObjectAllocator :=
  mkOA (clientConfig s) (stats s) (PageList_ s) p (blockIter s) (heap s).
Definition set_blockIter (i : Z) (s : ObjectAllocator) : ObjectAllocator :=
  mkOA (clientConfig s) (stats s) (PageList_ s) (FreeList_ s) i (heap s).
Definition set_config (c : OAConfig) (s : ObjectAllocator) : ObjectAllocator :=
  mkOA c (stats s) (PageList_ s) (FreeList_ s) (blockIter s) (heap s).

Definition inc_FreeObjects (st : OAStats) : OAStats :=
  mkOAStats (ObjectSize_ st) (PageSize_ st) (u32 (FreeObjects_ st + 1)) (ObjectsInUse_ st)
            (PagesInUse_ st) (MostObjects_ st) (Allocations_ st) (Deallocations_ st).
Definition dec_FreeObjects (st : OAStats) : OAStats :=
  mkOAStats (ObjectSize_ st) (PageSize_ st) (u32 (FreeObjects_ st - 1)) (ObjectsInUse_ st)
            (PagesInUse_ st) (MostObjects_ st) (Allocations_ st) (Deallocations_ st).
Definition inc_ObjectsInUse (st : OAStats) : OAStats :=
  mkOAStats (ObjectSize_ st) (PageSize_ st) (FreeObjects_ st) (u32 (ObjectsInUse_ st + 1))
            (PagesInUse_ st) (MostObjects_ st) (Allocations_ st) (Deallocations_ st).
Definition dec_ObjectsInUse (st : OAStats) : OAStats :=
  mkOAStats (ObjectSize_ st) (PageSize_ st) (FreeObjects_ st) (u32 (ObjectsInUse_ st - 1))
            (PagesInUse_ st) (MostObjects_ st) (Allocations_ st) (Deallocations_ st).
Definition inc_PagesInUse (st : OAStats) : OAStats :=
  mkOAStats (ObjectSize_ st) (PageSize_ st) (FreeObjects_ st) (ObjectsInUse_ st)
            (u32 (PagesInUse_ st + 1)) (MostObjects_ st) (Allocations_ st) (Deallocations_ st).
Definition inc_MostObjects (st : OAStats) : OAStats :=
  mkOAStats (ObjectSize_ st) (PageSize_ st) (FreeObjects_ st) (ObjectsInUse_ st)
            (PagesInUse_ st) (u32 (MostObjects_ st + 1)) (Allocations_ st) (Deallocations_ st).
Definition inc_Allocations (st : OAStats) : OAStats :=
  mkOAStats (ObjectSize_ st) (PageSize_ st) (FreeObjects_ st) (ObjectsInUse_ st)
            (PagesInUse_ st) (MostObjects_ st) (u32 (Allocations_ st + 1)) (Deallocations_ st).
Definition inc_Deallocations (st : OAStats) : OAStats :=
  mkOAStats (ObjectSize_ st) (PageSize_ st) (FreeObjects_ st) (ObjectsInUse_ st)
            (PagesInUse_ st) (MostObjects_ st) (Allocations_ st) (u32 (Deallocations_ st + 1)).

(** ** Outcomes: a state and exception monad

    A C++ exception leaves the members as they were when it was thrown, so
    [Throw] carries the state.  [Crash] is undefined behaviour that stops
    the process (a null dereference, a division by zero); [Hang] is a
    [while] loop over a linked list that was given too little fuel. *)

Inductive outcome (A : Type) : Type :=
| Done (a : A) (s : ObjectAllocator)
| Throw (e : OA_EXCEPTION) (s : ObjectAllocator)
| Crash
| Hang.
Arguments Done {A} a s.
Arguments Throw {A} e s.
Arguments Crash {A}.
Arguments Hang {A}.

Definition M (A : Type) : Type := ObjectAllocator -> outcome A.

Definition ret {A} (a : A) : M A := fun s => Done a s.
Definition bind {A B} (m : M A) (f : A -> M B) : M B :=
  fun s => match m s with
           | Done a s' => f a s'
           | Throw e s' => Throw e s'
           | Crash => Crash
           | Hang => Hang
           end.
Definition throw {A} (e : OA_EXCEPTION) : M A := fun s => Throw e s.
Definition crash {A} : M A := fun _ => Crash.
Definition hang {A} : M A := fun _ => Hang.
Definition get : M ObjectAllocator := fun s => Done s s.
Definition modify (f : ObjectAllocator -> ObjectAllocator) : M unit := fun s => Done tt (f s).
Definition when (b : bool) (m : M unit) : M unit := if b then m else ret tt.

Notation "x <- m ;; k" := (bind m (fun x => k))
  (at level 61, m at next level, right associativity).
Notation "m ;; k" := (bind m (fun _ => k))
  (at level 61, right associativity).

(** What the system allocator answers to the [new] expressions one call
    may evaluate: [None] is [std::bad_alloc]. *)
Record SysAlloc : Type := mkSys {
  new_page : option ptr;      (* new char[stats.PageSize_] *)
  new_info : option ptr;      (* new MemBlockInfo() *)
  new_label : option ptr;     (* new char[strlen(label) + 1] *)
  new_object : option ptr     (* new char[stats.ObjectSize_] *)
}.

(** ** The helper functions of [ObjectAllocator.cpp] *)

Definition cfg (s : ObjectAllocator) : OAConfig := clientConfig s.
Definition hsize (s : ObjectAllocator) : Z := size_ (HBlockInfo_ (clientConfig s)).
Definition pad (s : ObjectAllocator) : Z := PadBytes_ (clientConfig s).
Definition osize (s : ObjectAllocator) : Z := ObjectSize_ (stats s).

(** calculates where blocks start *)
Definition create_offset (page : ptr) : ptr := page + sizeof_ptr.

(** calculates the size of a block *)
Definition calculate_block_size (s : ObjectAllocator) : Z :=
  let headerSize := size_ (HBlockInfo_ (clientConfig s)) in
  let padding := u32 (PadBytes_ (clientConfig s) * 2) in
  u64 (ObjectSize_ (stats s) + padding + headerSize).

(** calculates the size of a page *)
Definition calculate_page_size (s : ObjectAllocator) : Z :=
  u64 (sizeof_ptr + u64 (calculate_block_size s * ObjectsPerPage_ (clientConfig s))).

Definition allocate_empty_page (newPage : option ptr) : M unit :=
  s <- get ;;
  if PagesInUse_ (stats s) >=? MaxPages_ (clientConfig s) then throw E_NO_PAGES
  else
    match newPage with
    | None => throw E_NO_MEMORY
    | Some newPage =>
      when (DebugOn_ (clientConfig s))
           (modify (set_heap (fun m => memset m newPage UNALLOCATED_PATTERN (PageSize_ (stats s))))) ;;
      if PageList_ s =? nullptr then
        modify (set_PageList newPage) ;;
        modify (set_heap (fun m => store_ptr m newPage nullptr))
      else
        modify (set_heap (fun m => store_ptr m newPage (PageList_ s))) ;;
        modify (set_PageList newPage)
    end.

Definition make_block (makePrev : bool) : M ptr :=
  s <- get ;;
  let newBlock := create_offset (PageList_ s)
                  + calculate_block_size s * (blockIter s - (if makePrev then 1 else 0)) in
  let newBlock := newBlock + (hsize s + pad s) in
  when (DebugOn_ (clientConfig s))
       (modify (set_heap (fun m => memset m (newBlock - pad s) PAD_PATTERN (pad s))) ;;
        modify (set_heap (fun m => memset m (newBlock + osize s) PAD_PATTERN (pad s)))) ;;
  ret newBlock.

Definition configure_header (sys : SysAlloc) (block : ptr) (allocated freed : bool)
           (label : option string) : M unit :=
  s <- get ;;
  let headerLocation := block - (pad s + hsize s) in
  match type_ (HBlockInfo_ (clientConfig s)) with
  | hbBasic =>
    modify (set_heap (fun m => memset m headerLocation 0 (hsize s))) ;;
    when allocated
         (modify (set_heap (fun m => store m headerLocation sizeof_int (Allocations_ (stats s)))) ;;
          modify (set_heap (fun m => store m (headerLocation + sizeof_int) sizeof_char 1)))
  | hbExtended =>
    let additional := additional_ (HBlockInfo_ (clientConfig s)) in
    if negb allocated && negb freed then
      modify (set_heap (fun m => memset m headerLocation 0 (hsize s)))
    else if allocated then
      modify (set_heap (fun m => memset m headerLocation 0 additional)) ;;
      let headerShort := headerLocation + additional in
      modify (set_heap (fun m => store m headerShort sizeof_short (u16 (load m headerShort sizeof_short + 1)))) ;;
      let headerInt := headerShort + sizeof_short in
      modify (set_heap (fun m => store m headerInt sizeof_int (Allocations_ (stats s)))) ;;
      let headerFlag := headerInt + sizeof_int in
      modify (set_heap (fun m => store m headerFlag sizeof_char 1))
    else
      modify (set_heap (fun m => memset m (headerLocation + additional + sizeof_short) 0
                                        (sizeof_int + sizeof_char)))
  | hbExternal =>
    if negb allocated && negb freed then
      modify (set_heap (fun m => memset m headerLocation 0 (hsize s)))
    else if allocated then
      match new_info sys with
      | None => throw E_NO_MEMORY
      | Some info =>
        modify (set_heap (fun m => memset m info 0 sizeof_MemBlockInfo)) ;;
        match label with
        | Some l =>
          match new_label sys with
          | None => throw E_NO_MEMORY
          | Some str =>
            modify (set_heap (fun m => store_ptr m (info + MemBlockInfo_label) str)) ;;
            modify (set_heap (fun m => strcpy m str l))
          end
        | None => ret tt
        end ;;
        modify (set_heap (fun m => store m (info + MemBlockInfo_alloc_num) sizeof_int (Allocations_ (stats s)))) ;;
        modify (set_heap (fun m => store m (info + MemBlockInfo_in_use) sizeof_char 1)) ;;
        modify (set_heap (fun m => store_ptr m headerLocation info))
      end
    else
      let toDelete := load_ptr (heap s) headerLocation in
      if toDelete =? nullptr then crash
      else
        (* delete[] toDelete->label; delete toDelete: storage handed back *)
        modify (set_heap (fun m => memset m headerLocation 0 (hsize s)))
  | hbNone => ret tt
  end.

Definition no_sys : SysAlloc := mkSys None None None None.

Definition add_to_page : M unit :=
  block <- make_block false ;;
  s <- get ;;
  (if negb (blockIter s =? 0) then
     prevBlock <- make_block true ;;
     modify (set_FreeList block) ;;
     modify (set_heap (fun m => store_ptr m block prevBlock))
   else
     when (DebugOn_ (clientConfig s))
          (modify (set_heap (fun m => memset m (block - pad s) PAD_PATTERN (pad s)))) ;;
     modify (set_FreeList block) ;;
     modify (set_heap (fun m => store_ptr m block nullptr))) ;;
  modify (set_stats inc_FreeObjects) ;;
  modify (fun s => set_blockIter (blockIter s + 1) s) ;;
  configure_header no_sys block false false None.

Fixpoint repeatM (n : nat) (m : M unit) : M unit :=
  match n with
  | O => ret tt
  | S k => m ;; repeatM k m
  end.

Definition segment_page : M unit :=
  modify (set_blockIter 0) ;;
  s <- get ;;
  (* for (unsigned i = 0; i < ObjectsPerPage_; i++) *)
  repeatM (Z.to_nat (ObjectsPerPage_ (clientConfig s))) add_to_page ;;
  modify (set_stats inc_PagesInUse).

(** allocates another page of objects *)
Definition allocate_new_page (sys : SysAlloc) : M unit :=
  allocate_empty_page (new_page sys) ;;
  segment_page.

(** takes Object off the free list *)
Definition take_off_freelist (sys : SysAlloc) (label : option string) : M ptr :=
  modify (set_stats dec_FreeObjects) ;;
  modify (set_stats inc_ObjectsInUse) ;;
  modify (set_stats inc_MostObjects) ;;
  modify (set_stats inc_Allocations) ;;
  s <- get ;;
  configure_header sys (FreeList_ s) true false label ;;
  let block := FreeList_ s in
  if block =? nullptr then crash
  else
    modify (fun s => set_FreeList (load_ptr (heap s) block) s) ;;
    when (DebugOn_ (clientConfig s))
         (modify (set_heap (fun m => memset m block ALLOCATED_PATTERN (osize s)))) ;;
    ret block.

Fixpoint check_corruption_loop (n : nat) (m : memory) (firstPad secondPad : ptr) (i : Z) : bool :=
  match n with
  | O => false
  | S k =>
    if negb (m (firstPad + i) mod 256 =? PAD_PATTERN)
       || negb (m (secondPad + i) mod 256 =? PAD_PATTERN)
    then true
    else check_corruption_loop k m firstPad secondPad (i + 1)
  end.

Definition check_corruption (s : ObjectAllocator) (toCheck : ptr) : bool :=
  let firstPad := toCheck - pad s in
  let secondPad := toCheck + osize s in
  check_corruption_loop (Z.to_nat (pad s)) (heap s) firstPad secondPad 0.

Definition check_out_of_page (s : ObjectAllocator) (toCheck pageList : ptr) : bool :=
  (toCheck <? pageList) || (toCheck >? (pageList + calculate_page_size s) - sizeof_ptr).

(** [locationDifference] is a [long long]; the remainder by the [size_t]
    block size is taken after the usual conversion to unsigned 64 bits. *)
Definition check_wrong_offset (toCheck pageList : ptr) : M bool :=
  s <- get ;;
  let locationDifference := toCheck - (create_offset pageList + hsize s + pad s) in
  if calculate_block_size s =? 0 then crash
  else ret (negb (u64 locationDifference mod calculate_block_size s =? 0)).

Fixpoint check_bad_location_loop (fuel : nat) (toCheck pageList : ptr) (toThrow : bool) : M bool :=
  match fuel with
  | O => hang
  | S fuel' =>
    if pageList =? nullptr then ret toThrow
    else
      s <- get ;;
      bad <- (if check_out_of_page s toCheck pageList then ret true
              else check_wrong_offset toCheck pageList) ;;
      if bad then check_bad_location_loop fuel' toCheck (load_ptr (heap s) pageList) true
      else ret false
  end.

Definition check_bad_location (fuel : nat) (toCheck pageList : ptr) : M unit :=
  toThrow <- check_bad_location_loop fuel toCheck pageList false ;;
  if toThrow : bool then throw E_BAD_BOUNDARY else ret tt.

Fixpoint check_multiple_free (fuel : nat) (toCheck freeList : ptr) : M unit :=
  match fuel with
  | O => hang
  | S fuel' =>
    if freeList =? nullptr then ret tt
    else if freeList =? toCheck then throw E_MULTIPLE_FREE
    else
      s <- get ;;
      check_multiple_free fuel' toCheck (load_ptr (heap s) freeList)
  end.

Definition check_freelist (fuel : nat) (node : ptr) : M unit :=
  s <- get ;;
  let freeListCopy := FreeList_ s in
  let pageListCopy := PageList_ s in
  let nodeCopy := node in
  (if negb (pad s =? 0) then
     if check_corruption s nodeCopy then throw E_CORRUPTED_BLOCK else ret tt
   else ret tt) ;;
  check_multiple_free fuel nodeCopy freeListCopy ;;
  check_bad_location fuel nodeCopy pageListCopy.

(** puts object back on freelist *)
Definition put_on_freelist (fuel : nat) (Object : ptr) : M unit :=
  modify (set_stats inc_Deallocations) ;;
  modify (set_stats dec_ObjectsInUse) ;;
  modify (set_stats inc_FreeObjects) ;;
  let newFreeNode := Object in
  s <- get ;;
  when (DebugOn_ (clientConfig s)) (check_freelist fuel newFreeNode) ;;
  configure_header no_sys newFreeNode false true None ;;
  when (DebugOn_ (clientConfig s))
       (modify (set_heap (fun m => memset m newFreeNode FREED_PATTERN (osize s)))) ;;
  if newFreeNode =? nullptr then crash
  else if FreeList_ s =? nullptr then
    modify (set_FreeList newFreeNode) ;;
    modify (set_heap (fun m => store_ptr m newFreeNode nullptr))
  else
    modify (set_heap (fun m => store_ptr m newFreeNode (FreeList_ s))) ;;
    modify (set_FreeList newFreeNode).

Definition check_leak_in_header (s : ObjectAllocator) (node : ptr) : bool :=
  match type_ (HBlockInfo_ (clientConfig s)) with
  | hbExternal =>
    (* info = reinterpret_cast<MemBlockInfo *>(node); return info->in_use; *)
    let info := node in
    negb (heap s (info + MemBlockInfo_in_use) mod 256 =? 0)
  | _ =>
    let node := node + (hsize s - 1) in
    negb (heap s node mod 256 =? 0)
  end.

(** ** The public operations *)

Definition OAStats_init : OAStats := mkOAStats 0 0 0 0 0 0 0 0.

(** [ObjectAllocator::ObjectAllocator (ObjectSize, config)], run on the
    memory [m0] of the process. *)
Definition ObjectAllocator_ctor (m0 : memory) (sys : SysAlloc) (ObjectSize : Z)
           (config : OAConfig) : outcome unit :=
  let s := mkOA config OAStats_init nullptr nullptr 0 m0 in
  let s := set_stats (fun st => mkOAStats ObjectSize (PageSize_ st) (FreeObjects_ st)
                                  (ObjectsInUse_ st) (PagesInUse_ st) (MostObjects_ st)
                                  (Allocations_ st) (Deallocations_ st)) s in
  let s := set_stats (fun st => mkOAStats (ObjectSize_ st) (calculate_page_size s) (FreeObjects_ st)
                                  (ObjectsInUse_ st) (PagesInUse_ st) (MostObjects_ st)
                                  (Allocations_ st) (Deallocations_ st)) s in
  if negb (UseCPPMemManager_ config) then allocate_new_page sys s
  else Done tt s.

Definition Allocate (sys : SysAlloc) (label : option string) : M ptr :=
  s <- get ;;
  if negb (UseCPPMemManager_ (clientConfig s)) then
    when (FreeList_ s =? nullptr) (allocate_new_page sys) ;;
    take_off_freelist sys label
  else
    modify (set_stats inc_Allocations) ;;
    modify (set_stats inc_MostObjects) ;;
    match new_object sys with
    | Some p => ret p
    | None => throw E_NO_MEMORY
    end.

Definition Free (fuel : nat) (Object : ptr) : M unit :=
  s <- get ;;
  if negb (UseCPPMemManager_ (clientConfig s)) then put_on_freelist fuel Object
  else
    (* delete[] reinterpret_cast<char *>(Object): the storage goes back to
       the system allocator, of which the members keep no record; the
       pointer has to be one that new[] returned and that was not deleted
       since *)
    modify (set_stats inc_Deallocations).

Definition SetDebugState (State : bool) : M unit :=
  modify (fun s => set_config (mkOAConfig (UseCPPMemManager_ (clientConfig s))
                                          (ObjectsPerPage_ (clientConfig s))
                                          (MaxPages_ (clientConfig s)) State
                                          (PadBytes_ (clientConfig s))
                                          (HBlockInfo_ (clientConfig s))) s).

Definition GetFreeList (s : ObjectAllocator) : ptr := FreeList_ s.
Definition GetPageList (s : ObjectAllocator) : ptr := PageList_ s.
Definition GetConfig (s : ObjectAllocator) : OAConfig := clientConfig s.
Definition GetStats (s : ObjectAllocator) : OAStats := stats s.

(** The callbacks of [DumpMemoryInUse] and [ValidatePages] are recorded:
    each call [fn (p, size)] appends [(p, size)] to a trace. *)
Definition trace := list (ptr * Z).

Fixpoint DumpMemoryInUse_blocks (n : nat) (s : ObjectAllocator) (freeListCopy : ptr)
         (calls : trace) (numObjects : Z) : trace * Z :=
  match n with
  | O => (calls, numObjects)
  | S k =>
    let '(calls, numObjects) :=
      if negb (hsize s =? 0) then
        if check_leak_in_header s freeListCopy
        then (calls ++ [(freeListCopy + hsize s, osize s)], numObjects + 1)
        else (calls, numObjects)
      else (calls, numObjects) in
    DumpMemoryInUse_blocks k s (freeListCopy + calculate_block_size s) calls numObjects
  end.

Fixpoint DumpMemoryInUse_pages (fuel : nat) (s : ObjectAllocator) (pageListCopy : ptr)
         (calls : trace) (numObjects : Z) : option (trace * Z) :=
  match fuel with
  | O => None
  | S fuel' =>
    if pageListCopy =? nullptr then Some (calls, numObjects)
    else
      let freeListCopy := create_offset pageListCopy in
      let '(calls, numObjects) :=
        DumpMemoryInUse_blocks (Z.to_nat (ObjectsPerPage_ (clientConfig s))) s freeListCopy
                               calls numObjects in
      DumpMemoryInUse_pages fuel' s (load_ptr (heap s) pageListCopy) calls numObjects
  end.

(** The calls of [fn] in order and the value returned; [None] when the page
    list does not end within [fuel] links. *)
Definition DumpMemoryInUse (fuel : nat) (s : ObjectAllocator) : option (trace * Z) :=
  match DumpMemoryInUse_pages fuel s (PageList_ s) [] 0 with
  | Some (calls, numObjects) => Some (calls, u32 numObjects)
  | None => None
  end.

Fixpoint ValidatePages_blocks (n : nat) (s : ObjectAllocator) (freeListCopy : ptr)
         (calls : trace) (numObjects : Z) : trace * Z :=
  match n with
  | O => (calls, numObjects)
  | S k =>
    let '(calls, numObjects) :=
      if negb (hsize s =? 0) then
        if check_corruption s freeListCopy
        then (calls ++ [(freeListCopy + hsize s, osize s)], numObjects + 1)
        else (calls, numObjects)
      else (calls, numObjects) in
    ValidatePages_blocks k s (freeListCopy + calculate_block_size s) calls numObjects
  end.

Fixpoint ValidatePages_pages (fuel : nat) (s : ObjectAllocator) (pageListCopy : ptr)
         (calls : trace) (numObjects : Z) : option (trace * Z) :=
  match fuel with
  | O => None
  | S fuel' =>
    if pageListCopy =? nullptr then Some (calls, numObjects)
    else
      let freeListCopy := create_offset pageListCopy + (hsize s + pad s) in
      let '(calls, numObjects) :=
        ValidatePages_blocks (Z.to_nat (ObjectsPerPage_ (clientConfig s))) s freeListCopy
                             calls numObjects in
      ValidatePages_pages fuel' s (load_ptr (heap s) pageListCopy) calls numObjects
  end.

Definition ValidatePages (fuel : nat) (s : ObjectAllocator) : option (trace * Z) :=
  match ValidatePages_pages fuel s (PageList_ s) [] 0 with
  | Some (calls, numObjects) => Some (calls, u32 numObjects)
  | None => None
  end.

Definition FreeEmptyPages (s : ObjectAllocator) : Z := 0.
Definition ImplementedExtraCredit : bool := false.

(** ** Vocabulary of the claims *)

(** A client call; the state it leaves, whether it returned or threw. *)
Inductive call : Type :=
| Call_Allocate (sys : SysAlloc) (label : option string)
| Call_Free (fuel : nat) (Object : ptr).

Definition state_after {A} (o : outcome A) : option ObjectAllocator :=
  match o with
  | Done _ s => Some s
  | Throw _ s => Some s
  | Crash => None
  | Hang => None
  end.

Definition do_call (c : call) (s : ObjectAllocator) : option ObjectAllocator :=
  match c with
  | Call_Allocate sys label => state_after (Allocate sys label s)
  | Call_Free fuel Object => state_after (Free fuel Object s)
  end.

Fixpoint run (cs : list call) (s : ObjectAllocator) : option ObjectAllocator :=
  match cs with
  | [] => Some s
  | c :: cs' =>
    match do_call c s with
    | Some s' => run cs' s'
    | None => None
    end
  end.

(** [FreeObjects_ + ObjectsInUse_ == PagesInUse_ * ObjectsPerPage_], as the
    program evaluates it on its [unsigned] counters. *)
Definition balanced (s : ObjectAllocator) : Prop :=
  u32 (FreeObjects_ (stats s) + ObjectsInUse_ (stats s))
  = u32 (PagesInUse_ (stats s) * ObjectsPerPage_ (clientConfig s)).

(** The values an [unsigned] configuration field can hold. *)
Definition is_unsigned (x : Z) : Prop := 0 <= x < 2 ^ 32.
Definition is_size_t (x : Z) : Prop := 0 <= x < 2 ^ 64.


(** ** Postconditions of outcomes *)

(** [Qd] holds when [m] returns and [Qt] when it throws. *)
Definition post {A} (m : M A) (s : ObjectAllocator)
           (Qd : A -> ObjectAllocator -> Prop) (Qt : OA_EXCEPTION -> ObjectAllocator -> Prop) : Prop :=
  match m s with
  | Done a s' => Qd a s'
  | Throw e s' => Qt e s'
  | Crash => True
  | Hang => True
  end.


(** Two states with the same configuration and the same statistics. *)
Definition same_meta (s s' : ObjectAllocator) : Prop :=
  clientConfig s' = clientConfig s /\ stats s' = stats s.


(** [m] changes neither the configuration nor the statistics. *)
Definition keeps_meta {A} (m : M A) : Prop :=
  forall s, post m s (fun _ s' => same_meta s s') (fun _ s' => same_meta s s').


(** [m] never throws. *)
Definition no_throw {A} (m : M A) : Prop :=
  forall s, post m s (fun _ _ => True) (fun _ _ => False).

(** ** Linked lists in memory *)

(** The nodes met from [head] by following the [Next] field (the first
    pointer-sized field of a node) up to the null pointer are exactly [l]. *)
Fixpoint chain (m : memory) (head : ptr) (l : list ptr) : Prop :=
  match l with
  | [] => head = nullptr
  | a :: l' => head = a /\ a <> nullptr /\ chain m (load_ptr m a) l'
  end.

(** ** Layout of pages and blocks, in the words of the specification *)

(** Stride = object size + 2 x padding width + header size. *)
Definition block_stride (s : ObjectAllocator) : Z := osize s + 2 * pad s + hsize s.

(** The object storage of the first and of the last block of page [pg]:
    the addresses [Allocate] hands out for them. *)
Definition first_object (s : ObjectAllocator) (pg : ptr) : ptr :=
  pg + sizeof_ptr + hsize s + pad s.
Definition last_object (s : ObjectAllocator) (pg : ptr) : ptr :=
  first_object s pg + block_stride s * (ObjectsPerPage_ (clientConfig s) - 1).

(** [p] is at or above the page start and at or below the last block. *)
Definition within_page (s : ObjectAllocator) (pg p : ptr) : Prop :=
  pg <= p /\ p <= last_object s pg.

(** The offset of [p] from the first block is an exact multiple of the stride. *)
Definition on_stride (s : ObjectAllocator) (pg p : ptr) : Prop :=
  exists k, p - first_object s pg = k * block_stride s.

Definition page_accepts (s : ObjectAllocator) (pg p : ptr) : Prop :=
  within_page s pg p /\ on_stride s pg p.

(** Every padding byte on both sides of the object at [p] holds the pad pattern. *)
Definition pads_intact (s : ObjectAllocator) (p : ptr) : Prop :=
  forall i, 0 <= i < pad s ->
            heap s (p - pad s + i) mod 256 = PAD_PATTERN
            /\ heap s (p + osize s + i) mod 256 = PAD_PATTERN.

(** ** Well-formed configurations *)

(** The header is large enough for what [configure_header] writes in it. *)
Definition header_fits (h : HeaderBlockInfo) : Prop :=
  match type_ h with
  | hbNone => 0 <= size_ h
  | hbBasic => sizeof_int + sizeof_char <= size_ h
  | hbExtended => 0 <= additional_ h
                  /\ additional_ h + sizeof_short + sizeof_int + sizeof_char <= size_ h
  | hbExternal => sizeof_ptr <= size_ h
  end.

(** A pool-mode configuration whose fields have the values of their C++
    types, whose objects can hold the free-list link, and whose page size
    is computed without overflow. *)
Definition good_layout (c : OAConfig) (ObjectSize : Z) : Prop :=
  UseCPPMemManager_ c = false
  /\ is_unsigned (ObjectsPerPage_ c)
  /\ is_unsigned (MaxPages_ c)
  /\ 0 <= PadBytes_ c /\ 2 * PadBytes_ c < 2 ^ 32
  /\ sizeof_ptr <= ObjectSize
  /\ header_fits (HBlockInfo_ c)
  /\ ObjectSize + 2 * PadBytes_ c + size_ (HBlockInfo_ c) < 2 ^ 64
  /\ sizeof_ptr + (ObjectSize + 2 * PadBytes_ c + size_ (HBlockInfo_ c)) * ObjectsPerPage_ c < 2 ^ 64.

(** The test [check_bad_location] makes of one page: the pointer is out of
    the page or at a wrong offset. *)
Definition bad_page (s : ObjectAllocator) (toCheck pageList : ptr) : bool :=
  check_out_of_page s toCheck pageList
  || negb (u64 (toCheck - (create_offset pageList + hsize s + pad s)) mod calculate_block_size s =? 0).

(** The members as [put_on_freelist] leaves them before it validates. *)
Definition counted_free (s : ObjectAllocator) : ObjectAllocator :=
  set_stats inc_FreeObjects (set_stats dec_ObjectsInUse (set_stats inc_Deallocations s)).

(** The members as [take_off_freelist] leaves them before it writes the header. *)
Definition counted_alloc (s : ObjectAllocator) : ObjectAllocator :=
  set_stats inc_Allocations (set_stats inc_MostObjects
    (set_stats inc_ObjectsInUse (set_stats dec_FreeObjects s))).

(** What [put_on_freelist] does once the pointer is validated. *)
Definition put_on_freelist_tail (s : ObjectAllocator) (newFreeNode : ptr) : M unit :=
  configure_header no_sys newFreeNode false true None ;;
  when (DebugOn_ (clientConfig s))
       (modify (set_heap (fun m => memset m newFreeNode FREED_PATTERN (osize s)))) ;;
  if newFreeNode =? nullptr then crash
  else if FreeList_ s =? nullptr then
    modify (set_FreeList newFreeNode) ;;
    modify (set_heap (fun m => store_ptr m newFreeNode nullptr))
  else
    modify (set_heap (fun m => store_ptr m newFreeNode (FreeList_ s))) ;;
    modify (set_FreeList newFreeNode).


(** ** Concrete allocators used in the examples *)

Definition zero_memory : memory := fun _ => 0.

(** The system allocator answers one page request with the address [a]. *)
Definition sys_page (a : ptr) : SysAlloc := mkSys (Some a) None None None.

Definition state_of {A} (o : outcome A) : ObjectAllocator :=
  match o with
  | Done _ s => s
  | Throw _ s => s
  | Crash => mkOA (mkOAConfig true 0 0 false 0 (mkHeaderBlockInfo hbNone 0 0)) OAStats_init 0 0 0 zero_memory
  | Hang => mkOA (mkOAConfig true 0 0 false 0 (mkHeaderBlockInfo hbNone 0 0)) OAStats_init 0 0 0 zero_memory
  end.

(** 16-byte objects, three per page, at most two pages, debug mode on, two
    pad bytes on each side, basic headers; the first page is at 4096. *)
Definition basic_config : OAConfig :=
  mkOAConfig false 3 2 true 2 (mkHeaderBlockInfo hbBasic 5 0).
Definition basic_fresh : ObjectAllocator :=
  state_of (ObjectAllocator_ctor zero_memory (sys_page 4096) 16 basic_config).
(** ... after one [Allocate], which returns 4161 ... *)
Definition basic_one : ObjectAllocator := state_of (Allocate no_sys None basic_fresh).
(** ... and after that object is freed again. *)
Definition basic_freed : ObjectAllocator := state_of (Free 10 4161 basic_one).

(** The same without headers. *)
Definition plain_config : OAConfig :=
  mkOAConfig false 3 2 true 2 (mkHeaderBlockInfo hbNone 0 0).
Definition plain_fresh : ObjectAllocator :=
  state_of (ObjectAllocator_ctor zero_memory (sys_page 4096) 16 plain_config).
Definition plain_one : ObjectAllocator := state_of (Allocate no_sys None plain_fresh).
(** The client writes one zero byte directly past its 16-byte object at 4146. *)
Definition plain_overrun : ObjectAllocator :=
  set_heap (fun m => store m (4146 + 16) 1 0) plain_one.

(** External headers, no padding, debug mode off. *)
Definition external_config : OAConfig :=
  mkOAConfig false 3 2 false 0 (mkHeaderBlockInfo hbExternal 8 0).
Definition external_fresh : ObjectAllocator :=
  state_of (ObjectAllocator_ctor zero_memory (sys_page 4096) 16 external_config).
(** One [Allocate]; the [MemBlockInfo] record is placed at 8192 = 0x2000. *)
Definition external_one : ObjectAllocator :=
  state_of (Allocate (mkSys None (Some 8192) None None) None external_fresh).

(** Basic headers again, debug mode off. *)
Definition quiet_config : OAConfig :=
  mkOAConfig false 3 2 false 0 (mkHeaderBlockInfo hbBasic 5 0).
Definition quiet_fresh : ObjectAllocator :=
  state_of (ObjectAllocator_ctor zero_memory (sys_page 4096) 16 quiet_config).
Definition quiet_one : ObjectAllocator := state_of (Allocate no_sys None quiet_fresh).
Definition quiet_freed : ObjectAllocator := state_of (Free 10 4151 quiet_one).
Definition quiet_freed_twice : ObjectAllocator := state_of (Free 10 4151 quiet_freed).

(** What an outcome returned or threw, without its state. *)
Definition returned {A} (o : outcome A) : option A :=
  match o with Done a _ => Some a | _ => None end.
Definition thrown {A} (o : outcome A) : option OA_EXCEPTION :=
  match o with Throw e _ => Some e | _ => None end.
Definition the_state (o : option ObjectAllocator) : ObjectAllocator :=
  match o with
  | Some s => s
  | None => state_of (@Crash unit)
  end.
Definition is_some {A} (o : option A) : bool :=
  match o with Some _ => true | None => false end.

(** [m] leaves the members as they are, whether it returns or throws. *)
Definition read_only {A} (m : M A) : Prop :=
  forall s, post m s (fun _ s' => s' = s) (fun _ s' => s' = s).


Definition the_client (o : option (ObjectAllocator * list ptr * list ptr))
  : ObjectAllocator * list ptr * list ptr :=
  match o with
  | Some cl => cl
  | None => (state_of (@Crash unit), [], [])
  end.

(** ** The layout of a pool and the effect of the header writes *)

Section Layout.
Variables (c : OAConfig) (OS : Z).

Definition stride : Z := OS + 2 * PadBytes_ c + size_ (HBlockInfo_ c).
Definition span : Z := sizeof_ptr + stride * ObjectsPerPage_ c.

(** The object storage of block [k] of page [pg]. *)
Definition block_at (pg : ptr) (k : Z) : ptr :=
  pg + sizeof_ptr + size_ (HBlockInfo_ c) + PadBytes_ c + stride * k.

Definition is_block (pgs : list ptr) (b : ptr) : Prop :=
  exists pg k, In pg pgs /\ 0 <= k < ObjectsPerPage_ c /\ b = block_at pg k.

(** The first [n] blocks of a page, last one first: the order in which
    [segment_page] threads them on the free list. *)
Fixpoint page_blocks (pg : ptr) (n : nat) : list ptr :=
  match n with
  | O => []
  | S k => block_at pg (Z.of_nat k) :: page_blocks pg k
  end.

Definition header_at (b : ptr) : ptr := b - (PadBytes_ c + size_ (HBlockInfo_ c)).

Definition pads_ok (m : memory) (b : ptr) : Prop :=
  forall i, 0 <= i < PadBytes_ c ->
            m (b - PadBytes_ c + i) mod 256 = PAD_PATTERN
            /\ m (b + OS + i) mod 256 = PAD_PATTERN.

(** The memory after [make_block] has painted the padding of [b]. *)
Definition paint_pads (b : ptr) (m : memory) : memory :=
  if DebugOn_ c
  then memset (memset m (b - PadBytes_ c) PAD_PATTERN (PadBytes_ c))
              (b + OS) PAD_PATTERN (PadBytes_ c)
  else m.

(** ... after [configure_header (b, false, false)] ... *)
Definition clear_header (b : ptr) (m : memory) : memory :=
  match type_ (HBlockInfo_ c) with
  | hbNone => m
  | _ => memset m (header_at b) 0 (size_ (HBlockInfo_ c))
  end.

(** ... after [configure_header (b, false, true)] ... *)
Definition header_freed (b : ptr) (m : memory) : memory :=
  match type_ (HBlockInfo_ c) with
  | hbNone => m
  | hbBasic => memset m (header_at b) 0 (size_ (HBlockInfo_ c))
  | hbExtended =>
    memset m (header_at b + additional_ (HBlockInfo_ c) + sizeof_short) 0
           (sizeof_int + sizeof_char)
  | hbExternal => memset m (header_at b) 0 (size_ (HBlockInfo_ c))
  end.

(** ... and after [configure_header (b, true, false, label)], with the
    exception it throws, if any. *)
Definition header_allocated (allocations : Z) (sys : SysAlloc) (label : option string)
           (b : ptr) (m : memory) : option OA_EXCEPTION * memory :=
  let hl := header_at b in
  match type_ (HBlockInfo_ c) with
  | hbNone => (None, m)
  | hbBasic =>
    (None, store (store (memset m hl 0 (size_ (HBlockInfo_ c))) hl sizeof_int allocations)
                 (hl + sizeof_int) sizeof_char 1)
  | hbExtended =>
    let additional := additional_ (HBlockInfo_ c) in
    let m1 := memset m hl 0 additional in
    let m2 := store m1 (hl + additional) sizeof_short
                    (u16 (load m1 (hl + additional) sizeof_short + 1)) in
    (None, store (store m2 (hl + additional + sizeof_short) sizeof_int allocations)
                 (hl + additional + sizeof_short + sizeof_int) sizeof_char 1)
  | hbExternal =>
    match new_info sys with
    | None => (Some E_NO_MEMORY, m)
    | Some info =>
      let finish m :=
          store_ptr (store (store m (info + MemBlockInfo_alloc_num) sizeof_int allocations)
                           (info + MemBlockInfo_in_use) sizeof_char 1) hl info in
      let m1 := memset m info 0 sizeof_MemBlockInfo in
      match label with
      | Some l =>
        match new_label sys with
        | None => (Some E_NO_MEMORY, m1)
        | Some str => (None, finish (strcpy (store_ptr m1 (info + MemBlockInfo_label) str) str l))
        end
      | None => (None, finish m1)
      end
    end
  end.

(** The region [a, a + n) lies in the address space and meets no page. *)
Definition region_free (pgs : list ptr) (a n : Z) : bool :=
  (0 <? a) && (a + n <=? 2 ^ 64)
  && forallb (fun pg => (a + n <=? pg) || (pg + span <=? a)) pgs.
End Layout.

(** The memory after [add_to_page] has added block [i] of page [pg]. *)
Definition block_added (c : OAConfig) (OS : Z) (pg : ptr) (i : Z) (m : memory) : memory :=
  let b := block_at c OS pg i in
  clear_header c b
    (if i =? 0
     then store_ptr (if DebugOn_ c
                     then memset (paint_pads c OS b m) (b - PadBytes_ c) PAD_PATTERN (PadBytes_ c)
                     else paint_pads c OS b m) b nullptr
     else store_ptr (paint_pads c OS (block_at c OS pg (i - 1)) (paint_pads c OS b m))
                    b (block_at c OS pg (i - 1))).


(** ** The invariant of a pool under valid use

    [pgs] are the pages, newest first, [fl] the blocks on the free list in
    list order, [live] the pointers handed out and not yet freed. *)
Record pool_ok (s : ObjectAllocator) (pgs fl live : list ptr) : Prop := mk_pool_ok {
  ok_layout : good_layout (clientConfig s) (osize s);
  ok_page_size : PageSize_ (stats s) = span (clientConfig s) (osize s);
  ok_pages : chain (heap s) (PageList_ s) pgs;
  ok_pages_range :
    forall pg, In pg pgs -> 0 < pg /\ pg + span (clientConfig s) (osize s) <= 2 ^ 64;
  ok_pages_apart :
    forall pg1 pg2, In pg1 pgs -> In pg2 pgs -> pg1 <> pg2 ->
                    pg1 + span (clientConfig s) (osize s) <= pg2
                    \/ pg2 + span (clientConfig s) (osize s) <= pg1;
  ok_pages_count :
    PagesInUse_ (stats s) = Z.of_nat (List.length pgs)
    /\ Z.of_nat (List.length pgs) <= MaxPages_ (clientConfig s);
  ok_free : chain (heap s) (FreeList_ s) fl;
  ok_free_nodup : NoDup fl;
  ok_free_blocks : forall b, In b fl -> is_block (clientConfig s) (osize s) pgs b;
  ok_live_nodup : NoDup live;
  ok_live_blocks : forall b, In b live -> is_block (clientConfig s) (osize s) pgs b;
  ok_disjoint : forall b, In b live -> ~ In b fl;
  ok_free_count : FreeObjects_ (stats s) = u32 (Z.of_nat (List.length fl));
  ok_pads :
    DebugOn_ (clientConfig s) = true ->
    forall b, is_block (clientConfig s) (osize s) pgs b ->
              pads_ok (clientConfig s) (osize s) (heap s) b;
  ok_external :
    type_ (HBlockInfo_ (clientConfig s)) = hbExternal ->
    forall b, In b live -> load_ptr (heap s) (header_at (clientConfig s) b) <> nullptr
}.

(** ** Valid use of a pool *)

(** The pages after an [Allocate] in state [s]. *)
Definition pages_after (s : ObjectAllocator) (pgs : list ptr) (sys : SysAlloc) : list ptr :=
  if FreeList_ s =? nullptr then
    match new_page sys with Some np => np :: pgs | None => pgs end
  else pgs.

(** The storage the system allocator returns during an [Allocate] is new:
    a page meets no earlier page, and a [MemBlockInfo] record or a label
    meets no page. *)
Definition sys_fresh (s : ObjectAllocator) (pgs : list ptr) (sys : SysAlloc)
           (label : option string) : bool :=
  (if FreeList_ s =? nullptr then
     match new_page sys with
     | Some np => region_free (clientConfig s) (osize s) pgs np (span (clientConfig s) (osize s))
     | None => true
     end
   else true)
  && match type_ (HBlockInfo_ (clientConfig s)) with
     | hbExternal =>
       match new_info sys with
       | Some info =>
         region_free (clientConfig s) (osize s) (pages_after s pgs sys) info sizeof_MemBlockInfo
       | None => true
       end
       && match new_label sys, label with
          | Some str, Some l =>
            region_free (clientConfig s) (osize s) (pages_after s pgs sys) str
                        (Z.of_nat (String.length l) + 1)
          | _, _ => true
          end
     | _ => true
     end.

(** A client of the pool: the allocator, its pages and the pointers the
    client holds. *)
Definition client : Type := ObjectAllocator * list ptr * list ptr.

(** One call of a client that keeps to the protocol: [Allocate] returns,
    and [Free] is given a pointer the client holds and returns. *)
Definition client_call (cl : client) (cc : call) : option client :=
  let '(s, pgs, live) := cl in
  match cc with
  | Call_Allocate sys label =>
    if sys_fresh s pgs sys label then
      match Allocate sys label s with
      | Done p s' => Some (s', pages_after s pgs sys, p :: live)
      | _ => None
      end
    else None
  | Call_Free fuel p =>
    if in_dec Z.eq_dec p live then
      match Free fuel p s with
      | Done _ s' => Some (s', pgs, remove Z.eq_dec p live)
      | _ => None
      end
    else None
  end.

Fixpoint client_run (cs : list call) (cl : client) : option client :=
  match cs with
  | [] => Some cl
  | cc :: cs' =>
    match client_call cl cc with
    | Some cl' => client_run cs' cl'
    | None => None
    end
  end.

(** Construction of a pool whose first page is new storage. *)
Definition client_new (m0 : memory) (sys : SysAlloc) (ObjectSize : Z) (config : OAConfig)
  : option client :=
  match new_page sys with
  | Some np =>
    if region_free config ObjectSize [] np (span config ObjectSize) then
      match ObjectAllocator_ctor m0 sys ObjectSize config with
      | Done _ s => Some (s, [np], [])
      | _ => None
      end
    else None
  | None => None
  end.

(** With external headers, the records and labels the system allocator
    returns meet no page of [pgs]. *)
Definition sys_outside (c : OAConfig) (OS : Z) (pgs : list ptr) (sys : SysAlloc)
           (label : option string) : Prop :=
  type_ (HBlockInfo_ c) = hbExternal ->
  (forall info, new_info sys = Some info ->
                region_free c OS pgs info sizeof_MemBlockInfo = true)
  /\ (forall str l, new_label sys = Some str -> label = Some l ->
                    region_free c OS pgs str (Z.of_nat (String.length l) + 1) = true).

(** The fuel exceeds the number of pages and the number of blocks, so the
    scans of the page list and of the free list reach their end. *)
Definition enough_fuel (config : OAConfig) (pgs : list ptr) (fuel : nat) : Prop :=
  (List.length pgs * Z.to_nat (ObjectsPerPage_ config) + List.length pgs < fuel)%nat.

(** A client of the allocator [basic_config]: two objects allocated ... *)
Definition basic_client : client :=
  the_client (client_new zero_memory (sys_page 4096) 16 basic_config).
Definition basic_client_two : client :=
  the_client (client_run [Call_Allocate no_sys None; Call_Allocate no_sys None] basic_client).
(** ... and the first of them, at 4161, freed again. *)
Definition basic_client_three : client :=
  the_client (client_run [Call_Allocate no_sys None; Call_Allocate no_sys None;
                          Call_Free 10 4161] basic_client).

(** [basic_fresh] after three [Allocate] calls: its one page is used up. *)
Definition basic_full : ObjectAllocator :=
  the_state (run [Call_Allocate no_sys None; Call_Allocate no_sys None;
                  Call_Allocate no_sys None] basic_fresh).

(** ** Exceptions of an operation *)

(** [m] throws only exceptions that satisfy [P]. *)
Definition throws_only {A} (m : M A) (P : OA_EXCEPTION -> Prop) : Prop :=
  forall s, post m s (fun _ _ => True) (fun e _ => P e).

(** [basic_full] after three more [Allocate] calls, the first of which
    obtains the second and last page at 8192: every block is handed out. *)
Definition basic_exhausted : ObjectAllocator :=
  the_state (run [Call_Allocate (sys_page 8192) None; Call_Allocate no_sys None;
                  Call_Allocate no_sys None] basic_full).

(** Extended headers with two user bytes (header size 2 + 2 + 4 + 1 = 9):
    construction, one [Allocate] (it returns 4173), the [Free] of that
    object. *)
Definition extended_config : OAConfig :=
  mkOAConfig false 3 2 true 2 (mkHeaderBlockInfo hbExtended 9 2).
Definition extended_fresh : ObjectAllocator :=
  state_of (ObjectAllocator_ctor zero_memory (sys_page 4096) 16 extended_config).
Definition extended_one : ObjectAllocator := state_of (Allocate no_sys None extended_fresh).
Definition extended_freed : ObjectAllocator := state_of (Free 10 4173 extended_one).
Definition extended_again : ObjectAllocator := state_of (Allocate no_sys None extended_freed).

(** ** How one call moves the statistics *)

Definition allocated_stats (st : OAStats) : OAStats :=
  inc_Allocations (inc_MostObjects (inc_ObjectsInUse (dec_FreeObjects st))).
Definition freed_stats (st : OAStats) : OAStats :=
  inc_FreeObjects (dec_ObjectsInUse (inc_Deallocations st)).
Definition paged_stats (c : OAConfig) (st : OAStats) : OAStats :=
  inc_PagesInUse (Nat.iter (Z.to_nat (ObjectsPerPage_ c)) inc_FreeObjects st).

(** The statistics [st'] an [Allocate] or a [Free] can leave, returning or
    throwing, when called with the statistics [st]. *)
Definition stats_step (c : OAConfig) (st st' : OAStats) : Prop :=
  if UseCPPMemManager_ c
  then st' = inc_MostObjects (inc_Allocations st) \/ st' = inc_Deallocations st
  else st' = st
       \/ st' = allocated_stats st
       \/ (PagesInUse_ st < MaxPages_ c /\ st' = allocated_stats (paged_stats c st))
       \/ st' = freed_stats st.

(** A fallback-mode configuration. *)
Definition fallback_config : OAConfig :=
  mkOAConfig true 3 2 true 2 (mkHeaderBlockInfo hbBasic 5 0).

(** The calls of the examples: an [Allocate], the [Free] of the object it
    returned, a second [Free] of the same pointer (refused), and three more
    [Allocate] calls, the last of which obtains the second page. *)
Definition example_calls : list call :=
  [Call_Allocate no_sys None; Call_Free 10 4161; Call_Free 10 4161;
   Call_Allocate no_sys None; Call_Allocate no_sys None; Call_Allocate no_sys None;
   Call_Allocate (sys_page 8192) None].
Definition basic_after_calls : ObjectAllocator := the_state (run example_calls basic_fresh).

(** A client of [basic_config] that holds all six blocks of the two pages. *)
Definition six_allocations : list call :=
  [Call_Allocate no_sys None; Call_Allocate no_sys None; Call_Allocate no_sys None;
   Call_Allocate (sys_page 8192) None; Call_Allocate no_sys None; Call_Allocate no_sys None].
Definition basic_client_six : client := the_client (client_run six_allocations basic_client).

(** A client of [basic_config] that holds the three blocks of the first page. *)
Definition basic_client_full : client :=
  the_client (client_run [Call_Allocate no_sys None; Call_Allocate no_sys None;
                          Call_Allocate no_sys None] basic_client).
(** ... and after the next [Allocate], which obtains the page at 8192. *)
Definition basic_client_next : client :=
  the_client (client_call (fst (fst basic_client_full), snd (fst basic_client_full),
                           snd basic_client_full)
                          (Call_Allocate (sys_page 8192) None)).

(** ** The blocks in the order of a scan *)

(** [n] addresses from [b] on, [step] apart. *)
Fixpoint blocks_from (b : ptr) (step : Z) (n : nat) : list ptr :=
  match n with
  | O => []
  | S k => b :: blocks_from (b + step) step k
  end.

(** The object addresses of the blocks of a page, in address order, and of
    the pages of a list, page by page: the order in which [DumpMemoryInUse]
    and [ValidatePages] visit them. *)
Definition page_objects (c : OAConfig) (OS : Z) (pg : ptr) : list ptr :=
  blocks_from (block_at c OS pg 0) (stride c OS) (Z.to_nat (ObjectsPerPage_ c)).
Definition pool_objects (c : OAConfig) (OS : Z) (pgs : list ptr) : list ptr :=
  flat_map (page_objects c OS) pgs.

(** [basic_client_two] after the [Free] of the object at 4161. *)
Definition basic_client_freed : client :=
  the_client (client_call (fst (fst basic_client_two), snd (fst basic_client_two),
                           snd basic_client_two)
                          (Call_Free 10 4161)).

(** The client of [basic_client_two] overwrites the byte directly past its
    object at 4136. *)
Definition basic_two_overrun : ObjectAllocator :=
  set_heap (fun m => store m (4136 + 16) 1 0) (fst (fst basic_client_two)).

(** ** The destructor *)

(** [ObjectAllocator::~ObjectAllocator ()]: the loop over the page list.
    [deleted] collects the pages handed to [delete[]], in order; [None]
    when the list does not end within [fuel] links. *)
Fixpoint ObjectAllocator_dtor_loop (fuel : nat) (s : ObjectAllocator) (deleted : list ptr)
  : option (list ptr * ObjectAllocator) :=
  match fuel with
  | O => None
  | S fuel' =>
    if PageList_ s =? nullptr then Some (deleted, s)
    else
      let toDelete := PageList_ s in
      let s := set_PageList (load_ptr (heap s) (PageList_ s)) s in
      ObjectAllocator_dtor_loop fuel' s (deleted ++ [toDelete])
  end.

Definition ObjectAllocator_dtor (fuel : nat) (s : ObjectAllocator)
  : option (list ptr * ObjectAllocator) :=
  ObjectAllocator_dtor_loop fuel s [].

(** ** The in-use flag of a header *)

(** The header sizes for which the flag byte that [configure_header]
    writes is the last byte of the header, where [check_leak_in_header]
    reads it: five bytes for the basic header, the user bytes plus seven for
    the extended one. *)
Definition header_exact (h : HeaderBlockInfo) : Prop :=
  match type_ h with
  | hbBasic => size_ h = sizeof_int + sizeof_char
  | hbExtended => size_ h = additional_ h + sizeof_short + sizeof_int + sizeof_char
  | _ => False
  end.

(** What [DumpMemoryInUse] tests for the block with object address [b]. *)
Definition flagged (s : ObjectAllocator) (b : ptr) : bool :=
  check_leak_in_header s (header_at (clientConfig s) b).

(** The flag is set for exactly the blocks the client holds. *)
Definition flags_ok (s : ObjectAllocator) (pgs live : list ptr) : Prop :=
  forall b, is_block (clientConfig s) (osize s) pgs b -> (flagged s b = true <-> In b live).

(** ** Strings in memory *)

(** The bytes from [a] on hold the characters of [l] and the closing NUL. *)
Fixpoint string_at (m : memory) (a : ptr) (l : string) : Prop :=
  match l with
  | EmptyString => m a = 0
  | String c rest => m a = Z.of_nat (nat_of_ascii c) /\ string_at m (a + 1) rest
  end.

(** The system allocator places the [MemBlockInfo] record at 8192 and the
    label at 8300. *)
Definition sys_record : SysAlloc := mkSys None (Some 8192) (Some 8300) None.
(** [external_fresh] after an [Allocate] with the label "ab"; it returns 4160. *)
Definition external_labelled : ObjectAllocator :=
  state_of (Allocate sys_record (Some "ab"%string) external_fresh).

(** ** Objects smaller than the free-list link *)

(** The configuration [basic_config] with objects of six bytes: the block
    stride is 6 + 2 * 2 + 5 = 15 and the blocks of the page at 4096 are at
    4111, 4126 and 4141.  The eight-byte link that [add_to_page] stores in a
    block runs over the two pad bytes after the object. *)
Definition small_fresh : ObjectAllocator :=
  state_of (ObjectAllocator_ctor zero_memory (sys_page 4096) 6 basic_config).
(** ... after one [Allocate], which returns 4141. *)
Definition small_one : ObjectAllocator := state_of (Allocate no_sys None small_fresh).

(** ** Valid use in fallback mode *)

(** One call of a client in fallback mode, with the pointers it holds:
    those [new[]] returned and [delete[]] has not been given since.
    [Allocate] adds the pointer it returns, which the system allocator has
    not handed out already; [Free] is given a pointer the client holds.
    [delete[]] of any other pointer is undefined in the program, and [None]
    here, as are a crash and a loop that does not end. *)
Definition fallback_call (cl : ObjectAllocator * list ptr) (cc : call)
  : option (ObjectAllocator * list ptr) :=
  let '(s, held) := cl in
  match cc with
  | Call_Allocate sys label =>
    match Allocate sys label s with
    | Done p s' => if in_dec Z.eq_dec p held then None else Some (s', p :: held)
    | Throw _ s' => Some (s', held)
    | _ => None
    end
  | Call_Free fuel p =>
    if in_dec Z.eq_dec p held then
      match Free fuel p s with
      | Done _ s' => Some (s', remove Z.eq_dec p held)
      | Throw _ s' => Some (s', held)
      | _ => None
      end
    else None
  end.

Fixpoint fallback_run (cs : list call) (cl : ObjectAllocator * list ptr)
  : option (ObjectAllocator * list ptr) :=
  match cs with
  | [] => Some cl
  | cc :: cs' =>
    match fallback_call cl cc with
    | Some cl' => fallback_run cs' cl'
    | None => None
    end
  end.

(** The system allocator answers [new char[ObjectSize_]] with the address [a]. *)
Definition sys_object (a : ptr) : SysAlloc := mkSys None None None (Some a).

(** Two allocations, at 20480 and at 24576, and the [Free] of the first. *)
Definition fallback_calls : list call :=
  [Call_Allocate (sys_object 20480) None; Call_Allocate (sys_object 24576) None;
   Call_Free 0 20480].
Definition fallback_fresh : ObjectAllocator :=
  state_of (ObjectAllocator_ctor zero_memory no_sys 16 fallback_config).
(** ** Reasoning about outcomes *)

Lemma post_bind {A B} (m : M A) (f : A -> M B) s Qd Qt :
  post m s (fun a s' => post (f a) s' Qd Qt) Qt -> post (bind m f) s Qd Qt.
Proof.
  unfold post, bind. destruct (m s); auto.
Qed.

Lemma post_weaken {A} (m : M A) s (Qd Qd' : A -> ObjectAllocator -> Prop)
      (Qt Qt' : OA_EXCEPTION -> ObjectAllocator -> Prop) :
  post m s Qd Qt ->
  (forall a s', Qd a s' -> Qd' a s') ->
  (forall e s', Qt e s' -> Qt' e s') ->
  post m s Qd' Qt'.
Proof.
  unfold post. destruct (m s); auto.
Qed.

Lemma same_meta_refl s : same_meta s s.
Proof. split; reflexivity. Qed.

Lemma same_meta_trans s1 s2 s3 : same_meta s1 s2 -> same_meta s2 s3 -> same_meta s1 s3.
Proof. unfold same_meta. intros [-> ->] [-> ->]. auto. Qed.

Lemma keeps_meta_bind {A B} (m : M A) (f : A -> M B) :
  keeps_meta m -> (forall a, keeps_meta (f a)) -> keeps_meta (bind m f).
Proof.
  intros Hm Hf s. apply post_bind. specialize (Hm s).
  unfold post in *. destruct (m s) as [a s'| | |]; auto.
  specialize (Hf a s'). unfold post in Hf.
  destruct (f a s'); auto; eapply same_meta_trans; eauto.
Qed.

Lemma keeps_meta_ret {A} (a : A) : keeps_meta (ret a).
Proof. intro s. apply same_meta_refl. Qed.

Lemma keeps_meta_throw {A} e : keeps_meta (@throw A e).
Proof. intro s. apply same_meta_refl. Qed.

Lemma keeps_meta_crash {A} : keeps_meta (@crash A).
Proof. intro s. exact I. Qed.

Lemma keeps_meta_hang {A} : keeps_meta (@hang A).
Proof. intro s. exact I. Qed.

Lemma keeps_meta_get : keeps_meta get.
Proof. intro s. apply same_meta_refl. Qed.

Lemma keeps_meta_set_heap f : keeps_meta (modify (set_heap f)).
Proof. intro s. split; reflexivity. Qed.

Lemma keeps_meta_set_FreeList f : keeps_meta (modify (fun s => set_FreeList (f s) s)).
Proof. intro s. split; reflexivity. Qed.

Lemma keeps_meta_set_PageList p : keeps_meta (modify (set_PageList p)).
Proof. intro s. split; reflexivity. Qed.

Lemma keeps_meta_set_blockIter f : keeps_meta (modify (fun s => set_blockIter (f s) s)).
Proof. intro s. split; reflexivity. Qed.

Lemma keeps_meta_when b m : keeps_meta m -> keeps_meta (when b m).
Proof. destruct b; simpl; auto. intros _. apply keeps_meta_ret. Qed.

Ltac keeps_meta_step :=
  match goal with
  | |- keeps_meta (bind _ _) => apply keeps_meta_bind; [| intro]
  | |- keeps_meta (ret _) => apply keeps_meta_ret
  | |- keeps_meta (throw _) => apply keeps_meta_throw
  | |- keeps_meta crash => apply keeps_meta_crash
  | |- keeps_meta hang => apply keeps_meta_hang
  | |- keeps_meta get => apply keeps_meta_get
  | |- keeps_meta (modify (set_heap _)) => apply keeps_meta_set_heap
  | |- keeps_meta (modify (set_FreeList ?p)) => apply (keeps_meta_set_FreeList (fun _ => p))
  | |- keeps_meta (modify (fun s => set_FreeList _ s)) => apply keeps_meta_set_FreeList
  | |- keeps_meta (modify (set_PageList _)) => apply keeps_meta_set_PageList
  | |- keeps_meta (modify (set_blockIter ?i)) => apply (keeps_meta_set_blockIter (fun _ => i))
  | |- keeps_meta (modify (fun s => set_blockIter _ s)) => apply keeps_meta_set_blockIter
  | |- keeps_meta (when _ _) => apply keeps_meta_when
  | |- keeps_meta (if ?b then _ else _) => destruct b
  | |- keeps_meta (match ?x with _ => _ end) => destruct x
  end.

Ltac keeps_meta_tac := repeat keeps_meta_step.

Lemma keeps_meta_allocate_empty_page newPage : keeps_meta (allocate_empty_page newPage).
Proof. unfold allocate_empty_page. keeps_meta_tac. Qed.

Lemma keeps_meta_make_block b : keeps_meta (make_block b).
Proof. unfold make_block. keeps_meta_tac. Qed.

Lemma keeps_meta_configure_header sys block allocated freed label :
  keeps_meta (configure_header sys block allocated freed label).
Proof. unfold configure_header. keeps_meta_tac. Qed.

Lemma keeps_meta_check_wrong_offset p pg : keeps_meta (check_wrong_offset p pg).
Proof. unfold check_wrong_offset. keeps_meta_tac. Qed.

Lemma keeps_meta_check_bad_location_loop fuel : forall p pg b,
  keeps_meta (check_bad_location_loop fuel p pg b).
Proof.
  induction fuel; intros; simpl; keeps_meta_tac; auto using keeps_meta_check_wrong_offset.
Qed.

Lemma keeps_meta_check_bad_location fuel p pg : keeps_meta (check_bad_location fuel p pg).
Proof.
  unfold check_bad_location. keeps_meta_tac. apply keeps_meta_check_bad_location_loop.
Qed.

Lemma keeps_meta_check_multiple_free fuel : forall p fl,
  keeps_meta (check_multiple_free fuel p fl).
Proof. induction fuel; intros; simpl; keeps_meta_tac; auto. Qed.

Lemma keeps_meta_check_freelist fuel p : keeps_meta (check_freelist fuel p).
Proof.
  unfold check_freelist. keeps_meta_tac;
    auto using keeps_meta_check_multiple_free, keeps_meta_check_bad_location.
Qed.

(** Unfolding a monadic definition along its branches. *)
Ltac use_eqs :=
  repeat match goal with
         | H : ?b = _ |- context [?b] => rewrite H
         end.

Ltac break_branch :=
  match goal with
  | |- context [if ?b then _ else _] => destruct b eqn:?
  | |- context [match ?x with _ => _ end] => destruct x eqn:?
  end.

Ltac run_monad :=
  unfold bind, get, modify, when, ret, throw, crash, hang; simpl;
  repeat (use_eqs; simpl; try break_branch; simpl).

Lemma add_to_page_meta s :
  exists s', add_to_page s = Done tt s'
             /\ clientConfig s' = clientConfig s
             /\ stats s' = inc_FreeObjects (stats s).
Proof.
  unfold add_to_page, make_block, configure_header, hsize, pad, osize.
  run_monad; eexists; repeat split; reflexivity.
Qed.

Lemma u32_idemp_add_l x y : u32 (u32 x + y) = u32 (x + y).
Proof. unfold u32. apply Z.add_mod_idemp_l. lia. Qed.

Lemma u32_idemp_add_r x y : u32 (x + u32 y) = u32 (x + y).
Proof. unfold u32. apply Z.add_mod_idemp_r. lia. Qed.

Lemma u32_idemp_mul_l x y : u32 (u32 x * y) = u32 (x * y).
Proof. unfold u32. apply Z.mul_mod_idemp_l. lia. Qed.

Lemma u32_small x : 0 <= x < 2 ^ 32 -> u32 x = x.
Proof. unfold u32. intros. apply Z.mod_small. lia. Qed.

Lemma u32_range x : 0 <= u32 x < 2 ^ 32.
Proof. unfold u32. apply Z.mod_pos_bound. lia. Qed.

Lemma iter_inc_FreeObjects n st :
  let st' := Nat.iter n inc_FreeObjects st in
  ObjectSize_ st' = ObjectSize_ st /\ PageSize_ st' = PageSize_ st
  /\ ObjectsInUse_ st' = ObjectsInUse_ st /\ PagesInUse_ st' = PagesInUse_ st
  /\ MostObjects_ st' = MostObjects_ st /\ Allocations_ st' = Allocations_ st
  /\ Deallocations_ st' = Deallocations_ st
  /\ forall y, u32 (FreeObjects_ st' + y) = u32 (FreeObjects_ st + Z.of_nat n + y).
Proof.
  induction n as [|n IH]; simpl.
  - repeat split; auto. intros. f_equal. lia.
  - destruct IH as (? & ? & ? & ? & ? & ? & ? & IH).
    repeat split; auto. intros y.
    rewrite u32_idemp_add_l.
    replace (FreeObjects_ (Nat.iter n inc_FreeObjects st) + 1 + y)
      with (FreeObjects_ (Nat.iter n inc_FreeObjects st) + (1 + y)) by lia.
    rewrite IH. f_equal. lia.
Qed.

Lemma repeatM_add_to_page n : forall s,
  exists s', repeatM n add_to_page s = Done tt s'
             /\ clientConfig s' = clientConfig s
             /\ stats s' = Nat.iter n inc_FreeObjects (stats s).
Proof.
  induction n as [|n IH]; intros s; simpl.
  - exists s. auto.
  - destruct (add_to_page_meta s) as (s1 & E1 & C1 & S1).
    destruct (IH s1) as (s2 & E2 & C2 & S2).
    exists s2. unfold bind. rewrite E1. split; [exact E2|]. split; [congruence|].
    rewrite S2, S1. clear. induction n; simpl; congruence.
Qed.

Lemma segment_page_meta s :
  exists s', segment_page s = Done tt s'
             /\ clientConfig s' = clientConfig s
             /\ stats s' = inc_PagesInUse
                             (Nat.iter (Z.to_nat (ObjectsPerPage_ (clientConfig s)))
                                       inc_FreeObjects (stats s)).
Proof.
  unfold segment_page, bind, modify, get. simpl.
  destruct (repeatM_add_to_page (Z.to_nat (ObjectsPerPage_ (clientConfig s))) (set_blockIter 0 s))
    as (s1 & E1 & C1 & S1).
  rewrite E1. eexists. split; [reflexivity|]. simpl. split; [exact C1|]. rewrite S1. reflexivity.
Qed.

Lemma balanced_new_page s s' :
  is_unsigned (ObjectsPerPage_ (clientConfig s)) ->
  clientConfig s' = clientConfig s ->
  stats s' = inc_PagesInUse (Nat.iter (Z.to_nat (ObjectsPerPage_ (clientConfig s)))
                                      inc_FreeObjects (stats s)) ->
  balanced s -> balanced s'.
Proof.
  unfold balanced, is_unsigned. intros Hopp Hc Hs Hb. rewrite Hc, Hs. simpl.
  destruct (iter_inc_FreeObjects (Z.to_nat (ObjectsPerPage_ (clientConfig s))) (stats s))
    as (_ & _ & HU & HP & _ & _ & _ & HF).
  rewrite HU, HP, HF, u32_idemp_mul_l, Z2Nat.id by lia.
  replace (FreeObjects_ (stats s) + ObjectsPerPage_ (clientConfig s) + ObjectsInUse_ (stats s))
    with ((FreeObjects_ (stats s) + ObjectsInUse_ (stats s)) + ObjectsPerPage_ (clientConfig s)) by lia.
  rewrite <- u32_idemp_add_l, Hb, u32_idemp_add_l. f_equal. lia.
Qed.

Lemma balanced_same_meta s s' : same_meta s s' -> balanced s -> balanced s'.
Proof. unfold balanced. intros [-> ->]. auto. Qed.

Lemma allocate_new_page_meta sys s :
  post (allocate_new_page sys) s
       (fun _ s' => clientConfig s' = clientConfig s
                    /\ stats s' = inc_PagesInUse
                                    (Nat.iter (Z.to_nat (ObjectsPerPage_ (clientConfig s)))
                                              inc_FreeObjects (stats s)))
       (fun _ s' => same_meta s s').
Proof.
  unfold allocate_new_page. apply post_bind.
  pose proof (keeps_meta_allocate_empty_page (new_page sys) s) as H.
  unfold post in *. destruct (allocate_empty_page (new_page sys) s) as [[] s1| | |]; auto.
  destruct H as [Hc Hs].
  destruct (segment_page_meta s1) as (s2 & E2 & C2 & S2). rewrite E2.
  split; congruence.
Qed.

Lemma balanced_allocate_new_page sys s :
  is_unsigned (ObjectsPerPage_ (clientConfig s)) -> balanced s ->
  post (allocate_new_page sys) s
       (fun _ s' => clientConfig s' = clientConfig s /\ balanced s')
       (fun _ s' => clientConfig s' = clientConfig s /\ balanced s').
Proof.
  intros Hopp Hb. eapply post_weaken; [apply allocate_new_page_meta| |]; simpl.
  - intros _ s' [Hc Hs]. split; auto. eapply balanced_new_page; eauto.
  - intros _ s' H. split; [apply H|]. eapply balanced_same_meta; eauto.
Qed.

Lemma take_off_freelist_meta sys label s :
  post (take_off_freelist sys label) s
       (fun _ s' => clientConfig s' = clientConfig s
                    /\ stats s' = inc_Allocations (inc_MostObjects (inc_ObjectsInUse
                                     (dec_FreeObjects (stats s)))))
       (fun _ s' => clientConfig s' = clientConfig s
                    /\ stats s' = inc_Allocations (inc_MostObjects (inc_ObjectsInUse
                                     (dec_FreeObjects (stats s))))).
Proof.
  unfold take_off_freelist.
  do 4 (apply post_bind; unfold post at 1; simpl).
  apply post_bind. unfold post at 1. simpl.
  match goal with |- post ?m ?s0 _ _ =>
    assert (K : keeps_meta m); [| specialize (K s0); eapply post_weaken; [exact K| |]] end.
  - keeps_meta_tac. apply keeps_meta_configure_header.
  - simpl. intros _ s' [Hc Hs]. split; assumption.
  - simpl. intros _ s' [Hc Hs]. split; assumption.
Qed.

Lemma put_on_freelist_meta fuel Object s :
  post (put_on_freelist fuel Object) s
       (fun _ s' => clientConfig s' = clientConfig s
                    /\ stats s' = inc_FreeObjects (dec_ObjectsInUse (inc_Deallocations (stats s))))
       (fun _ s' => clientConfig s' = clientConfig s
                    /\ stats s' = inc_FreeObjects (dec_ObjectsInUse (inc_Deallocations (stats s)))).
Proof.
  unfold put_on_freelist.
  do 3 (apply post_bind; unfold post at 1; simpl).
  match goal with |- post ?m ?s0 _ _ =>
    assert (K : keeps_meta m); [| specialize (K s0); eapply post_weaken; [exact K| |]] end.
  - keeps_meta_tac; auto using keeps_meta_check_freelist, keeps_meta_configure_header.
  - simpl. intros _ s' [Hc Hs]. split; assumption.
  - simpl. intros _ s' [Hc Hs]. split; assumption.
Qed.

Lemma balanced_take_off s s' :
  clientConfig s' = clientConfig s ->
  stats s' = inc_Allocations (inc_MostObjects (inc_ObjectsInUse (dec_FreeObjects (stats s)))) ->
  balanced s -> balanced s'.
Proof.
  unfold balanced. intros -> -> Hb. simpl.
  rewrite u32_idemp_add_l, u32_idemp_add_r, <- Hb. f_equal. lia.
Qed.

Lemma balanced_put_on s s' :
  clientConfig s' = clientConfig s ->
  stats s' = inc_FreeObjects (dec_ObjectsInUse (inc_Deallocations (stats s))) ->
  balanced s -> balanced s'.
Proof.
  unfold balanced. intros -> -> Hb. simpl.
  rewrite u32_idemp_add_l, u32_idemp_add_r, <- Hb. f_equal. lia.
Qed.

Lemma balanced_Allocate sys label s :
  is_unsigned (ObjectsPerPage_ (clientConfig s)) -> balanced s ->
  post (Allocate sys label) s
       (fun _ s' => clientConfig s' = clientConfig s /\ balanced s')
       (fun _ s' => clientConfig s' = clientConfig s /\ balanced s').
Proof.
  intros Hopp Hb. unfold Allocate. apply post_bind. unfold post at 1. simpl.
  destruct (UseCPPMemManager_ (clientConfig s)); simpl.
  - unfold post, bind, modify. simpl. destruct (new_object sys); simpl; split; auto.
  - apply post_bind.
    assert (H1 : post (when (FreeList_ s =? nullptr) (allocate_new_page sys)) s
                      (fun _ s' => clientConfig s' = clientConfig s /\ balanced s')
                      (fun _ s' => clientConfig s' = clientConfig s /\ balanced s')).
    { destruct (FreeList_ s =? nullptr); simpl.
      - apply balanced_allocate_new_page; auto.
      - unfold post, ret. auto. }
    eapply post_weaken; [exact H1| |]; simpl; auto.
    intros _ s1 [Hc1 Hb1].
    eapply post_weaken; [apply take_off_freelist_meta| |]; simpl;
      intros _ s2 [Hc2 Hs2]; (split; [congruence | eapply balanced_take_off; eauto]).
Qed.

Lemma balanced_Free fuel Object s :
  balanced s ->
  post (Free fuel Object) s
       (fun _ s' => clientConfig s' = clientConfig s /\ balanced s')
       (fun _ s' => clientConfig s' = clientConfig s /\ balanced s').
Proof.
  intros Hb. unfold Free. apply post_bind. unfold post at 1. simpl.
  destruct (UseCPPMemManager_ (clientConfig s)); simpl.
  - unfold post, modify. simpl. split; auto.
  - eapply post_weaken; [apply put_on_freelist_meta| |]; simpl;
      intros _ s2 [Hc2 Hs2]; (split; [congruence | eapply balanced_put_on; eauto]).
Qed.

Lemma balanced_run cs : forall s s',
  is_unsigned (ObjectsPerPage_ (clientConfig s)) -> balanced s ->
  run cs s = Some s' -> balanced s'.
Proof.
  induction cs as [|c cs IH]; intros s s' Hopp Hb Hrun; simpl in Hrun.
  - congruence.
  - destruct (do_call c s) as [s1|] eqn:E; [|discriminate].
    assert (clientConfig s1 = clientConfig s /\ balanced s1) as [Hc1 Hb1].
    { destruct c as [sys label | fuel Object]; simpl in E.
      - pose proof (balanced_Allocate sys label s Hopp Hb) as H. unfold post in H.
        destruct (Allocate sys label s); simpl in E; inversion E; subst; auto.
      - pose proof (balanced_Free fuel Object s Hb) as H. unfold post in H.
        destruct (Free fuel Object s); simpl in E; inversion E; subst; auto. }
    apply (IH s1 s'); [rewrite Hc1; exact Hopp | exact Hb1 | exact Hrun].
Qed.

Lemma balanced_ctor m0 sys ObjectSize config s0 :
  is_unsigned (ObjectsPerPage_ config) ->
  ObjectAllocator_ctor m0 sys ObjectSize config = Done tt s0 ->
  clientConfig s0 = config /\ balanced s0.
Proof.
  intros Hopp. unfold ObjectAllocator_ctor.
  match goal with |- (if _ then _ ?s else _) = _ -> _ => set (s1 := s) end.
  assert (Hb1 : balanced s1) by reflexivity.
  assert (Hc1 : clientConfig s1 = config) by reflexivity.
  destruct (UseCPPMemManager_ config); simpl.
  - intros E. inversion E. subst s0. auto.
  - intros E. pose proof (balanced_allocate_new_page sys s1 Hopp Hb1) as H.
    unfold post in H. rewrite E in H. destruct H. split; congruence.
Qed.

Lemma returned_Done {A} (o : outcome A) a : returned o = Some a -> o = Done a (state_of o).
Proof. destruct o; simpl; congruence. Qed.

Lemma thrown_Throw {A} (o : outcome A) e : thrown o = Some e -> o = Throw e (state_of o).
Proof. destruct o; simpl; congruence. Qed.

Lemma is_some_the_state o : is_some o = true -> o = Some (the_state o).
Proof. destruct o; simpl; congruence. Qed.

(** Evaluation of closed goals: only values without memory are compared. *)
Ltac eval_goal :=
  repeat match goal with
         | |- _ /\ _ => split
         | |- ?o = Done _ (state_of ?o) => apply returned_Done
         | |- ?o = Throw _ (state_of ?o) => apply thrown_Throw
         | |- ?o = Some (the_state ?o) => apply is_some_the_state
         | |- _ <> _ => vm_compute; discriminate
         | |- _ = _ => vm_compute; reflexivity
         | |- (_ < _)%nat => vm_compute; lia
         | |- _ <= _ => vm_compute; discriminate
         | |- _ < _ => vm_compute; reflexivity
         end.

Ltac chain_tac := cbn [chain]; eval_goal.

(** ** Loads and stores *)

Lemma in_range_true lo n a : lo <= a < lo + n -> in_range lo n a = true.
Proof. unfold in_range. intros. apply andb_true_iff. split; [apply Z.leb_le | apply Z.ltb_lt]; lia. Qed.

Lemma in_range_false lo n a : ~ (lo <= a < lo + n) -> in_range lo n a = false.
Proof.
  unfold in_range. intros H. destruct (Z.leb_spec lo a), (Z.ltb_spec a (lo + n)); simpl; auto.
  exfalso. apply H. lia.
Qed.

Lemma in_range_spec lo n a : in_range lo n a = true <-> lo <= a < lo + n.
Proof.
  unfold in_range. rewrite andb_true_iff, Z.leb_le, Z.ltb_lt. tauto.
Qed.

Lemma memset_in m dst c n a : dst <= a < dst + n -> memset m dst c n a = c mod 256.
Proof. intros. unfold memset. rewrite in_range_true; auto. Qed.

Lemma memset_out m dst c n a : ~ (dst <= a < dst + n) -> memset m dst c n a = m a.
Proof. intros. unfold memset. rewrite in_range_false; auto. Qed.

Lemma store_out m a n v x : ~ (a <= x < a + n) -> store m a n v x = m x.
Proof. intros. unfold store. rewrite in_range_false; auto. Qed.

Lemma store_in m a n v x : a <= x < a + n -> store m a n v x = (v / 2 ^ (8 * (x - a))) mod 256.
Proof. intros. unfold store. rewrite in_range_true; auto. Qed.

Lemma strcpy_out src : forall m dst x,
  ~ (dst <= x < dst + Z.of_nat (String.length src) + 1) -> strcpy m dst src x = m x.
Proof.
  induction src as [|c rest IH]; intros m dst x H; simpl in *.
  - apply store_out. lia.
  - rewrite IH by lia. apply store_out. lia.
Qed.

Lemma load_bytes_ext n : forall m m' a,
  (forall x, a <= x < a + Z.of_nat n -> m' x = m x) ->
  load_bytes m' a n = load_bytes m a n.
Proof.
  induction n as [|n IH]; intros m m' a H; cbn [load_bytes]; auto.
  rewrite H by lia. f_equal. f_equal. apply IH. intros. apply H. lia.
Qed.

Lemma load_ext m m' a n :
  (forall x, a <= x < a + n -> m' x = m x) -> load m' a n = load m a n.
Proof.
  intros H. unfold load. apply load_bytes_ext. intros x Hx. apply H. lia.
Qed.

Lemma load_ptr_ext m m' a :
  (forall x, a <= x < a + sizeof_ptr -> m' x = m x) -> load_ptr m' a = load_ptr m a.
Proof. apply load_ext. Qed.

Lemma load_bytes_store m a n v k : forall i,
  0 <= i -> i + Z.of_nat k <= n ->
  load_bytes (store m a n v) (a + i) k = (v / 2 ^ (8 * i)) mod 2 ^ (8 * Z.of_nat k).
Proof.
  induction k as [|k IH]; intros i Hi Hk.
  - simpl. rewrite Z.mod_1_r. reflexivity.
  - cbn [load_bytes]. rewrite store_in by lia.
    replace (a + i - a) with i by lia.
    rewrite Z.mod_mod by lia.
    replace (a + i + 1) with (a + (i + 1)) by lia.
    rewrite IH by lia.
    replace (8 * Z.of_nat (S k)) with (8 + 8 * Z.of_nat k) by lia.
    rewrite Z.pow_add_r by lia.
    replace (8 * (i + 1)) with (8 * i + 8) by lia.
    rewrite Z.pow_add_r by lia.
    rewrite <- Z.div_div by lia.
    change (2 ^ 8) with 256.
    rewrite Z.rem_mul_r by lia. reflexivity.
Qed.

Lemma load_store_same m a n v : 0 <= n -> load (store m a n v) a n = v mod 2 ^ (8 * n).
Proof.
  intros Hn. unfold load.
  replace a with (a + 0) at 2 by lia.
  rewrite load_bytes_store by lia.
  rewrite Z2Nat.id by lia. simpl. rewrite Z.div_1_r. reflexivity.
Qed.

Lemma load_ptr_store_ptr m a v : 0 <= v < 2 ^ 64 -> load_ptr (store_ptr m a v) a = v.
Proof.
  intros Hv. unfold load_ptr, store_ptr. rewrite load_store_same by (unfold sizeof_ptr; lia).
  apply Z.mod_small. exact Hv.
Qed.

Lemma load_ptr_store_ptr_other m a v b :
  b + sizeof_ptr <= a \/ a + sizeof_ptr <= b -> load_ptr (store_ptr m a v) b = load_ptr m b.
Proof.
  intros H. apply load_ptr_ext. intros x Hx. apply store_out. unfold sizeof_ptr in *. lia.
Qed.

(** ** Chains *)

Lemma chain_ext m m' : forall l head,
  chain m head l ->
  (forall a x, In a l -> a <= x < a + sizeof_ptr -> m' x = m x) ->
  chain m' head l.
Proof.
  induction l as [|a l IH]; intros head Hc H; simpl in *; auto.
  destruct Hc as (-> & Hn & Hc). repeat split; auto.
  rewrite (load_ptr_ext m m' a) by (intros; apply (H a); auto).
  apply IH; auto. intros. eapply H; eauto.
Qed.

Lemma chain_unique m : forall l l' head, chain m head l -> chain m head l' -> l = l'.
Proof.
  induction l as [|a l IH]; intros [|a' l'] head H H'; simpl in *; auto.
  - destruct H' as (-> & Hn & _). congruence.
  - destruct H as (-> & Hn & _). congruence.
  - destruct H as (-> & Hn & Hc). destruct H' as (<- & _ & Hc'). f_equal. eauto.
Qed.

Lemma chain_nonnull m : forall l head a, chain m head l -> In a l -> a <> nullptr.
Proof.
  induction l as [|b l IH]; intros head a Hc Hin; simpl in *; [tauto|].
  destruct Hc as (-> & Hn & Hc). destruct Hin as [<- | Hin]; eauto.
Qed.

(** ** The padding check *)

Lemma check_corruption_loop_false n : forall m fp sp i,
  check_corruption_loop n m fp sp i = false <->
  (forall j, i <= j < i + Z.of_nat n ->
             m (fp + j) mod 256 = PAD_PATTERN /\ m (sp + j) mod 256 = PAD_PATTERN).
Proof.
  induction n as [|n IH]; intros m fp sp i; cbn [check_corruption_loop].
  - split; auto. intros _ j Hj. lia.
  - destruct (Z.eqb_spec (m (fp + i) mod 256) PAD_PATTERN) as [E1|E1];
      destruct (Z.eqb_spec (m (sp + i) mod 256) PAD_PATTERN) as [E2|E2]; simpl.
    + rewrite IH. split; intros H j Hj.
      * destruct (Z.eq_dec j i) as [->|]; auto. apply H. lia.
      * apply H. lia.
    + split; [discriminate|]. intros H. destruct (H i); [lia|]. contradiction.
    + split; [discriminate|]. intros H. destruct (H i); [lia|]. contradiction.
    + split; [discriminate|]. intros H. destruct (H i); [lia|]. contradiction.
Qed.

Lemma check_corruption_false s p : check_corruption s p = false <-> pads_intact s p.
Proof.
  unfold check_corruption, pads_intact. rewrite check_corruption_loop_false.
  split; intros H i Hi.
  - apply H. lia.
  - apply H. lia.
Qed.

Lemma check_corruption_true s p i :
  0 <= i < pad s ->
  heap s (p - pad s + i) mod 256 <> PAD_PATTERN \/ heap s (p + osize s + i) mod 256 <> PAD_PATTERN ->
  check_corruption s p = true.
Proof.
  intros Hi H. destruct (check_corruption s p) eqn:E; auto.
  apply check_corruption_false in E. destruct (E i Hi). tauto.
Qed.

(** ** The free-list and page-list scans *)

Lemma check_multiple_free_found fuel : forall s p head l,
  chain (heap s) head l -> In p l -> (List.length l < fuel)%nat ->
  check_multiple_free fuel p head s = Throw E_MULTIPLE_FREE s.
Proof.
  induction fuel as [|fuel IH]; intros s p head l Hc Hin Hf; [lia|].
  destruct l as [|a l]; [destruct Hin|]. simpl in Hc, Hf. destruct Hc as (-> & Hn & Hc).
  cbn [check_multiple_free].
  destruct (Z.eqb_spec a nullptr); [contradiction|].
  destruct (Z.eqb_spec a p); [reflexivity|].
  unfold bind, get. destruct Hin as [?|Hin]; [contradiction|].
  eapply IH; eauto. lia.
Qed.

Lemma check_multiple_free_absent fuel : forall s p head l,
  chain (heap s) head l -> ~ In p l -> (List.length l < fuel)%nat ->
  check_multiple_free fuel p head s = Done tt s.
Proof.
  induction fuel as [|fuel IH]; intros s p head l Hc Hin Hf; [lia|].
  cbn [check_multiple_free]. destruct l as [|a l]; simpl in Hc, Hf.
  - subst head. reflexivity.
  - destruct Hc as (-> & Hn & Hc).
    destruct (Z.eqb_spec a nullptr); [contradiction|].
    destruct (Z.eqb_spec a p); [exfalso; apply Hin; left; auto|].
    unfold bind, get. eapply IH; eauto.
    + intros H. apply Hin. right. exact H.
    + lia.
Qed.

(** ** Layout arithmetic *)

Lemma header_fits_nonneg h : header_fits h -> 0 <= size_ h.
Proof.
  unfold header_fits, sizeof_int, sizeof_char, sizeof_short, sizeof_ptr.
  destruct (type_ h); lia.
Qed.

Lemma good_layout_block_size s :
  good_layout (clientConfig s) (osize s) ->
  calculate_block_size s = block_stride s /\ sizeof_ptr <= block_stride s.
Proof.
  unfold good_layout, calculate_block_size, block_stride, osize, pad, hsize, is_unsigned, sizeof_ptr.
  intros (_ & Ho & _ & Hp & Hp2 & Hos & Hh & Hb & Hps).
  apply header_fits_nonneg in Hh.
  rewrite (u32_small (PadBytes_ (clientConfig s) * 2)) by lia.
  unfold u64. rewrite Z.mod_small by lia. lia.
Qed.

Lemma good_layout_page_size s :
  good_layout (clientConfig s) (osize s) ->
  calculate_page_size s = sizeof_ptr + block_stride s * ObjectsPerPage_ (clientConfig s).
Proof.
  intros H. unfold calculate_page_size.
  destruct (good_layout_block_size s H) as [-> Hge].
  unfold good_layout, block_stride, osize, pad, hsize, is_unsigned, sizeof_ptr in *.
  destruct H as (_ & Ho & _ & Hp & Hp2 & Hos & Hh & Hb & Hps).
  unfold u64. rewrite (Z.mod_small (_ * _)) by nia. rewrite Z.mod_small by nia. reflexivity.
Qed.

(** ** The boundary check *)

Lemma check_bad_location_loop_spec fuel : forall s p head pgs b,
  calculate_block_size s <> 0 ->
  chain (heap s) head pgs -> (List.length pgs < fuel)%nat ->
  check_bad_location_loop fuel p head b s
  = Done (match pgs with [] => b | _ => forallb (bad_page s p) pgs end) s.
Proof.
  induction fuel as [|fuel IH]; intros s p head pgs b Hbs Hc Hf; [lia|].
  cbn [check_bad_location_loop]. destruct pgs as [|pg pgs]; simpl in Hc, Hf.
  - subst head. reflexivity.
  - destruct Hc as (-> & Hn & Hc).
    destruct (Z.eqb_spec pg nullptr); [contradiction|].
    unfold bind at 1, get. cbn [forallb]. unfold bad_page at 1.
    unfold bind at 1. destruct (check_out_of_page s p pg) eqn:Eo.
    + unfold ret at 1. cbn [orb andb]. rewrite (IH s p _ pgs true Hbs Hc) by lia.
      destruct pgs; reflexivity.
    + unfold check_wrong_offset, bind, get. destruct (Z.eqb_spec (calculate_block_size s) 0); [contradiction|].
      unfold ret at 1. cbn [orb].
      destruct (negb (u64 (p - (create_offset pg + hsize s + pad s)) mod calculate_block_size s =? 0)).
      * cbn [andb]. rewrite (IH s p _ pgs true Hbs Hc) by lia. destruct pgs; reflexivity.
      * reflexivity.
Qed.

Lemma check_bad_location_spec fuel s p pgs :
  calculate_block_size s <> 0 ->
  chain (heap s) (PageList_ s) pgs -> (List.length pgs < fuel)%nat ->
  check_bad_location fuel p (PageList_ s) s
  = if match pgs with [] => false | _ => forallb (bad_page s p) pgs end
    then Throw E_BAD_BOUNDARY s else Done tt s.
Proof.
  intros Hbs Hc Hf. unfold check_bad_location, bind.
  rewrite (check_bad_location_loop_spec fuel s p _ pgs false Hbs Hc Hf).
  destruct pgs; [reflexivity|]. destruct (forallb _ _); reflexivity.
Qed.

Lemma check_freelist_spec fuel s p pgs fl :
  calculate_block_size s <> 0 ->
  chain (heap s) (PageList_ s) pgs -> (List.length pgs < fuel)%nat ->
  chain (heap s) (FreeList_ s) fl -> (List.length fl < fuel)%nat ->
  check_freelist fuel p s
  = if negb (pad s =? 0) && check_corruption s p then Throw E_CORRUPTED_BLOCK s
    else if in_dec Z.eq_dec p fl then Throw E_MULTIPLE_FREE s
    else if match pgs with [] => false | _ => forallb (bad_page s p) pgs end
         then Throw E_BAD_BOUNDARY s
         else Done tt s.
Proof.
  intros Hbs Hpg Hfpg Hfl Hffl. unfold check_freelist. unfold bind at 1, get.
  unfold bind at 1.
  destruct (negb (pad s =? 0)); cbn [andb].
  - destruct (check_corruption s p); [reflexivity|]. unfold ret at 1.
    unfold bind. destruct (in_dec Z.eq_dec p fl) as [Hin|Hin].
    + rewrite (check_multiple_free_found fuel s p _ fl Hfl Hin Hffl). reflexivity.
    + rewrite (check_multiple_free_absent fuel s p _ fl Hfl Hin Hffl).
      apply check_bad_location_spec; auto.
  - unfold ret at 1. unfold bind. destruct (in_dec Z.eq_dec p fl) as [Hin|Hin].
    + rewrite (check_multiple_free_found fuel s p _ fl Hfl Hin Hffl). reflexivity.
    + rewrite (check_multiple_free_absent fuel s p _ fl Hfl Hin Hffl).
      apply check_bad_location_spec; auto.
Qed.

(** The code's test of one page against the two conditions of the
    specification, for a pointer that is not inside the bytes between the
    page start and the page's first object. *)
Lemma bad_page_false_iff s pg p :
  good_layout (clientConfig s) (osize s) ->
  0 <= pg -> 0 <= p < 2 ^ 64 -> ~ (pg <= p < first_object s pg) ->
  bad_page s p pg = false <-> page_accepts s pg p.
Proof.
  intros Hgood Hpg Hp Hlead.
  destruct (good_layout_block_size s Hgood) as [Hbs Hge].
  pose proof (good_layout_page_size s Hgood) as Hps.
  unfold bad_page, check_out_of_page. rewrite Hbs, Hps.
  unfold page_accepts, within_page, on_stride, last_object, create_offset in *.
  assert (Hgood' := Hgood).
  destruct Hgood' as (_ & Ho & _ & Hpad & _ & Hos & Hh & _ & _).
  apply header_fits_nonneg in Hh. fold (hsize s) in Hh. fold (pad s) in Hpad.
  unfold is_unsigned in Ho.
  set (bs := block_stride s) in *. set (opp := ObjectsPerPage_ (clientConfig s)) in *.
  assert (Hbs8 : sizeof_ptr + hsize s + pad s <= bs).
  { unfold bs, block_stride. lia. }
  unfold first_object in *. unfold sizeof_ptr in *.
  rewrite orb_false_iff, orb_false_iff, negb_false_iff, Z.ltb_ge, Z.eqb_eq.
  rewrite Z.gtb_ltb, Z.ltb_ge.
  split.
  - intros [[H1 H2] H3].
    assert (Hlo : pg + 8 + hsize s + pad s <= p) by lia.
    unfold u64 in H3. rewrite (Z.mod_small _ (2 ^ 64)) in H3 by lia.
    apply Z.mod_divide in H3; [|lia]. destruct H3 as [k Hk].
    assert (0 <= k) by nia.
    assert (k < opp) by nia.
    split; [split; [lia | nia]|]. exists k. lia.
  - intros [[H1 H2] [k Hk]].
    assert (Hlo : pg + 8 + hsize s + pad s <= p) by lia.
    assert (0 <= k) by nia.
    assert (k <= opp - 1) by nia.
    split; [split; [lia | nia]|].
    unfold u64. rewrite (Z.mod_small _ (2 ^ 64)) by lia.
    replace (p - (pg + 8 + hsize s + pad s)) with (k * bs) by lia.
    apply Z.mod_mul. lia.
Qed.

(** ** [no_throw] *)

Lemma no_throw_bind {A B} (m : M A) (f : A -> M B) :
  no_throw m -> (forall a, no_throw (f a)) -> no_throw (bind m f).
Proof.
  intros Hm Hf s. apply post_bind. specialize (Hm s).
  unfold post in *. destruct (m s) as [a s'| | |]; auto.
  specialize (Hf a s'). unfold post in Hf. destruct (f a s'); auto.
Qed.

Lemma no_throw_ret {A} (a : A) : no_throw (ret a).
Proof. intro s. exact I. Qed.

Lemma no_throw_crash {A} : no_throw (@crash A).
Proof. intro s. exact I. Qed.

Lemma no_throw_get : no_throw get.
Proof. intro s. exact I. Qed.

Lemma no_throw_modify f : no_throw (modify f).
Proof. intro s. exact I. Qed.

Lemma no_throw_when b m : no_throw m -> no_throw (when b m).
Proof. destruct b; simpl; auto. intros _. apply no_throw_ret. Qed.

Ltac no_throw_step :=
  match goal with
  | |- no_throw (bind _ _) => apply no_throw_bind; [| intro]
  | |- no_throw (ret _) => apply no_throw_ret
  | |- no_throw crash => apply no_throw_crash
  | |- no_throw get => apply no_throw_get
  | |- no_throw (modify _) => apply no_throw_modify
  | |- no_throw (when _ _) => apply no_throw_when
  | |- no_throw (if ?b then _ else _) => destruct b
  | |- no_throw (match ?x with _ => _ end) => destruct x
  end.

Lemma no_throw_configure_header_not_allocated block freed :
  no_throw (configure_header no_sys block false freed None).
Proof.
  unfold configure_header. apply no_throw_bind; [apply no_throw_get | intros s].
  destruct (type_ (HBlockInfo_ (clientConfig s))); cbn [negb andb]; repeat no_throw_step.
Qed.

Lemma put_on_freelist_unfold fuel p s :
  put_on_freelist fuel p s
  = (when (DebugOn_ (clientConfig s)) (check_freelist fuel p) ;;
     put_on_freelist_tail (counted_free s) p) (counted_free s).
Proof. reflexivity. Qed.

Lemma no_throw_put_on_freelist_tail s p : no_throw (put_on_freelist_tail s p).
Proof.
  unfold put_on_freelist_tail.
  apply no_throw_bind; [apply no_throw_configure_header_not_allocated | intros _].
  repeat no_throw_step.
Qed.

Lemma Free_pool fuel p s :
  UseCPPMemManager_ (clientConfig s) = false -> Free fuel p s = put_on_freelist fuel p s.
Proof. intros H. unfold Free, bind, get. rewrite H. reflexivity. Qed.

Lemma forallb_false_exists {A} (f : A -> bool) : forall l,
  forallb f l = false -> exists x, In x l /\ f x = false.
Proof.
  induction l as [|a l IH]; simpl; [discriminate|].
  destruct (f a) eqn:E; simpl.
  - intros H. destruct (IH H) as (x & Hx & Hf). exists x. auto.
  - intros _. exists a. auto.
Qed.

Lemma pads_intact_counted_free s p : pads_intact (counted_free s) p <-> pads_intact s p.
Proof. reflexivity. Qed.

(** The outcome of [Free] in debug mode, when both lists end. *)
Lemma Free_debug_outcome fuel s p pgs fl :
  good_layout (clientConfig s) (osize s) ->
  DebugOn_ (clientConfig s) = true ->
  chain (heap s) (PageList_ s) pgs -> (List.length pgs < fuel)%nat ->
  chain (heap s) (FreeList_ s) fl -> (List.length fl < fuel)%nat ->
  Free fuel p s
  = if negb (pad s =? 0) && check_corruption s p then Throw E_CORRUPTED_BLOCK (counted_free s)
    else if in_dec Z.eq_dec p fl then Throw E_MULTIPLE_FREE (counted_free s)
    else if match pgs with [] => false | _ => forallb (bad_page s p) pgs end
         then Throw E_BAD_BOUNDARY (counted_free s)
         else put_on_freelist_tail (counted_free s) p (counted_free s).
Proof.
  intros Hgood Hdbg Hpg Hfpg Hfl Hffl.
  assert (Hpool : UseCPPMemManager_ (clientConfig s) = false) by apply Hgood.
  rewrite Free_pool by exact Hpool. rewrite put_on_freelist_unfold.
  change (clientConfig (counted_free s)) with (clientConfig s). rewrite Hdbg.
  cbn [when]. unfold bind.
  assert (Hbs : calculate_block_size (counted_free s) <> 0).
  { change (calculate_block_size (counted_free s)) with (calculate_block_size s).
    destruct (good_layout_block_size s Hgood) as [-> H]. unfold sizeof_ptr in H. lia. }
  rewrite (check_freelist_spec fuel (counted_free s) p pgs fl Hbs Hpg Hfpg Hfl Hffl).
  change (pad (counted_free s)) with (pad s).
  change (check_corruption (counted_free s) p) with (check_corruption s p).
  change (bad_page (counted_free s) p) with (bad_page s p).
  destruct (negb (pad s =? 0) && check_corruption s p); [reflexivity|].
  destruct (in_dec Z.eq_dec p fl); [reflexivity|].
  destruct (match pgs with [] => false | _ => forallb (bad_page s p) pgs end); reflexivity.
Qed.

(** * The pool under valid use *)

(** ** Geometry *)

Section Geometry.
Variables (c : OAConfig) (OS : Z).
Hypothesis good : good_layout c OS.

Let hs := size_ (HBlockInfo_ c).
Let pd := PadBytes_ c.
Let opp := ObjectsPerPage_ c.

Lemma layout_facts :
  0 <= hs /\ 0 <= pd /\ 8 <= OS /\ 0 <= opp < 2 ^ 32
  /\ stride c OS = OS + 2 * pd + hs
  /\ span c OS = 8 + stride c OS * opp
  /\ 8 + stride c OS * opp < 2 ^ 64.
Proof.
  destruct good as (_ & Ho & _ & Hp & Hp2 & Hos & Hh & Hb & Hps).
  apply header_fits_nonneg in Hh.
  unfold stride, span, is_unsigned, sizeof_ptr, hs, pd, opp in *.
  repeat split; lia.
Qed.

Lemma block_at_bounds pg k :
  0 <= k < opp ->
  pg + 8 + hs + pd <= block_at c OS pg k
  /\ block_at c OS pg k + OS + pd <= pg + span c OS.
Proof.
  destruct layout_facts as (Hh & Hp & Hos & Ho & Hst & Hsp & _).
  unfold block_at, sizeof_ptr. fold hs pd. intros Hk. rewrite Hsp.
  set (st := stride c OS) in *. split; nia.
Qed.

Lemma block_in_page pgs b :
  is_block c OS pgs b ->
  exists pg, In pg pgs /\ pg + 8 + hs + pd <= b /\ b + OS + pd <= pg + span c OS.
Proof.
  intros (pg & k & Hin & Hk & ->). exists pg. split; auto. apply block_at_bounds. exact Hk.
Qed.

Lemma blocks_apart pgs b b' :
  (forall pg1 pg2, In pg1 pgs -> In pg2 pgs -> pg1 <> pg2 ->
                   pg1 + span c OS <= pg2 \/ pg2 + span c OS <= pg1) ->
  is_block c OS pgs b -> is_block c OS pgs b' -> b <> b' ->
  b + stride c OS <= b' \/ b' + stride c OS <= b.
Proof.
  intros Hapart (pg & k & Hin & Hk & ->) (pg' & k' & Hin' & Hk' & ->) Hne.
  destruct (Z.eq_dec pg pg') as [->|Hpg].
  - assert (k <> k') by congruence.
    destruct layout_facts as (Hh & Hp & Hos & Ho & Hst & Hsp & _).
    unfold block_at. set (st := stride c OS) in *.
    assert (8 <= st) by lia. nia.
  - pose proof (block_at_bounds pg k Hk) as [B1 B2].
    pose proof (block_at_bounds pg' k' Hk') as [B1' B2'].
    destruct layout_facts as (Hh & Hp & Hos & Ho & Hst & Hsp & _).
    destruct (Hapart pg pg' Hin Hin' Hpg); lia.
Qed.

Lemma is_block_mono pgs pg b : is_block c OS pgs b -> is_block c OS (pg :: pgs) b.
Proof. intros (pg' & k & Hin & Hk & ->). exists pg', k. simpl. auto. Qed.

Lemma page_blocks_in pg : forall n b,
  In b (page_blocks c OS pg n) <-> exists k, 0 <= k < Z.of_nat n /\ b = block_at c OS pg k.
Proof.
  induction n as [|n IH]; intros b; simpl.
  - split; [tauto | intros (k & Hk & _); lia].
  - rewrite IH. split.
    + intros [<- | (k & Hk & ->)]; [exists (Z.of_nat n) | exists k]; split; auto; lia.
    + intros (k & Hk & ->). destruct (Z.eq_dec k (Z.of_nat n)) as [->|]; [left; auto|].
      right. exists k. split; auto. lia.
Qed.

Lemma block_at_inj pg k k' : block_at c OS pg k = block_at c OS pg k' -> k = k'.
Proof.
  destruct layout_facts as (Hh & Hp & Hos & Ho & Hst & Hsp & _).
  unfold block_at. set (st := stride c OS) in *. assert (8 <= st) by lia. nia.
Qed.

Lemma page_blocks_NoDup pg : forall n, NoDup (page_blocks c OS pg n).
Proof.
  induction n as [|n IH]; simpl; constructor; auto.
  rewrite page_blocks_in. intros (k & Hk & E). apply block_at_inj in E. lia.
Qed.

Lemma page_blocks_length pg : forall n, List.length (page_blocks c OS pg n) = n.
Proof. induction n; simpl; auto. Qed.
End Geometry.

(** ** The header writes, as functions of the memory *)

Lemma configure_header_clear s b :
  configure_header no_sys b false false None s
  = Done tt (set_heap (clear_header (clientConfig s) b) s).
Proof.
  unfold configure_header, clear_header, header_at, hsize, pad, bind, get, modify, when, ret.
  destruct s as [c st pl fl bi m]. cbn [clientConfig].
  destruct (type_ (HBlockInfo_ c)); reflexivity.
Qed.

Lemma configure_header_freed s b :
  configure_header no_sys b false true None s
  = match type_ (HBlockInfo_ (clientConfig s)) with
    | hbExternal =>
      if load_ptr (heap s) (header_at (clientConfig s) b) =? nullptr then Crash
      else Done tt (set_heap (header_freed (clientConfig s) b) s)
    | _ => Done tt (set_heap (header_freed (clientConfig s) b) s)
    end.
Proof.
  unfold configure_header, header_freed, header_at, hsize, pad, bind, get, modify, when, ret, crash.
  destruct s as [c st pl fl bi m]. cbn [clientConfig heap].
  destruct (type_ (HBlockInfo_ c)); try reflexivity.
  cbn [negb andb]. destruct (_ =? nullptr); reflexivity.
Qed.

Lemma configure_header_allocated s sys label b :
  configure_header sys b true false label s
  = match header_allocated (clientConfig s) (Allocations_ (stats s)) sys label b (heap s) with
    | (None, m) => Done tt (set_heap (fun _ => m) s)
    | (Some e, m) => Throw e (set_heap (fun _ => m) s)
    end.
Proof.
  unfold configure_header, header_allocated, header_at, hsize, pad, bind, get, modify, when,
    ret, throw.
  destruct s as [c st pl fl bi m]. cbn [clientConfig heap stats].
  destruct (type_ (HBlockInfo_ c)); try reflexivity.
  cbn [negb andb]. destruct (new_info sys) as [info|]; [|reflexivity].
  destruct label as [l|]; [|reflexivity].
  destruct (new_label sys) as [str|]; reflexivity.
Qed.

(** ** Segmenting a page *)

Lemma new_block_address s k :
  good_layout (clientConfig s) (osize s) ->
  create_offset (PageList_ s) + calculate_block_size s * k + (hsize s + pad s)
  = block_at (clientConfig s) (osize s) (PageList_ s) k.
Proof.
  intros Hgood. destruct (good_layout_block_size s Hgood) as [-> _].
  unfold create_offset, block_at, block_stride, stride, hsize, pad, osize. lia.
Qed.

Lemma make_block_eq s (makePrev : bool) :
  good_layout (clientConfig s) (osize s) ->
  let b := block_at (clientConfig s) (osize s) (PageList_ s)
                    (blockIter s - (if makePrev then 1 else 0)) in
  make_block makePrev s = Done b (set_heap (paint_pads (clientConfig s) (osize s) b) s).
Proof.
  intros Hgood b. unfold make_block, bind, get.
  cbv zeta. rewrite (new_block_address s (blockIter s - (if makePrev then 1 else 0)) Hgood).
  fold b.
  unfold paint_pads, when, pad, osize, modify, ret, bind.
  destruct (DebugOn_ (clientConfig s)); [reflexivity|].
  destruct s; reflexivity.
Qed.

Lemma add_to_page_eq s :
  good_layout (clientConfig s) (osize s) ->
  add_to_page s
  = Done tt (mkOA (clientConfig s) (inc_FreeObjects (stats s)) (PageList_ s)
                  (block_at (clientConfig s) (osize s) (PageList_ s) (blockIter s))
                  (blockIter s + 1)
                  (block_added (clientConfig s) (osize s) (PageList_ s) (blockIter s) (heap s))).
Proof.
  intros Hgood. unfold add_to_page. unfold bind at 1.
  rewrite (make_block_eq s false Hgood). cbv zeta. rewrite Z.sub_0_r.
  set (b := block_at (clientConfig s) (osize s) (PageList_ s) (blockIter s)).
  unfold bind at 1, get. cbn [blockIter set_heap].
  unfold block_added. fold b.
  destruct (blockIter s =? 0) eqn:Ei; cbn [negb].
  - unfold bind at 1. unfold bind at 1.
    unfold when, modify, ret, bind. cbn [clientConfig set_heap pad].
    destruct (DebugOn_ (clientConfig s)) eqn:Ed;
      rewrite configure_header_clear; reflexivity.
  - unfold bind at 1. unfold bind at 1.
    match goal with |- context [make_block true ?s1] =>
      rewrite (make_block_eq s1 true Hgood) end.
    cbv zeta. cbn [PageList_ blockIter clientConfig osize stats set_heap].
    unfold modify, bind. rewrite configure_header_clear. reflexivity.
Qed.

Lemma in_range_false_iff lo n a : in_range lo n a = false <-> ~ (lo <= a < lo + n).
Proof.
  split.
  - intros H Hr. apply in_range_spec in Hr. congruence.
  - apply in_range_false.
Qed.

(** Evaluating a memory built from [memset] and [store] at one address. *)
Ltac mem_cases :=
  unfold store_ptr, memset, store;
  unfold sizeof_ptr, sizeof_int, sizeof_short, sizeof_char in *;
  repeat match goal with
         | |- context [in_range ?a ?n ?y] =>
           let H := fresh "R" in
           destruct (in_range a n y) eqn:H;
           [apply in_range_spec in H | apply in_range_false_iff in H];
           try (exfalso; lia)
         end.

Section BlockAdded.
Variables (c : OAConfig) (OS : Z).
Hypothesis good : good_layout c OS.
Variables (pg : ptr) (i : Z) (m : memory).
Hypothesis Hi : 0 <= i < ObjectsPerPage_ c.
Hypothesis Hpg : 0 < pg /\ pg + span c OS <= 2 ^ 64.

Let hs := size_ (HBlockInfo_ c).
Let pd := PadBytes_ c.
Let b := block_at c OS pg i.
Let b' := block_at c OS pg (i - 1).
Let m' := block_added c OS pg i m.

Lemma block_added_facts :
  0 <= hs /\ 0 <= pd /\ 8 <= OS
  /\ b' = b - (OS + 2 * pd + hs)
  /\ pg + 8 + hs + pd <= b /\ b + OS + pd <= pg + span c OS
  /\ header_at c b = b - (pd + hs).
Proof.
  destruct (layout_facts c OS good) as (Hh & Hp & Hos & Ho & Hst & Hsp & _).
  destruct (block_at_bounds c OS good pg i Hi) as [B1 B2].
  fold hs pd in Hh, Hp, Hst, B1, B2. fold b in B1, B2.
  assert (E : b' = b - (OS + 2 * pd + hs)).
  { unfold b', b, block_at. lia. }
  repeat split; auto.
Qed.

Lemma header_fits_cases :
  match type_ (HBlockInfo_ c) with
  | hbNone => True
  | hbBasic => 5 <= hs
  | hbExtended => 0 <= additional_ (HBlockInfo_ c) /\ additional_ (HBlockInfo_ c) + 7 <= hs
  | hbExternal => 8 <= hs
  end.
Proof.
  destruct good as (_ & _ & _ & _ & _ & _ & Hh & _).
  unfold header_fits, sizeof_int, sizeof_char, sizeof_short, sizeof_ptr in Hh. fold hs in Hh.
  destruct (type_ (HBlockInfo_ c)); auto; lia.
Qed.

Lemma block_added_outside y :
  ~ (b - pd - hs <= y < b + OS + pd) ->
  m' y = m y
  \/ (DebugOn_ c = true /\ i <> 0 /\ m' y = 255
      /\ (b' - pd <= y < b' \/ b' + OS <= y < b' + OS + pd)).
Proof.
  intros Hy. destruct block_added_facts as (Hh & Hp & Hos & Hb' & B1 & B2 & Hhl).
  unfold m', block_added. fold b b'. unfold clear_header, paint_pads. rewrite Hhl.
  fold pd hs. change (PAD_PATTERN) with 255.
  destruct (Z.eqb_spec i 0) as [E|E]; destruct (DebugOn_ c);
    destruct (type_ (HBlockInfo_ c)); mem_cases; auto;
      right; repeat split; auto; lia.
Qed.

Lemma block_added_pads : DebugOn_ c = true -> pads_ok c OS m' b.
Proof.
  intros Hd k Hk. fold pd in Hk. fold pd.
  destruct block_added_facts as (Hh & Hp & Hos & Hb' & B1 & B2 & Hhl).
  unfold m', block_added. fold b b'. unfold clear_header, paint_pads. rewrite Hhl, Hd.
  fold pd hs. change (PAD_PATTERN) with 255.
  split; destruct (Z.eqb_spec i 0) as [E|E];
    destruct (type_ (HBlockInfo_ c)); mem_cases; reflexivity.
Qed.

Lemma block_added_link :
  load_ptr m' b = if i =? 0 then nullptr else b'.
Proof.
  destruct block_added_facts as (Hh & Hp & Hos & Hb' & B1 & B2 & Hhl).
  unfold m', block_added. fold b b'.
  set (link := if i =? 0 then nullptr else b').
  assert (Hlink : 0 <= link < 2 ^ 64).
  { unfold link, nullptr. destruct (Z.eqb_spec i 0); [lia|].
    destruct (block_at_bounds c OS good pg (i - 1)) as [C1 C2]; [lia|].
    fold b' hs pd in C1, C2. lia. }
  match goal with |- load_ptr (clear_header c b ?M) b = _ =>
    rewrite (load_ptr_ext M (clear_header c b M) b) end.
  - destruct (i =? 0); apply load_ptr_store_ptr; exact Hlink.
  - intros x Hx. unfold clear_header. rewrite Hhl. fold hs. unfold sizeof_ptr in Hx.
    destruct (type_ (HBlockInfo_ c)); auto; apply memset_out; lia.
Qed.
End BlockAdded.

Section SegmentLoop.
Variables (c : OAConfig) (OS : Z).
Hypothesis good : good_layout c OS.
Variable pg : ptr.
Hypothesis Hpg : 0 < pg /\ pg + span c OS <= 2 ^ 64.

Lemma segment_loop : forall n i s,
  clientConfig s = c -> osize s = OS -> PageList_ s = pg ->
  blockIter s = Z.of_nat i ->
  Z.of_nat i + Z.of_nat n <= ObjectsPerPage_ c ->
  chain (heap s) (FreeList_ s) (page_blocks c OS pg i) ->
  (DebugOn_ c = true ->
   forall k, 0 <= k < Z.of_nat i -> pads_ok c OS (heap s) (block_at c OS pg k)) ->
  exists s',
    repeatM n add_to_page s = Done tt s'
    /\ clientConfig s' = c
    /\ stats s' = Nat.iter n inc_FreeObjects (stats s)
    /\ PageList_ s' = pg
    /\ chain (heap s') (FreeList_ s') (page_blocks c OS pg (i + n))
    /\ (DebugOn_ c = true ->
        forall k, 0 <= k < Z.of_nat (i + n) -> pads_ok c OS (heap s') (block_at c OS pg k))
    /\ (forall y, ~ (pg + 8 <= y < pg + span c OS) -> heap s' y = heap s y).
Proof.
  induction n as [|n IH]; intros i s Hc Hos Hpl Hbi Hle Hchain Hpads.
  - exists s. rewrite Nat.add_0_r. simpl.
    split; [reflexivity|]. split; [exact Hc|]. split; [reflexivity|]. split; [exact Hpl|].
    split; [exact Hchain|]. split; [exact Hpads|]. reflexivity.
  - cbn [repeatM]. unfold bind.
    assert (Hgood : good_layout (clientConfig s) (osize s)) by (rewrite Hc, Hos; exact good).
    rewrite (add_to_page_eq s Hgood). rewrite Hc, Hos, Hpl, Hbi.
    set (s1 := mkOA c (inc_FreeObjects (stats s)) pg (block_at c OS pg (Z.of_nat i))
                    (Z.of_nat i + 1) (block_added c OS pg (Z.of_nat i) (heap s))).
    assert (Hi : 0 <= Z.of_nat i < ObjectsPerPage_ c) by lia.
    destruct (block_added_facts c OS good pg (Z.of_nat i) Hi)
      as (Hh & Hp & Hos8 & Hb' & B1 & B2 & Hhl).
    destruct (layout_facts c OS good) as (_ & _ & _ & Ho & Hst & Hsp & _).
    (* the nodes and the pads of the earlier blocks are kept *)
    assert (Hkeep : forall k y, 0 <= k < Z.of_nat i ->
               block_at c OS pg k - PadBytes_ c <= y < block_at c OS pg k + OS + PadBytes_ c ->
               heap s1 y = heap s y
               \/ (heap s1 y = 255
                   /\ (block_at c OS pg k - PadBytes_ c <= y < block_at c OS pg k
                       \/ block_at c OS pg k + OS <= y < block_at c OS pg k + OS + PadBytes_ c))).
    { intros k y Hk Hy. cbn [heap s1].
      assert (Hlt : block_at c OS pg k + stride c OS <= block_at c OS pg (Z.of_nat i)).
      { unfold block_at. set (st := stride c OS) in *. nia. }
      destruct (block_added_outside c OS good pg (Z.of_nat i) (heap s) Hi y) as [E|(_ & Hne & E & Hr)];
        [lia | left; exact E |].
      destruct (Z.eq_dec k (Z.of_nat i - 1)) as [->|Hk'].
      - right. split; auto.
      - exfalso.
        assert (block_at c OS pg k + stride c OS <= block_at c OS pg (Z.of_nat i - 1)).
        { unfold block_at. set (st := stride c OS) in *. nia. }
        lia. }
    destruct (IH (S i) s1) as (s' & E & Hc' & Hs' & Hpl' & Hchain' & Hpads' & Hframe').
    + reflexivity.
    + cbn. fold (osize s). exact Hos.
    + reflexivity.
    + cbn [blockIter s1]. lia.
    + lia.
    + cbn [page_blocks chain FreeList_ s1 heap]. split; [reflexivity|]. split.
      { unfold nullptr. lia. }
      rewrite (block_added_link c OS good pg (Z.of_nat i) (heap s) Hi Hpg).
      destruct i as [|i].
      * reflexivity.
      * replace (Z.of_nat (S i) =? 0) with false by (symmetry; apply Z.eqb_neq; lia).
        replace (Z.of_nat (S i) - 1) with (Z.of_nat i) by lia.
        cbn [page_blocks chain] in Hchain. destruct Hchain as (Hhead & Hnn & Hrest).
        cbn [page_blocks chain]. split; [reflexivity|]. split; [exact Hnn|].
        rewrite (load_ptr_ext (heap s)).
        -- apply (chain_ext (heap s)); auto.
           intros a x Ha Hx. apply (page_blocks_in c OS pg) in Ha. destruct Ha as (k & Hk & ->).
           destruct (Hkeep k x) as [E|[_ Hr]]; [lia | unfold sizeof_ptr in Hx; lia | exact E |].
           unfold sizeof_ptr in Hx. lia.
        -- intros x Hx. destruct (Hkeep (Z.of_nat i) x) as [E|[_ Hr]];
             [lia | unfold sizeof_ptr in Hx; lia | exact E |].
           unfold sizeof_ptr in Hx. lia.
    + intros Hd k Hk.
      destruct (Z.eq_dec k (Z.of_nat i)) as [->|Hne].
      * apply (block_added_pads c OS good pg (Z.of_nat i) (heap s) Hi Hd).
      * assert (Hk' : 0 <= k < Z.of_nat i) by lia.
        intros j Hj. specialize (Hpads Hd k Hk' j Hj).
        split.
        -- destruct (Hkeep k (block_at c OS pg k - PadBytes_ c + j) Hk') as [E|[E _]];
             [lia | rewrite E; apply Hpads | rewrite E; reflexivity].
        -- destruct (Hkeep k (block_at c OS pg k + OS + j) Hk') as [E|[E _]];
             [lia | rewrite E; apply Hpads | rewrite E; reflexivity].
    + exists s'. split; [exact E|]. split; [exact Hc'|]. split.
      { rewrite Hs'. unfold s1. cbn [stats]. symmetry. apply Nat.iter_succ_r. }
      split; [exact Hpl'|]. split.
      { replace (i + S n)%nat with (S i + n)%nat by lia. exact Hchain'. }
      split.
      { intros Hd k Hk. apply Hpads'; auto. lia. }
      intros y Hy. rewrite Hframe' by exact Hy. cbn [heap s1].
      destruct (block_added_outside c OS good pg (Z.of_nat i) (heap s) Hi y) as [E0|(_ & Hne & _ & Hr)];
        [lia | exact E0 |].
      exfalso.
      destruct (block_at_bounds c OS good pg (Z.of_nat i - 1)) as [C1 C2]; [lia|].
      lia.
Qed.
End SegmentLoop.

(** ** A new page *)

Lemma region_free_spec c OS pgs a n :
  region_free c OS pgs a n = true <->
  (0 < a /\ a + n <= 2 ^ 64 /\ forall pg, In pg pgs -> a + n <= pg \/ pg + span c OS <= a).
Proof.
  unfold region_free. rewrite !andb_true_iff, Z.ltb_lt, Z.leb_le, forallb_forall.
  split.
  - intros [[H1 H2] H3]. repeat split; auto. intros pg Hin. specialize (H3 pg Hin).
    apply orb_true_iff in H3. rewrite !Z.leb_le in H3. exact H3.
  - intros (H1 & H2 & H3). repeat split; auto. intros pg Hin.
    apply orb_true_iff. rewrite !Z.leb_le. auto.
Qed.

Lemma allocate_empty_page_eq s np :
  PagesInUse_ (stats s) < MaxPages_ (clientConfig s) ->
  allocate_empty_page (Some np) s
  = Done tt (mkOA (clientConfig s) (stats s) np (FreeList_ s) (blockIter s)
                  (store_ptr (if DebugOn_ (clientConfig s)
                              then memset (heap s) np UNALLOCATED_PATTERN (PageSize_ (stats s))
                              else heap s) np (PageList_ s))).
Proof.
  intros Hlt. unfold allocate_empty_page, bind, get.
  destruct (Z.geb_spec (PagesInUse_ (stats s)) (MaxPages_ (clientConfig s))); [lia|].
  destruct s as [c st pl fl bi m]. cbn [clientConfig stats PageList_ FreeList_ blockIter heap].
  unfold when, modify, ret, bind.
  destruct (DebugOn_ c); cbn [PageList_ set_heap];
    destruct (Z.eqb_spec pl nullptr) as [->|]; reflexivity.
Qed.

Lemma allocate_empty_page_Done s newPage s' :
  allocate_empty_page newPage s = Done tt s' ->
  PagesInUse_ (stats s) < MaxPages_ (clientConfig s) /\ exists np, newPage = Some np.
Proof.
  unfold allocate_empty_page, bind, get, throw.
  destruct (Z.geb_spec (PagesInUse_ (stats s)) (MaxPages_ (clientConfig s))); [discriminate|].
  destruct newPage as [np|]; [|discriminate]. intros _. split; [lia | eauto].
Qed.

Lemma iter_inc_FreeObjects_from_zero n st :
  FreeObjects_ st = 0 -> FreeObjects_ (Nat.iter n inc_FreeObjects st) = u32 (Z.of_nat n).
Proof.
  intros H0. induction n as [|n IH].
  - simpl. rewrite H0. reflexivity.
  - change (Nat.iter (S n) inc_FreeObjects st)
      with (inc_FreeObjects (Nat.iter n inc_FreeObjects st)).
    cbn [inc_FreeObjects FreeObjects_]. rewrite IH, u32_idemp_add_l. f_equal. lia.
Qed.

Lemma pads_ok_ext c OS m m' b :
  pads_ok c OS m b ->
  (forall y, b - PadBytes_ c <= y < b \/ b + OS <= y < b + OS + PadBytes_ c -> m' y = m y) ->
  pads_ok c OS m' b.
Proof.
  intros H Hext i Hi. destruct (H i Hi) as [H1 H2].
  rewrite !Hext by lia. auto.
Qed.

Lemma chain_head_range m head l (P : ptr -> Prop) :
  chain m head l -> (forall a, In a l -> 0 <= a < 2 ^ 64) -> 0 <= head < 2 ^ 64.
Proof.
  destruct l as [|a l]; simpl.
  - intros -> _. unfold nullptr. lia.
  - intros (-> & _) H. apply H. auto.
Qed.

Section NewPage.
Variables (s : ObjectAllocator) (pgs live : list ptr) (np : ptr) (sys : SysAlloc).
Let c := clientConfig s.
Let OS := osize s.
Hypothesis ok : pool_ok s pgs [] live.
Hypothesis Hsys : new_page sys = Some np.
Hypothesis Hfree : region_free c OS pgs np (span c OS) = true.

Lemma allocate_new_page_ok s' :
  allocate_new_page sys s = Done tt s' ->
  pool_ok s' (np :: pgs) (page_blocks c OS np (Z.to_nat (ObjectsPerPage_ c))) live
  /\ clientConfig s' = c /\ osize s' = OS
  /\ (forall y, ~ (np <= y < np + span c OS) -> heap s' y = heap s y).
Proof.
  intros E. destruct ok as [Hgood Hps Hpgs Hrange Hapart [Hcount Hmax] Hfl _ _ Hlnd Hlb Hdisj Hfc Hpads Hext].
  fold c OS in Hgood, Hps, Hrange, Hapart, Hmax, Hlb, Hpads, Hext.
  apply region_free_spec in Hfree. destruct Hfree as (Hnp0 & Hnp1 & Hnpa).
  destruct (layout_facts c OS Hgood) as (Hh & Hp & Hos8 & Ho & Hst & Hsp & Hsp64).
  assert (Hsp8 : 8 <= span c OS) by nia.
  simpl in Hfl.
  unfold allocate_new_page, bind in E. rewrite Hsys in E.
  destruct (allocate_empty_page (Some np) s) as [[] s1| | |] eqn:E1; try discriminate.
  destruct (allocate_empty_page_Done _ _ _ E1) as [Hlt _].
  rewrite (allocate_empty_page_eq s np Hlt) in E1. inversion E1 as [Hs1]. clear E1.
  fold c in Hs1. rewrite Hfl, Hps in Hs1.
  unfold segment_page, bind, modify, get in E. cbn [clientConfig] in E.
  set (s1' := set_blockIter 0 s1) in E.
  destruct (segment_loop c OS Hgood np (conj Hnp0 Hnp1) (Z.to_nat (ObjectsPerPage_ c)) O s1')
    as (s2 & E2 & Hc2 & Hs2 & Hpl2 & Hchain2 & Hpads2 & Hframe2).
  { subst s1' s1. reflexivity. }
  { subst s1' s1. reflexivity. }
  { subst s1' s1. reflexivity. }
  { subst s1' s1. reflexivity. }
  { lia. }
  { subst s1' s1. simpl. reflexivity. }
  { intros _ k Hk. simpl in Hk. lia. }
  assert (Hc1 : clientConfig s1' = c) by (subst s1' s1; reflexivity).
  rewrite Hc1 in E. rewrite E2 in E. inversion E as [Hs']. clear E.
  assert (Hst1 : stats s1' = stats s) by (subst s1' s1; reflexivity).
  rewrite Hst1 in Hs2.
  destruct (iter_inc_FreeObjects (Z.to_nat (ObjectsPerPage_ c)) (stats s))
    as (I1 & I2 & I3 & I4 & I5 & I6 & I7 & _).
  assert (Hcfg' : clientConfig (set_stats inc_PagesInUse s2) = c) by exact Hc2.
  assert (Hos' : osize (set_stats inc_PagesInUse s2) = OS).
  { unfold osize. cbn. rewrite Hs2, I1. reflexivity. }
  (* the frame: nothing outside the new page has changed *)
  assert (Hframe : forall y, ~ (np <= y < np + span c OS) ->
                             heap (set_stats inc_PagesInUse s2) y = heap s y).
  { intros y Hy. cbn [heap set_stats]. rewrite Hframe2 by lia.
    subst s1' s1. cbn [heap set_blockIter]. unfold store_ptr.
    rewrite store_out by (unfold sizeof_ptr; lia).
    destruct (DebugOn_ c); auto. apply memset_out. lia. }
  assert (Hnpl : load_ptr (heap (set_stats inc_PagesInUse s2)) np = PageList_ s).
  { cbn [heap set_stats]. rewrite (load_ptr_ext (heap s1')).
    - subst s1' s1. cbn [heap set_blockIter]. apply load_ptr_store_ptr.
      apply (chain_head_range (heap s) _ pgs (fun _ => True) Hpgs).
      intros a Ha. destruct (Hrange a Ha). lia.
    - intros x Hx. apply Hframe2. unfold sizeof_ptr in Hx. lia. }
  split; [|split; [exact Hcfg' | split; [exact Hos' | exact Hframe]]].
  constructor; rewrite ?Hcfg', ?Hos'.
  - exact Hgood.
  - cbn. rewrite Hs2. cbn. rewrite I2. exact Hps.
  - cbn [chain]. split; [exact Hpl2|]. split; [unfold nullptr; lia|].
    rewrite Hnpl. apply (chain_ext (heap s)); auto.
    intros a x Ha Hx. apply Hframe. destruct (Hrange a Ha). destruct (Hnpa a Ha);
      unfold sizeof_ptr in Hx; lia.
  - intros pg [<-|Hin]; auto.
  - intros pg1 pg2 [<-|H1] [<-|H2] Hne; auto; try congruence.
    + destruct (Hnpa pg1 H1); auto.
  - cbn. rewrite Hs2. cbn. rewrite I4, Hcount. unfold is_unsigned in *.
    destruct Hgood as (_ & _ & Hmp & _).
    rewrite Hcount in Hlt. fold c in Hlt. unfold is_unsigned in Hmp.
    rewrite u32_small by lia.
    change (List.length (np :: pgs)) with (S (List.length pgs)). lia.
  - replace (Z.to_nat (ObjectsPerPage_ c)) with (0 + Z.to_nat (ObjectsPerPage_ c))%nat by lia.
    exact Hchain2.
  - apply page_blocks_NoDup. exact Hgood.
  - intros b Hb. apply (page_blocks_in c OS np) in Hb. destruct Hb as (k & Hk & ->).
    exists np, k. split; [left; auto|]. split; [lia | reflexivity].
  - exact Hlnd.
  - intros b Hb. apply is_block_mono. auto.
  - intros b Hb Hin. apply (page_blocks_in c OS np) in Hin. destruct Hin as (k & Hk & ->).
    destruct (block_in_page c OS Hgood pgs _ (Hlb _ Hb)) as (pg & Hpg & B1 & B2).
    destruct (block_at_bounds c OS Hgood np k) as [C1 C2]; [lia|].
    destruct (Hnpa pg Hpg); lia.
  - cbn. rewrite Hs2. cbn. rewrite page_blocks_length.
    apply iter_inc_FreeObjects_from_zero. rewrite Hfc. reflexivity.
  - intros Hd b (pg & k & [<-|Hin] & Hk & ->).
    + apply Hpads2; auto. simpl. lia.
    + apply (pads_ok_ext c OS (heap s)); [|intros y Hy; apply Hframe].
      * apply Hpads; auto. exists pg, k. auto.
      * destruct (block_at_bounds c OS Hgood pg k Hk) as [C1 C2].
        destruct (Hnpa pg Hin); lia.
  - intros Ht b Hb. rewrite (load_ptr_ext (heap s)); [apply Hext; auto|].
    intros x Hx. apply Hframe.
    destruct (block_in_page c OS Hgood pgs _ (Hlb _ Hb)) as (pg & Hpg & B1 & B2).
    assert (8 <= size_ (HBlockInfo_ c)).
    { destruct Hgood as (_ & _ & _ & _ & _ & _ & Hf & _). unfold header_fits in Hf.
      rewrite Ht in Hf. exact Hf. }
    unfold header_at, sizeof_ptr in Hx. destruct (Hnpa pg Hpg); lia.
Qed.
End NewPage.

(** ** Writes inside one block leave the rest of the pool alone *)

Section Frame.
Variables (s : ObjectAllocator) (pgs fl live : list ptr).
Let c := clientConfig s.
Let OS := osize s.
Let hs := size_ (HBlockInfo_ c).
Let pd := PadBytes_ c.
Hypothesis ok : pool_ok s pgs fl live.
Variables (x : ptr) (m' : memory).
Hypothesis Hx : is_block c OS pgs x.
(** [m'] differs from the memory of [s] only in the header and in the
    object storage of [x], and outside the pages. *)
Hypothesis Hm' :
  forall y, (exists pg, In pg pgs /\ pg <= y < pg + span c OS) ->
            ~ (x - pd - hs <= y < x - pd) -> ~ (x <= y < x + OS) ->
            m' y = heap s y.

Lemma frame_facts :
  good_layout c OS /\ 0 <= hs /\ 0 <= pd /\ 8 <= OS
  /\ stride c OS = OS + 2 * pd + hs.
Proof.
  destruct ok as [Hgood _ _ _ _ _ _ _ _ _ _ _ _ _ _]. fold c OS in Hgood.
  destruct (layout_facts c OS Hgood) as (Hh & Hp & Hos8 & _ & Hst & _).
  split; [exact Hgood|]. split; [exact Hh|]. split; [exact Hp|]. split; [exact Hos8|].
  exact Hst.
Qed.

Lemma frame_other_block b y :
  is_block c OS pgs b -> b <> x ->
  b - pd - hs <= y < b + OS + pd -> m' y = heap s y.
Proof.
  intros Hb Hne Hy. destruct frame_facts as (Hgood & Hh & Hp & Hos8 & Hst).
  destruct (block_in_page c OS Hgood pgs b Hb) as (pg & Hpg & B1 & B2).
  fold hs pd in B1, B2.
  assert (Hap := ok_pages_apart _ _ _ _ ok). fold c OS in Hap.
  destruct (blocks_apart c OS Hgood pgs b x Hap Hb Hx Hne).
  - apply Hm'; [exists pg; split; auto; lia | lia | lia].
  - apply Hm'; [exists pg; split; auto; lia | lia | lia].
Qed.

Lemma frame_pages : chain m' (PageList_ s) pgs.
Proof.
  destruct frame_facts as (Hgood & Hh & Hp & Hos8 & Hst).
  apply (chain_ext (heap s)); [apply ok|].
  intros pg y Hpg Hy. unfold sizeof_ptr in Hy.
  destruct (block_in_page c OS Hgood pgs x Hx) as (pgx & Hpgx & B1 & B2).
  fold hs pd in B1, B2.
  destruct (layout_facts c OS Hgood) as (_ & _ & _ & Ho & _ & Hsp & _).
  assert (Hsp8 : 8 <= span c OS) by (fold hs pd in Hst; nia).
  assert (Hap := ok_pages_apart _ _ _ _ ok). fold c OS in Hap.
  apply Hm'.
  - exists pg. split; auto. lia.
  - destruct (Z.eq_dec pg pgx) as [->|Hne]; [lia|].
    destruct (Hap pg pgx Hpg Hpgx Hne); lia.
  - destruct (Z.eq_dec pg pgx) as [->|Hne]; [lia|].
    destruct (Hap pg pgx Hpg Hpgx Hne); lia.
Qed.

Lemma frame_chain l head :
  chain (heap s) head l ->
  (forall a, In a l -> is_block c OS pgs a /\ a <> x) ->
  chain m' head l.
Proof.
  intros Hc Hl. destruct frame_facts as (Hgood & Hh & Hp & Hos8 & Hst).
  apply (chain_ext (heap s)); auto.
  intros a y Ha Hy. unfold sizeof_ptr in Hy. destruct (Hl a Ha) as [Hb Hne].
  apply (frame_other_block a); auto. lia.
Qed.

Lemma frame_pads :
  DebugOn_ c = true -> forall b, is_block c OS pgs b -> pads_ok c OS m' b.
Proof.
  intros Hd b Hb. destruct frame_facts as (Hgood & Hh & Hp & Hos8 & Hst).
  apply (pads_ok_ext c OS (heap s)); [apply (ok_pads _ _ _ _ ok); auto |].
  intros y Hy. fold pd in Hy.
  destruct (Z.eq_dec b x) as [->|Hne].
  - destruct (block_in_page c OS Hgood pgs x Hx) as (pg & Hpg & B1 & B2).
    fold hs pd in B1, B2.
    apply Hm'; [exists pg; split; auto; lia | lia | lia].
  - apply (frame_other_block b); auto. lia.
Qed.

Lemma frame_header b :
  type_ (HBlockInfo_ c) = hbExternal -> is_block c OS pgs b -> b <> x ->
  load_ptr m' (header_at c b) = load_ptr (heap s) (header_at c b).
Proof.
  intros Ht Hb Hne. destruct frame_facts as (Hgood & Hh & Hp & Hos8 & Hst).
  assert (8 <= hs).
  { destruct Hgood as (_ & _ & _ & _ & _ & _ & Hf & _). unfold header_fits in Hf.
    rewrite Ht in Hf. exact Hf. }
  apply load_ptr_ext. intros y Hy. unfold header_at, sizeof_ptr in Hy. fold hs pd in Hy.
  apply (frame_other_block b); auto. lia.
Qed.
End Frame.

(** ** The footprint of the header writes *)

Lemma header_freed_outside c b m y :
  header_fits (HBlockInfo_ c) ->
  ~ (header_at c b <= y < header_at c b + size_ (HBlockInfo_ c)) ->
  header_freed c b m y = m y.
Proof.
  unfold header_fits, header_freed. intros Hf Hy.
  destruct (type_ (HBlockInfo_ c)); auto; mem_cases; auto.
Qed.

Lemma header_allocated_outside c a sys label b m m1 y :
  header_fits (HBlockInfo_ c) ->
  header_allocated c a sys label b m = (None, m1) ->
  ~ (header_at c b <= y < header_at c b + size_ (HBlockInfo_ c)) ->
  (type_ (HBlockInfo_ c) = hbExternal ->
   (forall info, new_info sys = Some info -> ~ (info <= y < info + sizeof_MemBlockInfo))
   /\ (forall str l, new_label sys = Some str -> label = Some l ->
                     ~ (str <= y < str + (Z.of_nat (String.length l) + 1)))) ->
  m1 y = m y.
Proof.
  unfold header_fits, header_allocated. intros Hf E Hy Hsys.
  destruct (type_ (HBlockInfo_ c)) eqn:Ht.
  - inversion E. reflexivity.
  - inversion E. mem_cases; auto.
  - inversion E. mem_cases; auto.
  - destruct (Hsys eq_refl) as [Hinfo Hlabel].
    destruct (new_info sys) as [info|]; [|discriminate].
    specialize (Hinfo info eq_refl).
    unfold sizeof_MemBlockInfo, MemBlockInfo_alloc_num, MemBlockInfo_in_use,
      MemBlockInfo_label, sizeof_ptr, sizeof_int, sizeof_char in *.
    destruct label as [l|].
    + destruct (new_label sys) as [str|]; [|discriminate].
      specialize (Hlabel str l eq_refl eq_refl). inversion E.
      unfold store_ptr, sizeof_ptr. rewrite !store_out by lia.
      rewrite strcpy_out by lia.
      rewrite store_out by lia.
      apply memset_out. lia.
    + inversion E.
      unfold store_ptr, sizeof_ptr. rewrite !store_out by lia.
      apply memset_out. lia.
Qed.

Lemma header_allocated_external c a sys label b m m1 info :
  type_ (HBlockInfo_ c) = hbExternal ->
  header_allocated c a sys label b m = (None, m1) ->
  new_info sys = Some info -> 0 <= info < 2 ^ 64 ->
  load_ptr m1 (header_at c b) = info.
Proof.
  unfold header_allocated. intros Ht E Hinfo Hr. rewrite Ht, Hinfo in E.
  destruct label as [l|].
  - destruct (new_label sys) as [str|]; [|discriminate]. inversion E.
    apply load_ptr_store_ptr. exact Hr.
  - inversion E. apply load_ptr_store_ptr. exact Hr.
Qed.

(** ** [take_off_freelist] and the tail of [put_on_freelist] as equations *)

Lemma take_off_freelist_eq sys label s :
  take_off_freelist sys label s
  = match header_allocated (clientConfig s) (Allocations_ (stats (counted_alloc s)))
                           sys label (FreeList_ s) (heap s) with
    | (Some e, m) => Throw e (set_heap (fun _ => m) (counted_alloc s))
    | (None, m1) =>
      if FreeList_ s =? nullptr then Crash
      else Done (FreeList_ s)
                (mkOA (clientConfig s) (stats (counted_alloc s)) (PageList_ s)
                      (load_ptr m1 (FreeList_ s)) (blockIter s)
                      (if DebugOn_ (clientConfig s)
                       then memset m1 (FreeList_ s) ALLOCATED_PATTERN (osize s)
                       else m1))
    end.
Proof.
  unfold take_off_freelist.
  do 4 (unfold bind at 1; unfold modify at 1).
  unfold bind at 1. unfold get at 1. fold (counted_alloc s).
  unfold bind at 1. rewrite configure_header_allocated.
  change (clientConfig (counted_alloc s)) with (clientConfig s).
  change (FreeList_ (counted_alloc s)) with (FreeList_ s).
  change (heap (counted_alloc s)) with (heap s).
  destruct (header_allocated _ _ sys label (FreeList_ s) (heap s)) as [[e|] m1]; [reflexivity|].
  destruct (FreeList_ s =? nullptr); [reflexivity|].
  unfold bind, modify, when, ret.
  destruct (DebugOn_ (clientConfig s)); reflexivity.
Qed.

Lemma put_on_freelist_tail_eq s p :
  put_on_freelist_tail s p s
  = let freed :=
        if p =? nullptr then Crash
        else Done tt (mkOA (clientConfig s) (stats s) (PageList_ s) p (blockIter s)
                           (store_ptr (if DebugOn_ (clientConfig s)
                                       then memset (header_freed (clientConfig s) p (heap s))
                                                   p FREED_PATTERN (osize s)
                                       else header_freed (clientConfig s) p (heap s))
                                      p (FreeList_ s))) in
    match type_ (HBlockInfo_ (clientConfig s)) with
    | hbExternal =>
      if load_ptr (heap s) (header_at (clientConfig s) p) =? nullptr then Crash else freed
    | _ => freed
    end.
Proof.
  unfold put_on_freelist_tail. unfold bind at 1. rewrite configure_header_freed.
  cbv zeta.
  assert (H : forall s0 : ObjectAllocator,
             clientConfig s0 = clientConfig s -> stats s0 = stats s ->
             PageList_ s0 = PageList_ s -> blockIter s0 = blockIter s ->
             (when (DebugOn_ (clientConfig s))
                   (modify (set_heap (fun m => memset m p FREED_PATTERN (osize s)))) ;;
              (if p =? nullptr then crash
               else if FreeList_ s =? nullptr
                    then modify (set_FreeList p) ;;
                         modify (set_heap (fun m => store_ptr m p nullptr))
                    else modify (set_heap (fun m => store_ptr m p (FreeList_ s))) ;;
                         modify (set_FreeList p))) s0
             = if p =? nullptr then Crash
               else Done tt (mkOA (clientConfig s) (stats s) (PageList_ s) p (blockIter s)
                                  (store_ptr (if DebugOn_ (clientConfig s)
                                              then memset (heap s0) p FREED_PATTERN (osize s)
                                              else heap s0) p (FreeList_ s)))).
  { intros s0 H1 H2 H3 H4. unfold bind, when, modify, ret, crash.
    destruct s0 as [c0 st0 pl0 fl0 bi0 m0]. cbn in H1, H2, H3, H4. subst.
    destruct (DebugOn_ (clientConfig s)); cbn;
      destruct (p =? nullptr); try reflexivity;
        destruct (Z.eqb_spec (FreeList_ s) nullptr) as [->|]; reflexivity. }
  destruct (type_ (HBlockInfo_ (clientConfig s)));
    try (apply (H (set_heap (header_freed (clientConfig s) p) s)); reflexivity).
  destruct (load_ptr (heap s) (header_at (clientConfig s) p) =? nullptr); [reflexivity|].
  apply (H (set_heap (header_freed (clientConfig s) p) s)); reflexivity.
Qed.

(** ** The checks only read *)

Lemma read_only_bind {A B} (m : M A) (f : A -> M B) :
  read_only m -> (forall a, read_only (f a)) -> read_only (bind m f).
Proof.
  intros Hm Hf s. apply post_bind. specialize (Hm s).
  unfold post in *. destruct (m s) as [a s'| | |]; auto. subst s'.
  specialize (Hf a s). unfold post in Hf. destruct (f a s); auto.
Qed.

Lemma read_only_ret {A} (a : A) : read_only (ret a).
Proof. intro s. reflexivity. Qed.

Lemma read_only_throw {A} e : read_only (@throw A e).
Proof. intro s. reflexivity. Qed.

Lemma read_only_crash {A} : read_only (@crash A).
Proof. intro s. exact I. Qed.

Lemma read_only_hang {A} : read_only (@hang A).
Proof. intro s. exact I. Qed.

Lemma read_only_get : read_only get.
Proof. intro s. reflexivity. Qed.

Ltac read_only_step :=
  match goal with
  | |- read_only (bind _ _) => apply read_only_bind; [| intro]
  | |- read_only (ret _) => apply read_only_ret
  | |- read_only (throw _) => apply read_only_throw
  | |- read_only crash => apply read_only_crash
  | |- read_only hang => apply read_only_hang
  | |- read_only get => apply read_only_get
  | |- read_only (if ?b then _ else _) => destruct b
  end.

Lemma read_only_check_multiple_free fuel : forall p fl,
  read_only (check_multiple_free fuel p fl).
Proof. induction fuel; intros; simpl; repeat read_only_step; auto. Qed.

Lemma read_only_check_bad_location_loop fuel : forall p pg b,
  read_only (check_bad_location_loop fuel p pg b).
Proof.
  induction fuel; intros; simpl; repeat read_only_step; auto.
  unfold check_wrong_offset. repeat read_only_step.
Qed.

Lemma read_only_check_freelist fuel p : read_only (check_freelist fuel p).
Proof.
  unfold check_freelist, check_bad_location. repeat read_only_step;
    auto using read_only_check_multiple_free, read_only_check_bad_location_loop.
Qed.

(** A [put_on_freelist] that returns has run its tail on the counted state. *)
Lemma put_on_freelist_Done fuel p s s' :
  put_on_freelist fuel p s = Done tt s' ->
  put_on_freelist_tail (counted_free s) p (counted_free s) = Done tt s'.
Proof.
  rewrite put_on_freelist_unfold. unfold bind.
  change (clientConfig (counted_free s)) with (clientConfig s).
  destruct (DebugOn_ (clientConfig s)); cbn [when].
  - pose proof (read_only_check_freelist fuel p (counted_free s)) as H. unfold post in H.
    destruct (check_freelist fuel p (counted_free s)) as [[] s1| | |]; try discriminate.
    subst s1. auto.
  - unfold ret. auto.
Qed.

(** ** Lists *)

Lemma NoDup_remove_Z (x : Z) l : NoDup l -> NoDup (remove Z.eq_dec x l).
Proof.
  induction 1 as [|a l Hin Hnd IH]; simpl; [constructor|].
  destruct (Z.eq_dec x a); auto. constructor; auto.
  intros H. apply in_remove in H. tauto.
Qed.

Lemma forallb_exists_false {A} (f : A -> bool) l x :
  In x l -> f x = false -> forallb f l = false.
Proof.
  intros Hin Hf. destruct (forallb f l) eqn:E; auto.
  rewrite forallb_forall in E. rewrite (E x Hin) in Hf. discriminate.
Qed.

Lemma u32_idemp_sub_l x y : u32 (u32 x - y) = u32 (x - y).
Proof. unfold u32. apply Zminus_mod_idemp_l. Qed.

Lemma chain_cons_inv m head l :
  chain m head l -> head <> nullptr ->
  exists l', l = head :: l' /\ chain m (load_ptr m head) l'.
Proof.
  destruct l as [|a l']; simpl.
  - intros -> H. contradiction.
  - intros (-> & _ & Hc) _. eauto.
Qed.

Lemma chain_nil_inv m head l : chain m head l -> head = nullptr -> l = [].
Proof.
  destruct l as [|a l']; simpl; auto. intros (-> & Hn & _) E. contradiction.
Qed.

(** ** [take_off_freelist] keeps the invariant *)

Lemma take_off_ok s pgs fl live sys label p s' :
  pool_ok s pgs fl live ->
  sys_outside (clientConfig s) (osize s) pgs sys label ->
  take_off_freelist sys label s = Done p s' ->
  exists fl', fl = p :: fl' /\ pool_ok s' pgs fl' (p :: live)
              /\ clientConfig s' = clientConfig s /\ osize s' = osize s.
Proof.
  intros ok Hsys E. rewrite take_off_freelist_eq in E.
  set (c := clientConfig s) in *. set (OS := osize s) in *.
  destruct (header_allocated c _ sys label (FreeList_ s) (heap s)) as [[e|] m1] eqn:Eh;
    [discriminate|].
  destruct (Z.eqb_spec (FreeList_ s) nullptr) as [|Hnn]; [discriminate|].
  inversion E as [[Hp Hs']]. clear E.
  destruct (chain_cons_inv _ _ _ (ok_free _ _ _ _ ok) Hnn) as (fl' & Hfl & Hchain').
  rewrite Hp in *. clear Hp. subst fl.
  exists fl'. split; [reflexivity|].
  assert (Hgood : good_layout c OS) by apply ok.
  destruct (layout_facts c OS Hgood) as (Hh & Hpd & Hos8 & Ho & Hst & Hsp & Hsp64).
  assert (Hfit : header_fits (HBlockInfo_ c)) by apply Hgood.
  assert (Hpb : is_block c OS pgs p) by (apply (ok_free_blocks _ _ _ _ ok); left; auto).
  assert (Hnd := ok_free_nodup _ _ _ _ ok). inversion Hnd as [|? ? Hnotin Hnd']. subst.
  set (m' := if DebugOn_ c then memset m1 p ALLOCATED_PATTERN OS else m1).
  (* header_allocated changes only the header and storage outside the pages *)
  assert (Hm1 : forall y, (exists pg, In pg pgs /\ pg <= y < pg + span c OS) ->
                          ~ (header_at c p <= y < header_at c p + size_ (HBlockInfo_ c)) ->
                          m1 y = heap s y).
  { intros y (pg & Hpg & Hy) Hhdr.
    apply (header_allocated_outside c _ sys label p (heap s) m1 y Hfit Eh Hhdr).
    intros Ht. destruct (Hsys Ht) as [Hinfo Hlabel]. split.
    - intros info Hi. apply Hinfo, region_free_spec in Hi. destruct Hi as (_ & _ & Hi).
      destruct (Hi pg Hpg); lia.
    - intros str l Hstr Hl. specialize (Hlabel str l Hstr Hl).
      apply region_free_spec in Hlabel. destruct Hlabel as (_ & _ & Hi).
      destruct (Hi pg Hpg); lia. }
  assert (Hm' : forall y, (exists pg, In pg pgs /\ pg <= y < pg + span c OS) ->
                          ~ (p - PadBytes_ c - size_ (HBlockInfo_ c) <= y < p - PadBytes_ c) ->
                          ~ (p <= y < p + OS) -> m' y = heap s y).
  { intros y Hpg Hhdr Hobj. unfold m'.
    assert (m1 y = heap s y) by (apply Hm1; auto; unfold header_at; lia).
    destruct (DebugOn_ c); auto. rewrite memset_out by lia. auto. }
  destruct (block_in_page c OS Hgood pgs p Hpb) as (pgp & Hpgp & B1 & B2).
  assert (Hlink : load_ptr m1 p = load_ptr (heap s) p).
  { apply load_ptr_ext. intros y Hy. unfold sizeof_ptr in Hy.
    apply Hm1; [exists pgp; split; auto; lia | unfold header_at; lia]. }
  split; [|split; reflexivity].
  constructor; cbn [clientConfig stats PageList_ FreeList_ heap osize counted_alloc set_stats
                    inc_Allocations inc_MostObjects inc_ObjectsInUse dec_FreeObjects
                    ObjectSize_ PageSize_ PagesInUse_ FreeObjects_];
    fold c; fold (osize s); fold OS; fold m'.
  - exact Hgood.
  - apply ok.
  - apply (frame_pages s pgs (p :: fl') live ok p m' Hpb Hm').
  - apply ok.
  - apply ok.
  - apply ok.
  - rewrite Hlink.
    apply (frame_chain s pgs (p :: fl') live ok p m' Hpb Hm'); auto.
    intros a Ha. split; [apply (ok_free_blocks _ _ _ _ ok); right; auto|].
    intros ->. contradiction.
  - exact Hnd'.
  - intros b Hb. apply (ok_free_blocks _ _ _ _ ok). right. auto.
  - constructor; [|apply ok]. intros Hin. apply (ok_disjoint _ _ _ _ ok p Hin). left. auto.
  - intros b [<-|Hb]; [exact Hpb | apply (ok_live_blocks _ _ _ _ ok); auto].
  - intros b [<-|Hb] Hin; [contradiction|].
    apply (ok_disjoint _ _ _ _ ok b Hb). right. auto.
  - rewrite (ok_free_count _ _ _ _ ok), u32_idemp_sub_l. f_equal.
    change (List.length (p :: fl')) with (S (List.length fl')). lia.
  - apply (frame_pads s pgs (p :: fl') live ok p m' Hpb Hm').
  - intros Ht b [<-|Hb].
    + assert (H8 : 8 <= size_ (HBlockInfo_ c)).
      { unfold header_fits in Hfit. rewrite Ht in Hfit. exact Hfit. }
      assert (Hinfo : exists info, new_info sys = Some info).
      { unfold header_allocated in Eh. rewrite Ht in Eh.
        destruct (new_info sys); [eauto | discriminate]. }
      destruct Hinfo as [info Hinfo].
      destruct (Hsys Ht) as [Hfree _]. specialize (Hfree info Hinfo).
      apply region_free_spec in Hfree. destruct Hfree as (Hi0 & Hi1 & _).
      unfold sizeof_MemBlockInfo in Hi1.
      rewrite (load_ptr_ext m1 m').
      * rewrite (header_allocated_external c _ sys label p (heap s) m1 info Ht Eh Hinfo) by lia.
        unfold nullptr. lia.
      * intros y Hy. unfold m'. destruct (DebugOn_ c); auto.
        apply memset_out. unfold header_at, sizeof_ptr in Hy. lia.
    + assert (HH : load_ptr m' (header_at c b) = load_ptr (heap s) (header_at c b)).
      { apply (frame_header s pgs (p :: fl') live ok p m' Hpb Hm' b Ht).
        - apply (ok_live_blocks _ _ _ _ ok); auto.
        - intros ->. apply (ok_disjoint _ _ _ _ ok p Hb). left. auto. }
      rewrite HH. apply (ok_external _ _ _ _ ok Ht b Hb).
Qed.

(** ** [put_on_freelist] keeps the invariant *)

Lemma put_on_tail_ok s pgs fl live p :
  pool_ok s pgs fl live -> In p live ->
  exists s',
    put_on_freelist_tail (counted_free s) p (counted_free s) = Done tt s'
    /\ pool_ok s' pgs (p :: fl) (remove Z.eq_dec p live)
    /\ clientConfig s' = clientConfig s /\ osize s' = osize s.
Proof.
  intros ok Hlive. rewrite put_on_freelist_tail_eq. cbv zeta.
  change (clientConfig (counted_free s)) with (clientConfig s).
  change (heap (counted_free s)) with (heap s).
  change (PageList_ (counted_free s)) with (PageList_ s).
  change (FreeList_ (counted_free s)) with (FreeList_ s).
  change (blockIter (counted_free s)) with (blockIter s).
  change (osize (counted_free s)) with (osize s).
  set (c := clientConfig s) in *. set (OS := osize s) in *.
  assert (Hgood : good_layout c OS) by apply ok.
  destruct (layout_facts c OS Hgood) as (Hh & Hpd & Hos8 & Ho & Hst & Hsp & Hsp64).
  assert (Hfit : header_fits (HBlockInfo_ c)) by apply Hgood.
  assert (Hpb : is_block c OS pgs p) by (apply (ok_live_blocks _ _ _ _ ok); auto).
  assert (Hnotin : ~ In p fl) by (apply (ok_disjoint _ _ _ _ ok); auto).
  destruct (block_in_page c OS Hgood pgs p Hpb) as (pgp & Hpgp & B1 & B2).
  destruct (ok_pages_range _ _ _ _ ok pgp Hpgp) as [Hpg0 Hpg1]. fold c OS in Hpg1.
  assert (Hpnn : p <> nullptr) by (unfold nullptr; lia).
  set (m' := store_ptr (if DebugOn_ c
                        then memset (header_freed c p (heap s)) p FREED_PATTERN OS
                        else header_freed c p (heap s)) p (FreeList_ s)).
  assert (Hdone :
    match type_ (HBlockInfo_ c) with
    | hbExternal =>
      if load_ptr (heap s) (header_at c p) =? nullptr then Crash
      else if p =? nullptr then Crash
           else Done tt (mkOA c (stats (counted_free s)) (PageList_ s) p (blockIter s) m')
    | _ => if p =? nullptr then Crash
           else Done tt (mkOA c (stats (counted_free s)) (PageList_ s) p (blockIter s) m')
    end = Done tt (mkOA c (stats (counted_free s)) (PageList_ s) p (blockIter s) m')).
  { destruct (Z.eqb_spec p nullptr); [contradiction|].
    destruct (type_ (HBlockInfo_ c)) eqn:Ht; try reflexivity.
    pose proof (ok_external _ _ _ _ ok Ht p Hlive) as Hx. fold c in Hx.
    destruct (Z.eqb_spec (load_ptr (heap s) (header_at c p)) nullptr); [contradiction|].
    reflexivity. }
  eexists. split; [exact Hdone|]. clear Hdone.
  assert (Hm' : forall y, (exists pg, In pg pgs /\ pg <= y < pg + span c OS) ->
                          ~ (p - PadBytes_ c - size_ (HBlockInfo_ c) <= y < p - PadBytes_ c) ->
                          ~ (p <= y < p + OS) -> m' y = heap s y).
  { intros y _ Hhdr Hobj. unfold m', store_ptr.
    rewrite store_out by (unfold sizeof_ptr; lia).
    assert (header_freed c p (heap s) y = heap s y)
      by (apply header_freed_outside; auto; unfold header_at; lia).
    destruct (DebugOn_ c); auto. rewrite memset_out by lia. auto. }
  assert (Hhead : 0 <= FreeList_ s < 2 ^ 64).
  { apply (chain_head_range (heap s) _ fl (fun _ => True) (ok_free _ _ _ _ ok)).
    intros a Ha. pose proof (ok_free_blocks _ _ _ _ ok a Ha) as Hab. fold c OS in Hab.
    destruct (block_in_page c OS Hgood pgs a Hab) as (pga & Hpga & A1 & A2).
    destruct (ok_pages_range _ _ _ _ ok pga Hpga) as [G0 G1]. fold c OS in G1. lia. }
  split; [|split; reflexivity].
  constructor; cbn [clientConfig stats PageList_ FreeList_ heap osize counted_free set_stats
                    inc_Deallocations inc_FreeObjects dec_ObjectsInUse
                    ObjectSize_ PageSize_ PagesInUse_ FreeObjects_];
    fold c; fold (osize s); fold OS.
  - exact Hgood.
  - apply ok.
  - apply (frame_pages s pgs fl live ok p m' Hpb Hm').
  - apply ok.
  - apply ok.
  - apply ok.
  - cbn [chain]. split; [reflexivity|]. split; [exact Hpnn|].
    replace (load_ptr m' p) with (FreeList_ s)
      by (symmetry; apply load_ptr_store_ptr; exact Hhead).
    apply (frame_chain s pgs fl live ok p m' Hpb Hm'); [apply ok|].
    intros a Ha. split; [apply (ok_free_blocks _ _ _ _ ok); auto|].
    intros ->. contradiction.
  - constructor; [exact Hnotin | apply ok].
  - intros b [<-|Hb]; [exact Hpb | apply (ok_free_blocks _ _ _ _ ok); auto].
  - apply NoDup_remove_Z. apply ok.
  - intros b Hb. apply in_remove in Hb. apply (ok_live_blocks _ _ _ _ ok). tauto.
  - intros b Hb [<-|Hin]; apply in_remove in Hb; [tauto|].
    apply (ok_disjoint _ _ _ _ ok b); tauto.
  - rewrite (ok_free_count _ _ _ _ ok), u32_idemp_add_l. f_equal.
    change (List.length (p :: fl)) with (S (List.length fl)). lia.
  - apply (frame_pads s pgs fl live ok p m' Hpb Hm').
  - intros Ht b Hb. apply in_remove in Hb. destruct Hb as [Hb Hne].
    assert (HH : load_ptr m' (header_at c b) = load_ptr (heap s) (header_at c b)).
    { apply (frame_header s pgs fl live ok p m' Hpb Hm' b Ht); auto.
      apply (ok_live_blocks _ _ _ _ ok); auto. }
    rewrite HH. apply (ok_external _ _ _ _ ok Ht b Hb).
Qed.

(** A block of the pool passes the boundary check. *)
Lemma block_not_bad s pgs fl live p :
  pool_ok s pgs fl live -> is_block (clientConfig s) (osize s) pgs p ->
  match pgs with [] => false | _ => forallb (bad_page s p) pgs end = false.
Proof.
  intros ok (pg & k & Hpg & Hk & Hp).
  set (c := clientConfig s) in *. set (OS := osize s) in *.
  assert (Hgood : good_layout c OS) by apply ok.
  destruct (layout_facts c OS Hgood) as (Hh & Hpd & Hos8 & Ho & Hst & Hsp & Hsp64).
  destruct (block_at_bounds c OS Hgood pg k Hk) as [B1 B2]. rewrite <- Hp in B1, B2.
  destruct (ok_pages_range _ _ _ _ ok pg Hpg) as [Hpg0 Hpg1]. fold c OS in Hpg1.
  assert (Hbad : bad_page s p pg = false).
  { apply bad_page_false_iff; [exact Hgood | lia | lia | |].
    - unfold first_object, sizeof_ptr, hsize, pad. fold c. lia.
    - split.
      + split; [lia|]. unfold last_object, first_object, block_stride, hsize, pad, sizeof_ptr.
        fold c OS. rewrite Hp. unfold block_at, sizeof_ptr. rewrite Hst.
        fold (osize s). fold OS.
        assert (0 <= OS + 2 * PadBytes_ c + size_ (HBlockInfo_ c)) by lia. nia.
      + exists k. unfold first_object, block_stride, hsize, pad, sizeof_ptr.
        fold c. fold (osize s). fold OS. rewrite Hp. unfold block_at, sizeof_ptr. rewrite Hst.
        ring. }
  destruct pgs as [|pg0 pgs']; [destruct Hpg|].
  apply (forallb_exists_false _ _ pg); auto.
Qed.

Lemma Free_ok fuel s pgs fl live p :
  pool_ok s pgs fl live -> In p live ->
  (List.length pgs < fuel)%nat -> (List.length fl < fuel)%nat ->
  exists s',
    Free fuel p s = Done tt s'
    /\ pool_ok s' pgs (p :: fl) (remove Z.eq_dec p live)
    /\ clientConfig s' = clientConfig s /\ osize s' = osize s.
Proof.
  intros ok Hlive Hfp Hff.
  destruct (put_on_tail_ok s pgs fl live p ok Hlive) as (s' & E & Hok & Hc & Hos).
  exists s'. split; [|auto].
  assert (Hgood : good_layout (clientConfig s) (osize s)) by apply ok.
  destruct (DebugOn_ (clientConfig s)) eqn:Hd.
  - rewrite (Free_debug_outcome fuel s p pgs fl Hgood Hd (ok_pages _ _ _ _ ok) Hfp
                                (ok_free _ _ _ _ ok) Hff).
    assert (Hpb := ok_live_blocks _ _ _ _ ok p Hlive).
    assert (Hc0 : check_corruption s p = false).
    { apply check_corruption_false. exact (ok_pads _ _ _ _ ok Hd p Hpb). }
    rewrite Hc0, andb_false_r.
    destruct (in_dec Z.eq_dec p fl) as [Hin|_];
      [exfalso; exact (ok_disjoint _ _ _ _ ok p Hlive Hin)|].
    rewrite (block_not_bad s pgs fl live p ok Hpb). exact E.
  - rewrite Free_pool by apply Hgood. rewrite put_on_freelist_unfold.
    change (clientConfig (counted_free s)) with (clientConfig s). rewrite Hd.
    exact E.
Qed.

(** A pointer that is on the free list is refused, in debug mode. *)
Lemma Free_on_free_list fuel s pgs fl live p :
  pool_ok s pgs fl live -> In p fl -> DebugOn_ (clientConfig s) = true ->
  (List.length pgs < fuel)%nat -> (List.length fl < fuel)%nat ->
  Free fuel p s = Throw E_MULTIPLE_FREE (counted_free s).
Proof.
  intros ok Hin Hd Hfp Hff.
  assert (Hgood : good_layout (clientConfig s) (osize s)) by apply ok.
  rewrite (Free_debug_outcome fuel s p pgs fl Hgood Hd (ok_pages _ _ _ _ ok) Hfp
                              (ok_free _ _ _ _ ok) Hff).
  assert (Hpb := ok_free_blocks _ _ _ _ ok p Hin).
  assert (Hc0 : check_corruption s p = false).
  { apply check_corruption_false. exact (ok_pads _ _ _ _ ok Hd p Hpb). }
  rewrite Hc0, andb_false_r.
  destruct (in_dec Z.eq_dec p fl); [reflexivity | contradiction].
Qed.

(** ** [Allocate] keeps the invariant *)

Lemma allocate_new_page_Done sys s s' :
  allocate_new_page sys s = Done tt s' -> exists np, new_page sys = Some np.
Proof.
  unfold allocate_new_page, bind.
  destruct (allocate_empty_page (new_page sys) s) as [[] s1| | |] eqn:E; try discriminate.
  intros _. apply (allocate_empty_page_Done _ _ _ E).
Qed.

Lemma Allocate_ok s pgs fl live sys label p s' :
  pool_ok s pgs fl live ->
  sys_fresh s pgs sys label = true ->
  Allocate sys label s = Done p s' ->
  exists fl',
    pool_ok s' (pages_after s pgs sys) fl' (p :: live)
    /\ clientConfig s' = clientConfig s /\ osize s' = osize s
    /\ (forall b, In b fl -> b = p \/ In b fl').
Proof.
  intros ok Hfresh E.
  assert (Hgood : good_layout (clientConfig s) (osize s)) by apply ok.
  assert (Hpool : UseCPPMemManager_ (clientConfig s) = false) by apply Hgood.
  unfold Allocate, bind at 1, get in E. rewrite Hpool in E. cbn [negb] in E.
  unfold bind in E. unfold sys_fresh, pages_after in *.
  apply andb_true_iff in Hfresh. destruct Hfresh as [Hpage Hrec].
  destruct (Z.eqb_spec (FreeList_ s) nullptr) as [Hnull|Hnn]; cbn [when] in E.
  - (* a new page is needed *)
    destruct (allocate_new_page sys s) as [[] s1| | |] eqn:E1; try discriminate.
    destruct (allocate_new_page_Done _ _ _ E1) as [np Hnp]. rewrite Hnp in *.
    assert (Hfl : fl = []) by (eapply chain_nil_inv; [apply ok | exact Hnull]). subst fl.
    destruct (allocate_new_page_ok s pgs live np sys ok Hnp Hpage s1 E1)
      as (ok1 & Hc1 & Hos1 & _).
    destruct (take_off_ok s1 (np :: pgs) _ live sys label p s' ok1) as (fl' & Hfl' & ok' & Hc' & Hos');
      [|exact E|].
    + rewrite Hc1, Hos1. intros Ht. rewrite Ht in Hrec.
      apply andb_true_iff in Hrec. destruct Hrec as [Hinfo Hlabel]. split.
      * intros info Hi. rewrite Hi in Hinfo. exact Hinfo.
      * intros str l Hstr Hl. rewrite Hstr, Hl in Hlabel. exact Hlabel.
    + exists fl'. split; [exact ok'|]. split; [congruence|]. split; [congruence|].
      intros b [].
  - destruct (take_off_ok s pgs fl live sys label p s' ok) as (fl' & Hfl' & ok' & Hc' & Hos');
      [|exact E|].
    + intros Ht. rewrite Ht in Hrec.
      apply andb_true_iff in Hrec. destruct Hrec as [Hinfo Hlabel]. split.
      * intros info Hi. rewrite Hi in Hinfo. exact Hinfo.
      * intros str l Hstr Hl. rewrite Hstr, Hl in Hlabel. exact Hlabel.
    + exists fl'. split; [exact ok'|]. split; [exact Hc'|]. split; [exact Hos'|].
      subst fl. intros b [<-|Hb]; auto.
Qed.

(** ** Valid use keeps the invariant *)

Lemma client_call_ok s pgs fl live cc s' pgs' live' :
  pool_ok s pgs fl live ->
  client_call (s, pgs, live) cc = Some (s', pgs', live') ->
  exists fl',
    pool_ok s' pgs' fl' live'
    /\ clientConfig s' = clientConfig s /\ osize s' = osize s
    /\ (forall b, In b fl \/ In b live -> In b fl' \/ In b live').
Proof.
  intros ok E. destruct cc as [sys label | fuel p]; cbn [client_call] in E.
  - destruct (sys_fresh s pgs sys label) eqn:Hfresh; [|discriminate].
    destruct (Allocate sys label s) as [p s1| | |] eqn:Ea; try discriminate.
    inversion E; subst.
    destruct (Allocate_ok s pgs fl live sys label p s' ok Hfresh Ea)
      as (fl' & ok' & Hc & Hos & Hfl).
    exists fl'. split; [exact ok'|]. split; [exact Hc|]. split; [exact Hos|].
    intros b [Hb|Hb].
    + destruct (Hfl b Hb) as [->|]; [right; left; auto | left; auto].
    + right. right. exact Hb.
  - destruct (in_dec Z.eq_dec p live) as [Hlive|]; [|discriminate].
    destruct (Free fuel p s) as [[] s1| | |] eqn:Ef; try discriminate.
    inversion E; subst.
    rewrite Free_pool in Ef by apply ok. apply put_on_freelist_Done in Ef.
    destruct (put_on_tail_ok s pgs' fl live p ok Hlive) as (s2 & E2 & ok' & Hc & Hos).
    rewrite Ef in E2. inversion E2; subst s2.
    exists (p :: fl). split; [exact ok'|]. split; [exact Hc|]. split; [exact Hos|].
    intros b [Hb|Hb].
    + left. right. exact Hb.
    + destruct (Z.eq_dec b p) as [->|Hne]; [left; left; auto|].
      right. apply in_in_remove; auto.
Qed.

Lemma client_run_ok cs : forall s pgs fl live s' pgs' live',
  pool_ok s pgs fl live ->
  client_run cs (s, pgs, live) = Some (s', pgs', live') ->
  exists fl',
    pool_ok s' pgs' fl' live'
    /\ clientConfig s' = clientConfig s /\ osize s' = osize s
    /\ (forall b, In b fl \/ In b live -> In b fl' \/ In b live').
Proof.
  induction cs as [|cc cs IH]; intros s pgs fl live s' pgs' live' ok E; cbn [client_run] in E.
  - inversion E; subst. exists fl. split; [exact ok|]. auto.
  - destruct (client_call (s, pgs, live) cc) as [[[s1 pgs1] live1]|] eqn:E1; [|discriminate].
    destruct (client_call_ok s pgs fl live cc s1 pgs1 live1 ok E1) as (fl1 & ok1 & Hc1 & Hos1 & H1).
    destruct (IH s1 pgs1 fl1 live1 s' pgs' live' ok1 E) as (fl' & ok' & Hc' & Hos' & H').
    exists fl'. split; [exact ok'|]. split; [congruence|]. split; [congruence|].
    intros b Hb. auto.
Qed.

Lemma client_new_ok m0 sys ObjectSize config s pgs live :
  good_layout config ObjectSize ->
  client_new m0 sys ObjectSize config = Some (s, pgs, live) ->
  exists fl, pool_ok s pgs fl live /\ clientConfig s = config /\ osize s = ObjectSize.
Proof.
  intros Hgood E. unfold client_new in E.
  destruct (new_page sys) as [np|] eqn:Hnp; [|discriminate].
  destruct (region_free config ObjectSize [] np (span config ObjectSize)) eqn:Hfree;
    [|discriminate].
  destruct (ObjectAllocator_ctor m0 sys ObjectSize config) as [[] s0| | |] eqn:Ec;
    try discriminate.
  inversion E; subst. clear E.
  unfold ObjectAllocator_ctor in Ec.
  assert (Hpool : UseCPPMemManager_ config = false) by apply Hgood.
  rewrite Hpool in Ec. cbn [negb] in Ec.
  match type of Ec with allocate_new_page sys ?s1 = _ => set (s_init := s1) in * end.
  assert (ok0 : pool_ok s_init [] [] []).
  { constructor.
    - exact Hgood.
    - unfold s_init. cbn [stats set_stats PageSize_].
      match goal with |- calculate_page_size ?s1 = _ =>
        rewrite (good_layout_page_size s1 Hgood) end.
      reflexivity.
    - reflexivity.
    - intros pg [].
    - intros pg1 pg2 [].
    - split; [reflexivity|]. cbn. destruct Hgood as (_ & _ & Hm & _).
      unfold is_unsigned in Hm. lia.
    - reflexivity.
    - constructor.
    - intros b [].
    - constructor.
    - intros b [].
    - intros b [].
    - reflexivity.
    - intros _ b (pg & k & [] & _).
    - intros _ b []. }
  destruct (allocate_new_page_ok s_init [] [] np sys ok0 Hnp Hfree s Ec) as (ok & Hc & Hos & _).
  eexists. split; [exact ok|]. split; [exact Hc | exact Hos].
Qed.

(** ** The counter does not wrap when the capacity fits it *)

Lemma pool_free_length s pgs fl live :
  pool_ok s pgs fl live ->
  (List.length fl <= List.length pgs * Z.to_nat (ObjectsPerPage_ (clientConfig s)))%nat.
Proof.
  intros ok. set (c := clientConfig s). set (OS := osize s).
  assert (Hgood : good_layout c OS) by apply ok.
  destruct (layout_facts c OS Hgood) as (_ & _ & _ & Ho & _).
  set (all := flat_map (fun pg => page_blocks c OS pg (Z.to_nat (ObjectsPerPage_ c))) pgs).
  assert (Hincl : incl fl all).
  { intros b Hb. destruct (ok_free_blocks _ _ _ _ ok b Hb) as (pg & k & Hpg & Hk & ->).
    apply in_flat_map. exists pg. split; auto. apply page_blocks_in. exists k. split; auto.
    fold c in Hk. lia. }
  assert (Hlen : List.length all = (List.length pgs * Z.to_nat (ObjectsPerPage_ c))%nat).
  { unfold all. clear. induction pgs as [|pg pgs' IH]; simpl; auto.
    rewrite length_app, page_blocks_length, IH. reflexivity. }
  pose proof (NoDup_incl_length (ok_free_nodup _ _ _ _ ok) Hincl) as Hle.
  rewrite Hlen in Hle. exact Hle.
Qed.

Lemma pool_capacity s pgs fl live :
  pool_ok s pgs fl live ->
  Z.of_nat (List.length fl) <= MaxPages_ (clientConfig s) * ObjectsPerPage_ (clientConfig s).
Proof.
  intros ok. pose proof (pool_free_length s pgs fl live ok) as Hle.
  assert (Hgood : good_layout (clientConfig s) (osize s)) by apply ok.
  destruct (layout_facts _ _ Hgood) as (_ & _ & _ & Ho & _).
  destruct (ok_pages_count _ _ _ _ ok) as [_ Hmax].
  assert (Z.of_nat (List.length fl)
          <= Z.of_nat (List.length pgs) * ObjectsPerPage_ (clientConfig s)) by nia.
  nia.
Qed.

Lemma the_client_some o : is_some o = true -> o = Some (the_client o).
Proof. destruct o; simpl; congruence. Qed.

Lemma the_client_triple o :
  is_some o = true ->
  o = Some (fst (fst (the_client o)), snd (fst (the_client o)), snd (the_client o)).
Proof. destruct o as [[[s pgs] live]|]; simpl; congruence. Qed.

(** * The claims *)

(** ** C4 *)

(** C4.  For a pool-mode allocator, after construction and after every
    sequence of [Allocate] and [Free] calls (whatever their arguments and
    whether they return or throw), the program's equality
    [FreeObjects_ + ObjectsInUse_ == PagesInUse_ * ObjectsPerPage_] holds on
    its [unsigned] counters. *)
Theorem balance_invariant :
  forall m0 sys ObjectSize config s0 cs s,
    UseCPPMemManager_ config = false ->
    is_unsigned (ObjectsPerPage_ config) ->
    ObjectAllocator_ctor m0 sys ObjectSize config = Done tt s0 ->
    run cs s0 = Some s ->
    balanced s.
Proof.
  intros m0 sys ObjectSize config s0 cs s _ Hopp Hctor Hrun.
  destruct (balanced_ctor m0 sys ObjectSize config s0 Hopp Hctor) as [Hc Hb].
  eapply balanced_run; eauto. rewrite Hc. exact Hopp.
Qed.

(** Where neither side wraps, the equality holds between the numbers. *)
Lemma balanced_exact s :
  balanced s ->
  0 <= FreeObjects_ (stats s) + ObjectsInUse_ (stats s) < 2 ^ 32 ->
  0 <= PagesInUse_ (stats s) * ObjectsPerPage_ (clientConfig s) < 2 ^ 32 ->
  FreeObjects_ (stats s) + ObjectsInUse_ (stats s)
  = PagesInUse_ (stats s) * ObjectsPerPage_ (clientConfig s).
Proof.
  unfold balanced. intros H H1 H2. rewrite !u32_small in H by assumption. exact H.
Qed.

(** ** C7 *)

(** C7, as amended.  In debug mode, for a pointer that does not lie in the
    bytes between a page's start and that page's first object, [Free]
    signals the bad-boundary error if and only if the padding around the
    pointer is intact, the pointer is not on the free list, and no page of
    the page list satisfies both conditions (within the page, offset an
    exact multiple of the stride). *)
Theorem bad_boundary_iff :
  forall fuel s p pgs fl,
    good_layout (clientConfig s) (osize s) ->
    DebugOn_ (clientConfig s) = true ->
    chain (heap s) (PageList_ s) pgs -> pgs <> [] -> (List.length pgs < fuel)%nat ->
    chain (heap s) (FreeList_ s) fl -> (List.length fl < fuel)%nat ->
    0 <= p < 2 ^ 64 ->
    (forall pg, In pg pgs -> 0 <= pg /\ ~ (pg <= p < first_object s pg)) ->
    ((exists s', Free fuel p s = Throw E_BAD_BOUNDARY s')
     <-> (pads_intact s p /\ ~ In p fl
          /\ ~ exists pg, In pg pgs /\ page_accepts s pg p)).
Proof.
  intros fuel s p pgs fl Hgood Hdbg Hpg Hne Hfpg Hfl Hffl Hp Hlead.
  rewrite (Free_debug_outcome fuel s p pgs fl Hgood Hdbg Hpg Hfpg Hfl Hffl).
  assert (Hacc : forall pg, In pg pgs -> (bad_page s p pg = false <-> page_accepts s pg p)).
  { intros pg Hin. destruct (Hlead pg Hin). apply bad_page_false_iff; auto. }
  destruct (negb (pad s =? 0)) eqn:Epad; cbn [andb].
  - destruct (check_corruption s p) eqn:Ecorr.
    + split.
      * intros [s' H]. discriminate.
      * intros (Hpads & _). apply check_corruption_false in Hpads. congruence.
    + apply check_corruption_false in Ecorr.
      destruct (in_dec Z.eq_dec p fl) as [Hin|Hin].
      * split; [intros [s' H]; discriminate | tauto].
      * destruct pgs as [|pg0 pgs']; [congruence|].
        destruct (forallb (bad_page s p) (pg0 :: pgs')) eqn:Eall.
        -- split; [|eauto]. intros _. split; [exact Ecorr|]. split; [exact Hin|].
           intros (pg & Hpgin & Hpa). apply Hacc in Hpa; auto.
           rewrite forallb_forall in Eall. rewrite (Eall pg Hpgin) in Hpa. discriminate.
        -- apply forallb_false_exists in Eall. destruct Eall as (pg & Hpgin & Hbad).
           split.
           ++ intros [s' H]. pose proof (no_throw_put_on_freelist_tail (counted_free s) p (counted_free s)) as N.
              unfold post in N. rewrite H in N. contradiction.
           ++ intros (_ & _ & Hno). exfalso. apply Hno. exists pg. split; auto. apply Hacc; auto.
  - assert (Hpads : pads_intact s p).
    { intros i Hi. apply negb_false_iff, Z.eqb_eq in Epad. lia. }
    destruct (in_dec Z.eq_dec p fl) as [Hin|Hin].
    + split; [intros [s' H]; discriminate | tauto].
    + destruct pgs as [|pg0 pgs']; [congruence|].
      destruct (forallb (bad_page s p) (pg0 :: pgs')) eqn:Eall.
      * split; [|eauto]. intros _. split; [exact Hpads|]. split; [exact Hin|].
        intros (pg & Hpgin & Hpa). apply Hacc in Hpa; auto.
        rewrite forallb_forall in Eall. rewrite (Eall pg Hpgin) in Hpa. discriminate.
      * apply forallb_false_exists in Eall. destruct Eall as (pg & Hpgin & Hbad).
        split.
        -- intros [s' H]. pose proof (no_throw_put_on_freelist_tail (counted_free s) p (counted_free s)) as N.
           unfold post in N. rewrite H in N. contradiction.
        -- intros (_ & _ & Hno). exfalso. apply Hno. exists pg. split; auto. apply Hacc; auto.
Qed.

Lemma balance_invariant_witness :
  balanced (the_state (run [Call_Allocate no_sys None; Call_Free 10 4161; Call_Free 10 4161]
                           basic_fresh)).
Proof.
  apply (balance_invariant zero_memory (sys_page 4096) 16 basic_config basic_fresh
           [Call_Allocate no_sys None; Call_Free 10 4161; Call_Free 10 4161]).
  - reflexivity.
  - unfold is_unsigned. simpl. lia.
  - unfold basic_fresh. apply returned_Done. vm_compute. reflexivity.
  - apply is_some_the_state. vm_compute. reflexivity.
Defined.

Lemma basic_fresh_good : good_layout (clientConfig basic_fresh) (osize basic_fresh).
Proof.
  unfold good_layout, is_unsigned, header_fits. vm_compute. repeat split; congruence.
Qed.

(** The page list of [basic_fresh] is the one page at 4096 and its free list
    holds the three blocks. *)
Lemma basic_fresh_lists :
  chain (heap basic_fresh) (PageList_ basic_fresh) [4096]
  /\ chain (heap basic_fresh) (FreeList_ basic_fresh) [4161; 4136; 4111].
Proof. chain_tac. Qed.

Lemma basic_fresh_no_page_accepts_12345 :
  ~ exists pg, In pg [4096] /\ page_accepts basic_fresh pg 12345.
Proof.
  intros (pg & [<- | []] & [[_ H] _]). vm_compute in H. apply H. reflexivity.
Qed.

(** C7, the claim as stated fails: 12345 lies in no page of [basic_fresh],
    yet [Free] reports a corrupted block and not a bad boundary, because the
    padding check runs first. *)
Lemma bad_boundary_counterexample :
  chain (heap basic_fresh) (PageList_ basic_fresh) [4096]
  /\ (~ exists pg, In pg [4096] /\ page_accepts basic_fresh pg 12345)
  /\ Free 10 12345 basic_fresh = Throw E_CORRUPTED_BLOCK (counted_free basic_fresh)
  /\ ~ (exists s', Free 10 12345 basic_fresh = Throw E_BAD_BOUNDARY s').
Proof.
  split; [apply basic_fresh_lists|].
  split; [apply basic_fresh_no_page_accepts_12345|].
  assert (E : Free 10 12345 basic_fresh = Throw E_CORRUPTED_BLOCK (counted_free basic_fresh)).
  { rewrite (Free_debug_outcome 10 basic_fresh 12345 [4096] [4161; 4136; 4111]).
    - replace (negb (pad basic_fresh =? 0) && check_corruption basic_fresh 12345) with true
        by (vm_compute; reflexivity).
      reflexivity.
    - apply basic_fresh_good.
    - vm_compute. reflexivity.
    - apply basic_fresh_lists.
    - simpl. lia.
    - apply basic_fresh_lists.
    - simpl. lia. }
  split; [exact E|]. intros [s' H]. rewrite E in H. discriminate.
Qed.

Lemma bad_boundary_iff_witness :
  (exists s', Free 10 12345 basic_fresh = Throw E_BAD_BOUNDARY s')
  <-> (pads_intact basic_fresh 12345 /\ ~ In 12345 [4161; 4136; 4111]
       /\ ~ exists pg, In pg [4096] /\ page_accepts basic_fresh pg 12345).
Proof.
  apply (bad_boundary_iff 10 basic_fresh 12345 [4096] [4161; 4136; 4111]).
  - apply basic_fresh_good.
  - vm_compute. reflexivity.
  - apply basic_fresh_lists.
  - discriminate.
  - simpl. lia.
  - apply basic_fresh_lists.
  - simpl. lia.
  - lia.
  - intros pg [<- | []]. vm_compute. split; [congruence|]. intros [_ H]. discriminate H.
Defined.

(** ** C1 *)

(** What a failed [Free] leaves behind, in debug mode: the lists, the
    memory and the configuration of before, and statistics that already
    count the deallocation. *)
Lemma failed_Free_state fuel s p pgs fl e s' :
  good_layout (clientConfig s) (osize s) ->
  DebugOn_ (clientConfig s) = true ->
  chain (heap s) (PageList_ s) pgs -> (List.length pgs < fuel)%nat ->
  chain (heap s) (FreeList_ s) fl -> (List.length fl < fuel)%nat ->
  Free fuel p s = Throw e s' ->
  s' = counted_free s.
Proof.
  intros Hgood Hdbg Hpg Hfpg Hfl Hffl.
  rewrite (Free_debug_outcome fuel s p pgs fl Hgood Hdbg Hpg Hfpg Hfl Hffl).
  destruct (negb (pad s =? 0) && check_corruption s p); [congruence|].
  destruct (in_dec Z.eq_dec p fl); [congruence|].
  destruct (match pgs with [] => false | _ => forallb (bad_page s p) pgs end); [congruence|].
  intros H. pose proof (no_throw_put_on_freelist_tail (counted_free s) p (counted_free s)) as N.
  unfold post in N. rewrite H in N. contradiction.
Qed.

(** C1, the code at the failing input: the object at 4161 was allocated
    and freed; freeing it once more is refused as a multiple free, and the
    free list is untouched, but the statistics are not: [Deallocations_]
    went from 1 to 2, [FreeObjects_] from 3 to 4 and [ObjectsInUse_] from 0
    to 4294967295. *)
Theorem failed_Free_changes_statistics :
  Free 10 4161 basic_freed = Throw E_MULTIPLE_FREE (counted_free basic_freed)
  /\ FreeList_ (counted_free basic_freed) = FreeList_ basic_freed
  /\ stats basic_freed = mkOAStats 16 83 3 0 1 1 1 1
  /\ stats (counted_free basic_freed) = mkOAStats 16 83 4 4294967295 1 1 1 2.
Proof.
  split; [|split; [vm_compute; reflexivity | split; vm_compute; reflexivity]].
  rewrite (Free_debug_outcome 10 basic_freed 4161 [4096] [4161; 4136; 4111]).
  - replace (negb (pad basic_freed =? 0) && check_corruption basic_freed 4161) with false
      by (vm_compute; reflexivity).
    destruct (in_dec Z.eq_dec 4161 [4161; 4136; 4111]) as [_|H]; [reflexivity|].
    exfalso. apply H. left. reflexivity.
  - unfold good_layout, is_unsigned, header_fits. vm_compute. repeat split; congruence.
  - vm_compute. reflexivity.
  - chain_tac.
  - simpl. lia.
  - chain_tac.
  - simpl. lia.
Qed.

(** ** C2 *)

(** C2, the code at the failing inputs: with [MaxPages_ = 0] the
    constructor of every pool-mode allocator throws [E_NO_PAGES]. *)
Theorem max_pages_zero_refuses_first_page :
  forall m0 sys ObjectSize ObjectsPerPage DebugOn PadBytes HBlockInfo,
  exists s,
    ObjectAllocator_ctor m0 sys ObjectSize
      (mkOAConfig false ObjectsPerPage 0 DebugOn PadBytes HBlockInfo)
    = Throw E_NO_PAGES s.
Proof.
  intros. eexists. reflexivity.
Qed.

(** ** C3 *)

(** The statistics after an [Allocate] that returns: all four counters
    moved by one from their values when the object was popped. *)
Lemma take_off_freelist_statistics sys label s p s' :
  take_off_freelist sys label s = Done p s' ->
  FreeObjects_ (stats s') = u32 (FreeObjects_ (stats s) - 1)
  /\ ObjectsInUse_ (stats s') = u32 (ObjectsInUse_ (stats s) + 1)
  /\ Allocations_ (stats s') = u32 (Allocations_ (stats s) + 1)
  /\ MostObjects_ (stats s') = u32 (MostObjects_ (stats s) + 1).
Proof.
  intros E. pose proof (take_off_freelist_meta sys label s) as H.
  unfold post in H. rewrite E in H. destruct H as [_ ->]. simpl. auto.
Qed.

(** C3, the claim as stated fails: the page of [basic_full] is used up
    ([FreeObjects_ = 0]); the next [Allocate] obtains a second page of three
    blocks and returns, and leaves [FreeObjects_ = 2]: the free count has
    not decreased by one. *)
Lemma Allocate_statistics_counterexample :
  FreeList_ basic_full = nullptr
  /\ FreeObjects_ (stats basic_full) = 0
  /\ returned (Allocate (sys_page 8192) None basic_full) = Some 8257
  /\ FreeObjects_ (stats (state_of (Allocate (sys_page 8192) None basic_full))) = 2
  /\ FreeObjects_ (stats (state_of (Allocate (sys_page 8192) None basic_full)))
     <> FreeObjects_ (stats basic_full) - 1
  /\ FreeObjects_ (stats (state_of (Allocate (sys_page 8192) None basic_full)))
     <> u32 (FreeObjects_ (stats basic_full) - 1).
Proof. eval_goal. Qed.

(** C3, as amended.  In pool mode an [Allocate] that returns leaves the
    in-use count and the allocation count increased by one; the free count
    is decreased by one when the free list was not empty, and increased by
    [ObjectsPerPage_ - 1] when it was empty and a page was obtained (all as
    32-bit counters). *)
Theorem Allocate_statistics :
  forall sys label s p s',
    UseCPPMemManager_ (clientConfig s) = false ->
    is_unsigned (ObjectsPerPage_ (clientConfig s)) ->
    Allocate sys label s = Done p s' ->
    ObjectsInUse_ (stats s') = u32 (ObjectsInUse_ (stats s) + 1)
    /\ Allocations_ (stats s') = u32 (Allocations_ (stats s) + 1)
    /\ FreeObjects_ (stats s')
       = if FreeList_ s =? nullptr
         then u32 (FreeObjects_ (stats s) + ObjectsPerPage_ (clientConfig s) - 1)
         else u32 (FreeObjects_ (stats s) - 1).
Proof.
  intros sys label s p s' Hpool Hopp E.
  unfold Allocate, bind at 1, get in E. rewrite Hpool in E. cbn [negb] in E.
  unfold bind in E. destruct (FreeList_ s =? nullptr); cbn [when] in E.
  - pose proof (allocate_new_page_meta sys s) as Hn. unfold post in Hn.
    destruct (allocate_new_page sys s) as [[] s1| | |]; try discriminate.
    destruct Hn as [Hc1 Hs1].
    destruct (take_off_freelist_statistics sys label s1 p s' E) as (HF & HU & HA & _).
    destruct (iter_inc_FreeObjects (Z.to_nat (ObjectsPerPage_ (clientConfig s))) (stats s))
      as (_ & _ & IU & _ & _ & IA & _ & IF).
    rewrite Hs1 in HF, HU, HA. cbn [inc_PagesInUse FreeObjects_ ObjectsInUse_ Allocations_] in *.
    rewrite IU in HU. rewrite IA in HA. split; [exact HU|]. split; [exact HA|].
    rewrite HF. unfold is_unsigned in Hopp.
    replace (FreeObjects_ (Nat.iter (Z.to_nat (ObjectsPerPage_ (clientConfig s)))
                                    inc_FreeObjects (stats s)) - 1)
      with (FreeObjects_ (Nat.iter (Z.to_nat (ObjectsPerPage_ (clientConfig s)))
                                   inc_FreeObjects (stats s)) + -1) by lia.
    rewrite IF, Z2Nat.id by lia. f_equal; lia.
  - destruct (take_off_freelist_statistics sys label s p s' E) as (HF & HU & HA & _). auto.
Qed.

Lemma Allocate_statistics_witness :
  ObjectsInUse_ (stats (state_of (Allocate (sys_page 8192) None basic_full)))
  = u32 (ObjectsInUse_ (stats basic_full) + 1)
  /\ Allocations_ (stats (state_of (Allocate (sys_page 8192) None basic_full)))
     = u32 (Allocations_ (stats basic_full) + 1)
  /\ FreeObjects_ (stats (state_of (Allocate (sys_page 8192) None basic_full)))
     = if FreeList_ basic_full =? nullptr
       then u32 (FreeObjects_ (stats basic_full) + ObjectsPerPage_ (clientConfig basic_full) - 1)
       else u32 (FreeObjects_ (stats basic_full) - 1).
Proof.
  apply (Allocate_statistics (sys_page 8192) None basic_full 8257).
  - vm_compute. reflexivity.
  - unfold is_unsigned. vm_compute. split; congruence.
  - apply returned_Done. vm_compute. reflexivity.
Defined.

(** The peak counter: [take_off_freelist] increments it on every
    allocation, whether or not the in-use count exceeds it.  One object was allocated and freed
    (peak 1, none in use); the next [Allocate] leaves one object in use and
    a peak counter of 2. *)
Lemma peak_counts_allocations :
  MostObjects_ (stats basic_freed) = 1
  /\ ObjectsInUse_ (stats basic_freed) = 0
  /\ exists s', Allocate no_sys None basic_freed = Done 4161 s'
                /\ ObjectsInUse_ (stats s') = 1
                /\ MostObjects_ (stats s') = 2
                /\ Z.max (MostObjects_ (stats basic_freed)) (ObjectsInUse_ (stats s')) = 1.
Proof.
  split; [vm_compute; reflexivity|]. split; [vm_compute; reflexivity|].
  exists (state_of (Allocate no_sys None basic_freed)). eval_goal.
Qed.

(** ** C5 *)

Lemma ValidatePages_blocks_no_header n : forall s p calls num,
  hsize s = 0 -> ValidatePages_blocks n s p calls num = (calls, num).
Proof.
  induction n as [|n IH]; intros s p calls num H; cbn [ValidatePages_blocks]; auto.
  rewrite H. cbn. apply IH. exact H.
Qed.

(** Without a header [ValidatePages] reports nothing, whatever the padding holds. *)
Lemma ValidatePages_no_header fuel s pgs :
  hsize s = 0 -> chain (heap s) (PageList_ s) pgs -> (List.length pgs < fuel)%nat ->
  ValidatePages fuel s = Some ([], 0).
Proof.
  intros Hh Hc Hf. unfold ValidatePages.
  assert (H : forall fuel pgs head, chain (heap s) head pgs -> (List.length pgs < fuel)%nat ->
                               ValidatePages_pages fuel s head [] 0 = Some ([], 0)).
  { clear fuel pgs Hc Hf. induction fuel as [|fuel IH]; intros pgs head Hc Hf; [lia|].
    cbn [ValidatePages_pages]. destruct pgs as [|pg pgs]; simpl in Hc, Hf.
    - subst head. reflexivity.
    - destruct Hc as (-> & Hn & Hc). destruct (Z.eqb_spec pg nullptr); [contradiction|].
      rewrite ValidatePages_blocks_no_header by exact Hh. apply (IH pgs); auto. lia. }
  rewrite (H fuel pgs); auto.
Qed.

(** A byte other than the pad pattern directly past the object makes
    [Free] signal the corrupted block, in debug mode with padding. *)
Lemma Free_overrun_detected fuel s p pgs fl :
  good_layout (clientConfig s) (osize s) ->
  DebugOn_ (clientConfig s) = true -> 0 < pad s ->
  chain (heap s) (PageList_ s) pgs -> (List.length pgs < fuel)%nat ->
  chain (heap s) (FreeList_ s) fl -> (List.length fl < fuel)%nat ->
  heap s (p + osize s) mod 256 <> PAD_PATTERN ->
  Free fuel p s = Throw E_CORRUPTED_BLOCK (counted_free s).
Proof.
  intros Hgood Hdbg Hpad Hpg Hfpg Hfl Hffl Hbyte.
  rewrite (Free_debug_outcome fuel s p pgs fl Hgood Hdbg Hpg Hfpg Hfl Hffl).
  destruct (Z.eqb_spec (pad s) 0); [lia|]. cbn [negb andb].
  rewrite (check_corruption_true s p 0); auto; [lia|].
  right. rewrite Z.add_0_r. exact Hbyte.
Qed.

(** C5, the code at the failing input: no header, two pad bytes, debug mode
    on; the client has overwritten the pad byte directly past its object at
    4146.  [Free] signals the corrupted block, but [ValidatePages] calls
    nothing and returns 0. *)
Theorem ValidatePages_misses_overrun_without_header :
  heap plain_one (4146 + 16) = PAD_PATTERN
  /\ heap plain_overrun (4146 + 16) = 0
  /\ check_corruption plain_overrun 4146 = true
  /\ ValidatePages 10 plain_overrun = Some ([], 0)
  /\ Free 10 4146 plain_overrun = Throw E_CORRUPTED_BLOCK (counted_free plain_overrun).
Proof.
  do 4 (split; [vm_compute; reflexivity|]).
  apply (Free_overrun_detected 10 plain_overrun 4146 [4096] [4126; 4106]).
  - unfold good_layout, is_unsigned, header_fits. vm_compute. repeat split; congruence.
  - vm_compute. reflexivity.
  - vm_compute. reflexivity.
  - chain_tac.
  - simpl. lia.
  - chain_tac.
  - simpl. lia.
  - vm_compute. discriminate.
Qed.

(** ** C8 *)

(** C8, the code at the failing input: external headers, one object
    allocated and none freed, its [MemBlockInfo] record at 0x2000.  One
    object is in use, but [DumpMemoryInUse] calls nothing and returns 0: it
    reads the in-use flag from the header bytes, which hold the address of
    the record, not from the record. *)
Theorem DumpMemoryInUse_misses_external_block :
  Allocate (mkSys None (Some 8192) None None) None external_fresh = Done 4160 external_one
  /\ ObjectsInUse_ (stats external_one) = 1
  /\ load_ptr (heap external_one) (4160 - 8) = 8192
  /\ heap external_one (8192 + MemBlockInfo_in_use) = 1
  /\ DumpMemoryInUse 10 external_one = Some ([], 0).
Proof. unfold external_one. eval_goal. Qed.

(** ** C9 *)

(** C9, the code at the failing input: basic headers and two pad bytes.
    [Allocate] returned 4161; [DumpMemoryInUse] passes 4159, the start of
    the left padding, and [ValidatePages], once the byte past the object is
    overwritten, passes 4166, five bytes into the object. *)
Theorem callbacks_get_wrong_pointer :
  Allocate no_sys None basic_fresh = Done 4161 basic_one
  /\ DumpMemoryInUse 10 basic_one = Some ([(4159, 16)], 1)
  /\ ValidatePages 10 (set_heap (fun m => store m (4161 + 16) 1 0) basic_one)
     = Some ([(4166, 16)], 1).
Proof. unfold basic_one. eval_goal. Qed.

(** ** C10: the claim as stated *)

Lemma self_loop_no_chain m p :
  p <> nullptr -> load_ptr m p = p -> forall l, ~ chain m p l.
Proof.
  intros Hp H l. induction l as [|a l IH]; simpl.
  - exact Hp.
  - intros (<- & Hn & Hc). rewrite H in Hc. exact (IH Hc).
Qed.

(** C10, the claim as stated fails: debug mode is off, the object at 4151
    is allocated and then freed twice; all three calls return, and the free
    list is a node that is its own successor, with [FreeObjects_ = 4]. *)
Lemma free_list_counterexample :
  ObjectAllocator_ctor zero_memory (sys_page 4096) 16 quiet_config = Done tt quiet_fresh
  /\ Allocate no_sys None quiet_fresh = Done 4151 quiet_one
  /\ Free 10 4151 quiet_one = Done tt quiet_freed
  /\ Free 10 4151 quiet_freed = Done tt quiet_freed_twice
  /\ FreeList_ quiet_freed_twice = 4151
  /\ load_ptr (heap quiet_freed_twice) 4151 = 4151
  /\ FreeObjects_ (stats quiet_freed_twice) = 4
  /\ forall l, ~ chain (heap quiet_freed_twice) (FreeList_ quiet_freed_twice) l.
Proof.
  repeat match goal with |- _ /\ _ => split end.
  - unfold quiet_fresh. eval_goal.
  - unfold quiet_one. eval_goal.
  - unfold quiet_freed. eval_goal.
  - unfold quiet_freed_twice. eval_goal.
  - vm_compute. reflexivity.
  - vm_compute. reflexivity.
  - vm_compute. reflexivity.
  - replace (FreeList_ quiet_freed_twice) with 4151 by (vm_compute; reflexivity).
    apply self_loop_no_chain; [discriminate | vm_compute; reflexivity].
Qed.

(** ** C10, as amended *)

(** C10, as amended.  For every pool-mode allocator with a well-formed
    layout, after construction and any sequence of [Allocate] and [Free]
    calls that return, in which every [Free] is given a pointer that an
    earlier [Allocate] returned and that was not freed since, the free list
    is nil-terminated and without repetition, and [FreeObjects_] is the
    number of its nodes as a 32-bit counter (the number itself when the
    capacity [MaxPages_ * ObjectsPerPage_] fits the counter). *)
Theorem free_list_well_formed :
  forall m0 sys ObjectSize config cs cl s pgs live,
    good_layout config ObjectSize ->
    client_new m0 sys ObjectSize config = Some cl ->
    client_run cs cl = Some (s, pgs, live) ->
    exists fl,
      chain (heap s) (FreeList_ s) fl
      /\ NoDup fl
      /\ FreeObjects_ (stats s) = u32 (Z.of_nat (List.length fl))
      /\ (MaxPages_ config * ObjectsPerPage_ config < 2 ^ 32 ->
          FreeObjects_ (stats s) = Z.of_nat (List.length fl)).
Proof.
  intros m0 sys ObjectSize config cs [[s0 pgs0] live0] s pgs live Hgood Hnew Hrun.
  destruct (client_new_ok m0 sys ObjectSize config s0 pgs0 live0 Hgood Hnew)
    as (fl0 & ok0 & Hc0 & Hos0).
  destruct (client_run_ok cs s0 pgs0 fl0 live0 s pgs live ok0 Hrun) as (fl & ok & Hc & Hos & _).
  exists fl. split; [apply ok|]. split; [apply ok|]. split; [apply ok|].
  intros Hcap. rewrite (ok_free_count _ _ _ _ ok). apply u32_small.
  pose proof (pool_capacity s pgs fl live ok) as Hle. rewrite Hc, Hc0 in Hle. lia.
Qed.

Lemma free_list_well_formed_witness :
  exists fl,
    chain (heap (fst (fst basic_client_three))) (FreeList_ (fst (fst basic_client_three))) fl
    /\ NoDup fl
    /\ FreeObjects_ (stats (fst (fst basic_client_three))) = u32 (Z.of_nat (List.length fl))
    /\ (MaxPages_ basic_config * ObjectsPerPage_ basic_config < 2 ^ 32 ->
        FreeObjects_ (stats (fst (fst basic_client_three))) = Z.of_nat (List.length fl)).
Proof.
  apply (free_list_well_formed zero_memory (sys_page 4096) 16 basic_config
           [Call_Allocate no_sys None; Call_Allocate no_sys None; Call_Free 10 4161]
           basic_client _ (snd (fst basic_client_three)) (snd basic_client_three)).
  - unfold good_layout, is_unsigned, header_fits. vm_compute. repeat split; congruence.
  - unfold basic_client. apply the_client_some. vm_compute. reflexivity.
  - unfold basic_client_three. apply the_client_triple. vm_compute. reflexivity.
Defined.

(** ** C6 *)

(** C6, the claim as stated fails: pool mode, debug mode on, two pad bytes
    and objects of six bytes, which are shorter than the eight-byte link of
    the free list.  [add_to_page] stores the link of the block at 4141 in
    the bytes 4141 to 4148, over the pad bytes at 4147 and 4148 that
    [make_block] had painted.  [Allocate] returns 4141, and the first
    [Free] of that pointer finds the bytes at 4147 and 4148 to be 0 and
    throws [E_CORRUPTED_BLOCK], whatever the fuel: it does not return. *)
Lemma double_free_counterexample :
  UseCPPMemManager_ basic_config = false
  /\ DebugOn_ basic_config = true
  /\ ObjectAllocator_ctor zero_memory (sys_page 4096) 6 basic_config = Done tt small_fresh
  /\ Allocate no_sys None small_fresh = Done 4141 small_one
  /\ heap small_one 4147 = 0 /\ heap small_one 4148 = 0
  /\ (forall fuel, thrown (Free fuel 4141 small_one) = Some E_CORRUPTED_BLOCK)
  /\ ~ (exists fuel s1, Free fuel 4141 small_one = Done tt s1).
Proof.
  assert (H : forall fuel, thrown (Free fuel 4141 small_one) = Some E_CORRUPTED_BLOCK).
  { intros fuel. vm_compute. reflexivity. }
  repeat match goal with |- _ /\ _ => split end.
  - reflexivity.
  - reflexivity.
  - unfold small_fresh. eval_goal.
  - unfold small_one. eval_goal.
  - vm_compute. reflexivity.
  - vm_compute. reflexivity.
  - exact H.
  - intros (fuel & s1 & E). specialize (H fuel). rewrite E in H. discriminate H.
Qed.

(** C6, as amended.  For every pool-mode allocator with a well-formed
    layout (objects of at least eight bytes, the size of the free-list
    link) and debug mode on, with or without padding, and every pointer [p]
    that [Allocate] returned and the client still holds: [Free p] returns;
    and after any further valid calls that leave [p] freed (no [Allocate]
    has handed it out again), [Free p] signals [E_MULTIPLE_FREE].  The fuel
    only has to let the scans of the two lists reach their end. *)
Theorem double_free_detected :
  forall m0 sys ObjectSize config cs cl s pgs live p fuel,
    good_layout config ObjectSize ->
    DebugOn_ config = true ->
    client_new m0 sys ObjectSize config = Some cl ->
    client_run cs cl = Some (s, pgs, live) ->
    In p live ->
    enough_fuel config pgs fuel ->
    exists s1,
      Free fuel p s = Done tt s1
      /\ forall cs' s2 pgs2 live2 fuel2,
           client_run cs' (s1, pgs, remove Z.eq_dec p live) = Some (s2, pgs2, live2) ->
           ~ In p live2 ->
           enough_fuel config pgs2 fuel2 ->
           Free fuel2 p s2 = Throw E_MULTIPLE_FREE (counted_free s2).
Proof.
  intros m0 sys ObjectSize config cs [[s0 pgs0] live0] s pgs live p fuel
         Hgood Hdbg Hnew Hrun Hlive Hfuel.
  destruct (client_new_ok m0 sys ObjectSize config s0 pgs0 live0 Hgood Hnew)
    as (fl0 & ok0 & Hc0 & Hos0).
  destruct (client_run_ok cs s0 pgs0 fl0 live0 s pgs live ok0 Hrun) as (fl & ok & Hc & Hos & _).
  assert (Hcfg : clientConfig s = config) by congruence.
  pose proof (pool_free_length s pgs fl live ok) as Hlen. rewrite Hcfg in Hlen.
  unfold enough_fuel in Hfuel.
  destruct (Free_ok fuel s pgs fl live p ok Hlive) as (s1 & E1 & ok1 & Hc1 & Hos1);
    [lia | lia |].
  exists s1. split; [exact E1|].
  intros cs' s2 pgs2 live2 fuel2 Hrun2 Hnot Hfuel2.
  destruct (client_run_ok cs' s1 pgs (p :: fl) _ s2 pgs2 live2 ok1 Hrun2)
    as (fl2 & ok2 & Hc2 & Hos2 & Hkeep).
  assert (Hcfg2 : clientConfig s2 = config) by congruence.
  pose proof (pool_free_length s2 pgs2 fl2 live2 ok2) as Hlen2. rewrite Hcfg2 in Hlen2.
  unfold enough_fuel in Hfuel2.
  apply (Free_on_free_list fuel2 s2 pgs2 fl2 live2 p ok2).
  - destruct (Hkeep p) as [H|H]; [left; left; reflexivity | exact H | contradiction].
  - rewrite Hcfg2. exact Hdbg.
  - lia.
  - lia.
Qed.

Lemma double_free_detected_witness :
  exists s1,
    Free 10 4136 (fst (fst basic_client_two)) = Done tt s1
    /\ forall cs' s2 pgs2 live2 fuel2,
         client_run cs' (s1, snd (fst basic_client_two),
                         remove Z.eq_dec 4136 (snd basic_client_two))
         = Some (s2, pgs2, live2) ->
         ~ In 4136 live2 ->
         enough_fuel basic_config pgs2 fuel2 ->
         Free fuel2 4136 s2 = Throw E_MULTIPLE_FREE (counted_free s2).
Proof.
  apply (double_free_detected zero_memory (sys_page 4096) 16 basic_config
           [Call_Allocate no_sys None; Call_Allocate no_sys None] basic_client).
  - unfold good_layout, is_unsigned, header_fits. vm_compute. repeat split; congruence.
  - reflexivity.
  - unfold basic_client. apply the_client_some. vm_compute. reflexivity.
  - unfold basic_client_two. apply the_client_triple. vm_compute. reflexivity.
  - vm_compute. left. reflexivity.
  - unfold enough_fuel. vm_compute. lia.
Defined.

(** The same on a run: 4161 and 4136 are allocated, 4136 is freed, then
    4161, and the second [Free] of 4136 is refused. *)
Lemma double_free_example :
  returned (Free 10 4136 (fst (fst basic_client_two))) = Some tt
  /\ thrown ((Free 10 4136 ;; Free 10 4161 ;; Free 10 4136) (fst (fst basic_client_two)))
     = Some E_MULTIPLE_FREE.
Proof. split; vm_compute; reflexivity. Qed.
(** * Further properties of the allocator *)

(** ** Which exceptions the operations throw *)

Lemma throws_only_bind {A B} (m : M A) (f : A -> M B) P :
  throws_only m P -> (forall a, throws_only (f a) P) -> throws_only (bind m f) P.
Proof.
  intros Hm Hf s. apply post_bind. specialize (Hm s).
  unfold post in *. destruct (m s) as [a s'| | |]; auto.
  specialize (Hf a s'). unfold post in Hf. destruct (f a s'); auto.
Qed.

Lemma throws_only_no_throw {A} (m : M A) P : no_throw m -> throws_only m P.
Proof.
  intros H s. specialize (H s). unfold post in *. destruct (m s); auto. contradiction.
Qed.

Lemma throws_only_throw {A} e (P : OA_EXCEPTION -> Prop) : P e -> throws_only (@throw A e) P.
Proof. intros H s. exact H. Qed.

Lemma throws_only_weaken {A} (m : M A) (P Q : OA_EXCEPTION -> Prop) :
  throws_only m P -> (forall e, P e -> Q e) -> throws_only m Q.
Proof.
  intros H HPQ s. specialize (H s). unfold post in *. destruct (m s); auto.
Qed.

Ltac throws_only_step :=
  match goal with
  | |- throws_only (bind _ _) _ => apply throws_only_bind; [| intro]
  | |- throws_only (throw _) _ => apply throws_only_throw
  | |- throws_only (ret _) _ => apply throws_only_no_throw, no_throw_ret
  | |- throws_only crash _ => apply throws_only_no_throw, no_throw_crash
  | |- throws_only get _ => apply throws_only_no_throw, no_throw_get
  | |- throws_only (modify _) _ => apply throws_only_no_throw, no_throw_modify
  | |- throws_only (when ?b _) _ => destruct b; cbn [when]
  | |- throws_only (if ?b then _ else _) _ => destruct b
  | |- throws_only (match ?x with _ => _ end) _ => destruct x
  end.

Lemma throws_only_configure_header sys block allocated freed label :
  throws_only (configure_header sys block allocated freed label) (fun e => e = E_NO_MEMORY).
Proof.
  unfold configure_header. apply throws_only_bind; [throws_only_step | intros s].
  destruct (type_ (HBlockInfo_ (clientConfig s))); repeat throws_only_step; reflexivity.
Qed.

Lemma throws_only_take_off_freelist sys label :
  throws_only (take_off_freelist sys label) (fun e => e = E_NO_MEMORY).
Proof.
  unfold take_off_freelist.
  do 4 (apply throws_only_bind; [throws_only_step | intros _]).
  apply throws_only_bind; [throws_only_step | intros s].
  apply throws_only_bind; [apply throws_only_configure_header | intros _].
  repeat throws_only_step.
Qed.

Lemma no_throw_segment_page : no_throw segment_page.
Proof.
  intros s. destruct (segment_page_meta s) as (s' & E & _). unfold post. rewrite E. exact I.
Qed.

Lemma throws_only_allocate_new_page sys :
  throws_only (allocate_new_page sys) (fun e => e = E_NO_PAGES \/ e = E_NO_MEMORY).
Proof.
  unfold allocate_new_page.
  apply throws_only_bind; [| intros _; apply throws_only_no_throw, no_throw_segment_page].
  unfold allocate_empty_page. repeat throws_only_step; auto.
Qed.

Lemma throws_only_Allocate sys label :
  throws_only (Allocate sys label) (fun e => e = E_NO_PAGES \/ e = E_NO_MEMORY).
Proof.
  unfold Allocate. apply throws_only_bind; [throws_only_step | intros s].
  destruct (negb (UseCPPMemManager_ (clientConfig s))).
  - apply throws_only_bind.
    + destruct (FreeList_ s =? nullptr); cbn [when];
        [apply throws_only_allocate_new_page | throws_only_step].
    + intros _. eapply throws_only_weaken; [apply throws_only_take_off_freelist|].
      intros e ->. auto.
  - repeat throws_only_step; auto.
Qed.

Lemma throws_only_check_multiple_free fuel : forall p fl,
  throws_only (check_multiple_free fuel p fl) (fun e => e = E_MULTIPLE_FREE).
Proof.
  induction fuel as [|fuel IH]; intros p fl; cbn [check_multiple_free].
  - intros s. exact I.
  - repeat throws_only_step; auto.
Qed.

Lemma no_throw_check_bad_location_loop fuel : forall p pg b,
  no_throw (check_bad_location_loop fuel p pg b).
Proof.
  induction fuel as [|fuel IH]; intros p pg b; cbn [check_bad_location_loop].
  - intros s. exact I.
  - destruct (pg =? nullptr); [apply no_throw_ret|].
    apply no_throw_bind; [apply no_throw_get | intros s].
    apply no_throw_bind.
    + destruct (check_out_of_page s p pg); [apply no_throw_ret|].
      unfold check_wrong_offset. repeat no_throw_step.
    + intros [|]; [apply IH | apply no_throw_ret].
Qed.

Lemma throws_only_check_freelist fuel p :
  throws_only (check_freelist fuel p)
              (fun e => e = E_CORRUPTED_BLOCK \/ e = E_MULTIPLE_FREE \/ e = E_BAD_BOUNDARY).
Proof.
  unfold check_freelist. apply throws_only_bind; [throws_only_step | intros s].
  apply throws_only_bind; [repeat throws_only_step; auto | intros _].
  apply throws_only_bind.
  - eapply throws_only_weaken; [apply throws_only_check_multiple_free|]. intros e ->. auto.
  - intros _. unfold check_bad_location.
    apply throws_only_bind;
      [apply throws_only_no_throw, no_throw_check_bad_location_loop | intros [|]];
      throws_only_step. auto.
Qed.

(** X1.  [Allocate] throws only [E_NO_PAGES] or [E_NO_MEMORY], in both
    modes and for every state. *)
Theorem Allocate_throws_only sys label s e s' :
  Allocate sys label s = Throw e s' -> e = E_NO_PAGES \/ e = E_NO_MEMORY.
Proof.
  intros E. pose proof (throws_only_Allocate sys label s) as H.
  unfold post in H. rewrite E in H. exact H.
Qed.

(** X2.  [Free] throws only in pool mode with debug mode on, and then only
    [E_CORRUPTED_BLOCK], [E_MULTIPLE_FREE] or [E_BAD_BOUNDARY]. *)
Theorem Free_throws_only fuel p s e s' :
  Free fuel p s = Throw e s' ->
  (e = E_CORRUPTED_BLOCK \/ e = E_MULTIPLE_FREE \/ e = E_BAD_BOUNDARY)
  /\ DebugOn_ (clientConfig s) = true
  /\ UseCPPMemManager_ (clientConfig s) = false.
Proof.
  unfold Free, bind at 1, get.
  destruct (UseCPPMemManager_ (clientConfig s)) eqn:Hm; cbn [negb]; [discriminate|].
  rewrite put_on_freelist_unfold.
  change (clientConfig (counted_free s)) with (clientConfig s).
  intros E.
  pose proof (no_throw_put_on_freelist_tail (counted_free s) p) as Ht.
  destruct (DebugOn_ (clientConfig s)) eqn:Hd; cbn [when] in E; unfold bind in E.
  - pose proof (throws_only_check_freelist fuel p (counted_free s)) as Hc. unfold post in Hc.
    destruct (check_freelist fuel p (counted_free s)) as [[] s1|e1 s1| |]; try discriminate.
    + specialize (Ht s1). unfold post in Ht. rewrite E in Ht. contradiction.
    + inversion E; subst. auto.
  - unfold ret in E. specialize (Ht (counted_free s)). unfold post in Ht.
    rewrite E in Ht. contradiction.
Qed.

Lemma allocate_new_page_Throw sys s e s' :
  allocate_new_page sys s = Throw e s' ->
  s' = s
  /\ ((e = E_NO_PAGES /\ MaxPages_ (clientConfig s) <= PagesInUse_ (stats s))
      \/ (e = E_NO_MEMORY /\ PagesInUse_ (stats s) < MaxPages_ (clientConfig s)
          /\ new_page sys = None)).
Proof.
  unfold allocate_new_page. unfold bind at 1.
  destruct (Z.le_gt_cases (MaxPages_ (clientConfig s)) (PagesInUse_ (stats s))) as [Hge|Hlt].
  - unfold allocate_empty_page, bind, get, throw.
    destruct (Z.geb_spec (PagesInUse_ (stats s)) (MaxPages_ (clientConfig s))); [|lia].
    intros E. inversion E; subst. split; [reflexivity|]. left. split; [reflexivity | assumption].
  - destruct (new_page sys) as [np|] eqn:Hnp.
    + rewrite (allocate_empty_page_eq s np Hlt).
      match goal with |- segment_page ?s1 = _ -> _ =>
        destruct (segment_page_meta s1) as (s2 & E2 & _); rewrite E2 end.
      discriminate.
    + unfold allocate_empty_page, bind, get, throw.
      destruct (Z.geb_spec (PagesInUse_ (stats s)) (MaxPages_ (clientConfig s))); [lia|].
      intros E. inversion E; subst. split; [reflexivity|]. right.
      split; [reflexivity|]. split; [assumption | reflexivity].
Qed.

Lemma Allocate_pool sys label s :
  UseCPPMemManager_ (clientConfig s) = false ->
  Allocate sys label s
  = (when (FreeList_ s =? nullptr) (allocate_new_page sys) ;; take_off_freelist sys label) s.
Proof. intros H. unfold Allocate, bind at 1, get. rewrite H. reflexivity. Qed.

(** X3.  In pool mode [Allocate] throws [E_NO_PAGES] exactly when the free
    list is empty and the page count has reached [MaxPages_]; it has then
    changed no member of the allocator, whatever storage the system
    allocator could provide. *)
Theorem Allocate_no_pages_iff sys label s :
  UseCPPMemManager_ (clientConfig s) = false ->
  (FreeList_ s = nullptr /\ MaxPages_ (clientConfig s) <= PagesInUse_ (stats s)
   -> Allocate sys label s = Throw E_NO_PAGES s)
  /\ (forall s', Allocate sys label s = Throw E_NO_PAGES s' ->
                 FreeList_ s = nullptr
                 /\ MaxPages_ (clientConfig s) <= PagesInUse_ (stats s)
                 /\ s' = s).
Proof.
  intros Hpool. rewrite (Allocate_pool sys label s Hpool). split.
  - intros [Hnull Hmax]. rewrite Hnull. cbn [Z.eqb nullptr when].
    unfold bind, allocate_new_page, allocate_empty_page, bind, get, throw.
    destruct (Z.geb_spec (PagesInUse_ (stats s)) (MaxPages_ (clientConfig s))); [reflexivity|lia].
  - intros s' E. unfold bind in E.
    destruct (Z.eqb_spec (FreeList_ s) nullptr) as [Hnull|Hnn]; cbn [when] in E.
    + destruct (allocate_new_page sys s) as [[] s1|e1 s1| |] eqn:E1; try discriminate.
      * pose proof (throws_only_take_off_freelist sys label s1) as H. unfold post in H.
        rewrite E in H. discriminate.
      * inversion E; subst.
        destruct (allocate_new_page_Throw sys s _ _ E1) as [-> [[_ Hmax]|[Hd _]]];
          [auto | discriminate].
    + unfold ret in E.
      pose proof (throws_only_take_off_freelist sys label s) as H. unfold post in H.
      rewrite E in H. discriminate.
Qed.

(** X4.  In pool mode with headers other than external ones, [Allocate]
    throws [E_NO_MEMORY] exactly when the free list is empty, the page limit
    is not reached and the system allocator has no page to give; it has then
    changed no member of the allocator. *)
Theorem Allocate_no_memory_iff sys label s :
  UseCPPMemManager_ (clientConfig s) = false ->
  type_ (HBlockInfo_ (clientConfig s)) <> hbExternal ->
  (FreeList_ s = nullptr /\ PagesInUse_ (stats s) < MaxPages_ (clientConfig s)
   /\ new_page sys = None
   -> Allocate sys label s = Throw E_NO_MEMORY s)
  /\ (forall s', Allocate sys label s = Throw E_NO_MEMORY s' ->
                 FreeList_ s = nullptr
                 /\ PagesInUse_ (stats s) < MaxPages_ (clientConfig s)
                 /\ new_page sys = None
                 /\ s' = s).
Proof.
  intros Hpool Hty. rewrite (Allocate_pool sys label s Hpool).
  assert (Htake : forall s1 e s2, clientConfig s1 = clientConfig s ->
                                  take_off_freelist sys label s1 <> Throw e s2).
  { intros s1 e s2 Hc E. rewrite take_off_freelist_eq in E.
    unfold header_allocated in E. rewrite Hc in E.
    destruct (type_ (HBlockInfo_ (clientConfig s))); try contradiction;
      destruct (FreeList_ s1 =? nullptr); discriminate. }
  split.
  - intros (Hnull & Hlt & Hnp). rewrite Hnull. cbn [Z.eqb nullptr when].
    unfold bind, allocate_new_page, allocate_empty_page, bind, get, throw.
    destruct (Z.geb_spec (PagesInUse_ (stats s)) (MaxPages_ (clientConfig s))); [lia|].
    rewrite Hnp. reflexivity.
  - intros s' E. unfold bind in E.
    destruct (Z.eqb_spec (FreeList_ s) nullptr) as [Hnull|Hnn]; cbn [when] in E.
    + destruct (allocate_new_page sys s) as [[] s1|e1 s1| |] eqn:E1; try discriminate.
      * exfalso. apply (Htake s1 _ _) in E; auto.
        pose proof (allocate_new_page_meta sys s) as H. unfold post in H.
        rewrite E1 in H. apply H.
      * inversion E; subst.
        destruct (allocate_new_page_Throw sys s _ _ E1) as [-> [[Hd _]|(_ & Hlt & Hnp)]];
          [discriminate | auto].
    + unfold ret in E. exfalso. apply (Htake s _ _) in E; auto.
Qed.

Lemma Allocate_throws_only_witness :
  Allocate no_sys None basic_exhausted
  = Throw E_NO_PAGES (state_of (Allocate no_sys None basic_exhausted))
  /\ (E_NO_PAGES = E_NO_PAGES \/ E_NO_PAGES = E_NO_MEMORY).
Proof.
  assert (H : Allocate no_sys None basic_exhausted
              = Throw E_NO_PAGES (state_of (Allocate no_sys None basic_exhausted))).
  { apply thrown_Throw. vm_compute. reflexivity. }
  split; [exact H|].
  exact (Allocate_throws_only no_sys None basic_exhausted E_NO_PAGES _ H).
Defined.

Lemma Free_throws_only_witness :
  Free 10 4161 basic_freed = Throw E_MULTIPLE_FREE (state_of (Free 10 4161 basic_freed))
  /\ (E_MULTIPLE_FREE = E_CORRUPTED_BLOCK \/ E_MULTIPLE_FREE = E_MULTIPLE_FREE
      \/ E_MULTIPLE_FREE = E_BAD_BOUNDARY)
  /\ DebugOn_ (clientConfig basic_freed) = true
  /\ UseCPPMemManager_ (clientConfig basic_freed) = false.
Proof.
  assert (H : Free 10 4161 basic_freed
              = Throw E_MULTIPLE_FREE (state_of (Free 10 4161 basic_freed))).
  { apply thrown_Throw. vm_compute. reflexivity. }
  split; [exact H|].
  exact (Free_throws_only 10 4161 basic_freed E_MULTIPLE_FREE _ H).
Defined.

Lemma Allocate_no_pages_iff_witness :
  (FreeList_ basic_exhausted = nullptr
   /\ MaxPages_ (clientConfig basic_exhausted) <= PagesInUse_ (stats basic_exhausted)
   -> Allocate no_sys None basic_exhausted = Throw E_NO_PAGES basic_exhausted)
  /\ (forall s', Allocate no_sys None basic_exhausted = Throw E_NO_PAGES s' ->
                 FreeList_ basic_exhausted = nullptr
                 /\ MaxPages_ (clientConfig basic_exhausted)
                    <= PagesInUse_ (stats basic_exhausted)
                 /\ s' = basic_exhausted).
Proof.
  apply (Allocate_no_pages_iff no_sys None basic_exhausted).
  vm_compute. reflexivity.
Defined.

Lemma Allocate_no_memory_iff_witness :
  (FreeList_ basic_full = nullptr
   /\ PagesInUse_ (stats basic_full) < MaxPages_ (clientConfig basic_full)
   /\ new_page no_sys = None
   -> Allocate no_sys None basic_full = Throw E_NO_MEMORY basic_full)
  /\ (forall s', Allocate no_sys None basic_full = Throw E_NO_MEMORY s' ->
                 FreeList_ basic_full = nullptr
                 /\ PagesInUse_ (stats basic_full) < MaxPages_ (clientConfig basic_full)
                 /\ new_page no_sys = None
                 /\ s' = basic_full).
Proof.
  apply (Allocate_no_memory_iff no_sys None basic_full).
  - vm_compute. reflexivity.
  - vm_compute. discriminate.
Defined.

(** ** The free list is a stack *)

Lemma Free_Done_state fuel p s s' :
  UseCPPMemManager_ (clientConfig s) = false ->
  Free fuel p s = Done tt s' ->
  p <> nullptr
  /\ s' = mkOA (clientConfig s) (stats (counted_free s)) (PageList_ s) p (blockIter s)
               (store_ptr (if DebugOn_ (clientConfig s)
                           then memset (header_freed (clientConfig s) p (heap s))
                                       p FREED_PATTERN (osize s)
                           else header_freed (clientConfig s) p (heap s))
                          p (FreeList_ s)).
Proof.
  intros Hpool E. rewrite Free_pool in E by exact Hpool.
  apply put_on_freelist_Done in E. rewrite put_on_freelist_tail_eq in E. cbv zeta in E.
  change (clientConfig (counted_free s)) with (clientConfig s) in E.
  change (heap (counted_free s)) with (heap s) in E.
  change (PageList_ (counted_free s)) with (PageList_ s) in E.
  change (FreeList_ (counted_free s)) with (FreeList_ s) in E.
  change (blockIter (counted_free s)) with (blockIter s) in E.
  change (osize (counted_free s)) with (osize s) in E.
  assert (H : (if p =? nullptr then Crash
               else Done tt (mkOA (clientConfig s) (stats (counted_free s)) (PageList_ s) p
                                  (blockIter s)
                                  (store_ptr (if DebugOn_ (clientConfig s)
                                              then memset (header_freed (clientConfig s) p (heap s))
                                                          p FREED_PATTERN (osize s)
                                              else header_freed (clientConfig s) p (heap s))
                                             p (FreeList_ s))))
              = Done tt s').
  { destruct (type_ (HBlockInfo_ (clientConfig s))); try exact E.
    destruct (load_ptr (heap s) (header_at (clientConfig s) p) =? nullptr);
      [discriminate | exact E]. }
  destruct (Z.eqb_spec p nullptr); [discriminate|]. inversion H. auto.
Qed.

Lemma Allocate_Done_state sys label s p s' :
  UseCPPMemManager_ (clientConfig s) = false ->
  Allocate sys label s = Done p s' ->
  exists s1 m1,
    (if FreeList_ s =? nullptr then allocate_new_page sys s = Done tt s1 else s1 = s)
    /\ clientConfig s1 = clientConfig s /\ osize s1 = osize s
    /\ p = FreeList_ s1 /\ p <> nullptr
    /\ header_allocated (clientConfig s) (Allocations_ (stats (counted_alloc s1)))
                        sys label p (heap s1) = (None, m1)
    /\ s' = mkOA (clientConfig s) (stats (counted_alloc s1)) (PageList_ s1)
                 (load_ptr m1 p) (blockIter s1)
                 (if DebugOn_ (clientConfig s)
                  then memset m1 p ALLOCATED_PATTERN (osize s)
                  else m1).
Proof.
  intros Hpool E. rewrite (Allocate_pool sys label s Hpool) in E. unfold bind in E.
  assert (H : exists s1,
             (if FreeList_ s =? nullptr then allocate_new_page sys s = Done tt s1 else s1 = s)
             /\ clientConfig s1 = clientConfig s /\ osize s1 = osize s
             /\ take_off_freelist sys label s1 = Done p s').
  { destruct (FreeList_ s =? nullptr); cbn [when] in E.
    - destruct (allocate_new_page sys s) as [[] s1| | |] eqn:E1; try discriminate.
      exists s1. split; [reflexivity|].
      pose proof (allocate_new_page_meta sys s) as Hm. unfold post in Hm. rewrite E1 in Hm.
      destruct Hm as [Hc Hs]. split; [exact Hc|]. split; [|exact E].
      unfold osize. rewrite Hs. cbn [inc_PagesInUse ObjectSize_].
      apply (iter_inc_FreeObjects (Z.to_nat (ObjectsPerPage_ (clientConfig s))) (stats s)).
    - exists s. auto. }
  destruct H as (s1 & H1 & Hc & Hos & Et). rewrite take_off_freelist_eq in Et.
  rewrite Hc, Hos in Et.
  destruct (header_allocated (clientConfig s) _ sys label (FreeList_ s1) (heap s1))
    as [[e|] m1] eqn:Eh; [discriminate|].
  destruct (Z.eqb_spec (FreeList_ s1) nullptr) as [|Hnn]; [discriminate|].
  inversion Et. subst p. exists s1, m1. rewrite Eh. auto 10.
Qed.

(** X5.  In pool mode a [Free] that returns has pushed the pointer on the
    free list: the pointer is the new head and its first eight bytes hold
    the old head.  The page list is untouched. *)
Theorem Free_pushes fuel p s s' :
  UseCPPMemManager_ (clientConfig s) = false ->
  0 <= FreeList_ s < 2 ^ 64 ->
  Free fuel p s = Done tt s' ->
  FreeList_ s' = p /\ p <> nullptr
  /\ load_ptr (heap s') p = FreeList_ s
  /\ PageList_ s' = PageList_ s.
Proof.
  intros Hpool Hr E. destruct (Free_Done_state fuel p s s' Hpool E) as [Hnn ->].
  cbn [FreeList_ heap PageList_]. split; [reflexivity|]. split; [exact Hnn|].
  split; [|reflexivity]. apply load_ptr_store_ptr. exact Hr.
Qed.

Lemma header_allocated_link c a sys label b m m1 :
  type_ (HBlockInfo_ c) <> hbExternal ->
  header_fits (HBlockInfo_ c) -> 0 <= PadBytes_ c ->
  header_allocated c a sys label b m = (None, m1) ->
  load_ptr m1 b = load_ptr m b.
Proof.
  intros Hty Hfit Hpad Eh. apply load_ptr_ext. intros y Hy.
  apply (header_allocated_outside c a sys label b m m1 y Hfit Eh).
  - unfold header_at. lia.
  - intros Ht. contradiction.
Qed.

(** X6.  In pool mode with headers other than external ones, an [Allocate]
    on a non-empty free list returns the head of the list and makes the
    link stored in that block the new head. *)
Theorem Allocate_pops sys label s p s' :
  UseCPPMemManager_ (clientConfig s) = false ->
  type_ (HBlockInfo_ (clientConfig s)) <> hbExternal ->
  header_fits (HBlockInfo_ (clientConfig s)) ->
  0 <= PadBytes_ (clientConfig s) ->
  FreeList_ s <> nullptr ->
  Allocate sys label s = Done p s' ->
  p = FreeList_ s
  /\ FreeList_ s' = load_ptr (heap s) p
  /\ PageList_ s' = PageList_ s.
Proof.
  intros Hpool Hty Hfit Hpad Hnn E.
  destruct (Allocate_Done_state sys label s p s' Hpool E)
    as (s1 & m1 & H1 & Hc & Hos & Hp & _ & Eh & ->).
  destruct (Z.eqb_spec (FreeList_ s) nullptr); [contradiction|]. subst s1.
  cbn [FreeList_ PageList_]. split; [exact Hp|]. split; [|reflexivity].
  apply (header_allocated_link _ _ _ _ _ _ _ Hty Hfit Hpad Eh).
Qed.

(** X7.  In pool mode with headers other than external ones, a [Free] that
    returns followed by an [Allocate]: the [Allocate] returns the pointer
    just freed, and the free list, the page list, the free count and the
    in-use count are as before the [Free]. *)
Theorem Free_then_Allocate fuel sys label p s s1 :
  UseCPPMemManager_ (clientConfig s) = false ->
  type_ (HBlockInfo_ (clientConfig s)) <> hbExternal ->
  header_fits (HBlockInfo_ (clientConfig s)) ->
  0 <= PadBytes_ (clientConfig s) ->
  0 <= FreeList_ s < 2 ^ 64 ->
  Free fuel p s = Done tt s1 ->
  exists s2,
    Allocate sys label s1 = Done p s2
    /\ FreeList_ s2 = FreeList_ s
    /\ PageList_ s2 = PageList_ s
    /\ FreeObjects_ (stats s2) = u32 (FreeObjects_ (stats s))
    /\ ObjectsInUse_ (stats s2) = u32 (ObjectsInUse_ (stats s)).
Proof.
  intros Hpool Hty Hfit Hpad Hr E.
  destruct (Free_Done_state fuel p s s1 Hpool E) as [Hnn Hs1].
  assert (Hc1 : clientConfig s1 = clientConfig s) by (rewrite Hs1; reflexivity).
  assert (Hf1 : FreeList_ s1 = p) by (rewrite Hs1; reflexivity).
  assert (Hl1 : load_ptr (heap s1) p = FreeList_ s).
  { rewrite Hs1. cbn [heap]. apply load_ptr_store_ptr. exact Hr. }
  rewrite Allocate_pool by (rewrite Hc1; exact Hpool).
  unfold bind. rewrite Hf1.
  destruct (Z.eqb_spec p nullptr); [contradiction|]. cbn [when]. unfold ret.
  rewrite take_off_freelist_eq. rewrite Hf1, Hc1.
  destruct (header_allocated (clientConfig s) (Allocations_ (stats (counted_alloc s1)))
                             sys label p (heap s1)) as [[e|] m1] eqn:Eh.
  - exfalso. unfold header_allocated in Eh.
    destruct (type_ (HBlockInfo_ (clientConfig s))); try discriminate. contradiction.
  - destruct (Z.eqb_spec p nullptr); [contradiction|].
    eexists. split; [reflexivity|]. cbn [FreeList_ PageList_ stats].
    split; [|split; [|split]].
    + rewrite (header_allocated_link _ _ _ _ _ _ _ Hty Hfit Hpad Eh). exact Hl1.
    + rewrite Hs1. reflexivity.
    + rewrite Hs1. cbn. rewrite u32_idemp_sub_l. f_equal. lia.
    + rewrite Hs1. cbn. rewrite u32_idemp_add_l. f_equal. lia.
Qed.

Lemma Free_pushes_witness :
  FreeList_ basic_freed = 4161 /\ 4161 <> nullptr
  /\ load_ptr (heap basic_freed) 4161 = FreeList_ basic_one
  /\ PageList_ basic_freed = PageList_ basic_one.
Proof.
  apply (Free_pushes 10 4161 basic_one basic_freed).
  - vm_compute. reflexivity.
  - eval_goal.
  - unfold basic_freed. eval_goal.
Defined.

Lemma Allocate_pops_witness :
  4161 = FreeList_ basic_fresh
  /\ FreeList_ basic_one = load_ptr (heap basic_fresh) 4161
  /\ PageList_ basic_one = PageList_ basic_fresh.
Proof.
  apply (Allocate_pops no_sys None basic_fresh 4161 basic_one).
  - vm_compute. reflexivity.
  - vm_compute. discriminate.
  - unfold header_fits. vm_compute. discriminate.
  - vm_compute. discriminate.
  - vm_compute. discriminate.
  - unfold basic_one. eval_goal.
Defined.

Lemma Free_then_Allocate_witness :
  exists s2,
    Allocate no_sys None basic_freed = Done 4161 s2
    /\ FreeList_ s2 = FreeList_ basic_one
    /\ PageList_ s2 = PageList_ basic_one
    /\ FreeObjects_ (stats s2) = u32 (FreeObjects_ (stats basic_one))
    /\ ObjectsInUse_ (stats s2) = u32 (ObjectsInUse_ (stats basic_one)).
Proof.
  apply (Free_then_Allocate 10 no_sys None 4161 basic_one basic_freed).
  - vm_compute. reflexivity.
  - vm_compute. discriminate.
  - unfold header_fits. vm_compute. discriminate.
  - vm_compute. discriminate.
  - eval_goal.
  - unfold basic_freed. eval_goal.
Defined.

(** ** The debug patterns *)

(** X8.  In pool mode with debug mode on, every byte of the object that
    [Allocate] returns holds the allocated pattern. *)
Theorem Allocate_fills_object sys label s p s' a :
  UseCPPMemManager_ (clientConfig s) = false ->
  DebugOn_ (clientConfig s) = true ->
  Allocate sys label s = Done p s' ->
  p <= a < p + ObjectSize_ (stats s) ->
  heap s' a = ALLOCATED_PATTERN.
Proof.
  intros Hpool Hd E Ha.
  destruct (Allocate_Done_state sys label s p s' Hpool E)
    as (s1 & m1 & _ & _ & _ & _ & _ & _ & ->).
  cbn [heap]. rewrite Hd. rewrite memset_in by exact Ha. reflexivity.
Qed.

(** X9.  In pool mode with debug mode on, after a [Free] that returns,
    every byte of the object past its first eight (which hold the free-list
    link) holds the freed pattern. *)
Theorem Free_fills_object fuel p s s' a :
  UseCPPMemManager_ (clientConfig s) = false ->
  DebugOn_ (clientConfig s) = true ->
  Free fuel p s = Done tt s' ->
  p + sizeof_ptr <= a < p + ObjectSize_ (stats s) ->
  heap s' a = FREED_PATTERN.
Proof.
  intros Hpool Hd E Ha. destruct (Free_Done_state fuel p s s' Hpool E) as [_ ->].
  cbn [heap]. rewrite Hd. unfold store_ptr, sizeof_ptr in *.
  rewrite store_out by lia. rewrite memset_in by (unfold osize; lia). reflexivity.
Qed.

Lemma Allocate_fills_object_witness :
  4161 <= 4170 < 4161 + ObjectSize_ (stats basic_fresh)
  /\ heap basic_one 4170 = ALLOCATED_PATTERN.
Proof.
  assert (H : 4161 <= 4170 < 4161 + ObjectSize_ (stats basic_fresh)) by eval_goal.
  split; [exact H|].
  apply (Allocate_fills_object no_sys None basic_fresh 4161 basic_one 4170).
  - vm_compute. reflexivity.
  - vm_compute. reflexivity.
  - unfold basic_one. eval_goal.
  - exact H.
Defined.

Lemma Free_fills_object_witness :
  4161 + sizeof_ptr <= 4170 < 4161 + ObjectSize_ (stats basic_one)
  /\ heap basic_freed 4170 = FREED_PATTERN.
Proof.
  assert (H : 4161 + sizeof_ptr <= 4170 < 4161 + ObjectSize_ (stats basic_one)) by eval_goal.
  split; [exact H|].
  apply (Free_fills_object 10 4161 basic_one basic_freed 4170).
  - vm_compute. reflexivity.
  - vm_compute. reflexivity.
  - unfold basic_freed. eval_goal.
  - exact H.
Defined.

(** ** What the headers hold *)

Lemma Allocate_Done_Allocations sys label s p s' :
  UseCPPMemManager_ (clientConfig s) = false ->
  Allocate sys label s = Done p s' ->
  Allocations_ (stats s') = u32 (Allocations_ (stats s) + 1).
Proof.
  intros Hpool E.
  destruct (Allocate_Done_state sys label s p s' Hpool E)
    as (s1 & m1 & H1 & _ & _ & _ & _ & _ & ->).
  cbn [stats counted_alloc set_stats inc_Allocations inc_MostObjects inc_ObjectsInUse
       dec_FreeObjects Allocations_].
  destruct (FreeList_ s =? nullptr); [|subst s1; reflexivity].
  pose proof (allocate_new_page_meta sys s) as Hm. unfold post in Hm. rewrite H1 in Hm.
  destruct Hm as [_ ->]. cbn [inc_PagesInUse Allocations_].
  destruct (iter_inc_FreeObjects (Z.to_nat (ObjectsPerPage_ (clientConfig s))) (stats s))
    as (_ & _ & _ & _ & _ & -> & _). reflexivity.
Qed.

(** X10.  With basic headers, after an [Allocate] that returns [p] the
    header of [p] holds the number of this allocation (the allocation count,
    already incremented) in its first four bytes, the flag 1 in the fifth,
    and zero in whatever bytes follow. *)
Theorem Allocate_basic_header sys label s p s' :
  UseCPPMemManager_ (clientConfig s) = false ->
  type_ (HBlockInfo_ (clientConfig s)) = hbBasic ->
  sizeof_int + sizeof_char <= size_ (HBlockInfo_ (clientConfig s)) ->
  0 <= PadBytes_ (clientConfig s) ->
  Allocate sys label s = Done p s' ->
  load (heap s') (header_at (clientConfig s) p) sizeof_int = Allocations_ (stats s')
  /\ Allocations_ (stats s') = u32 (Allocations_ (stats s) + 1)
  /\ heap s' (header_at (clientConfig s) p + sizeof_int) = 1
  /\ (forall i, sizeof_int + sizeof_char <= i < size_ (HBlockInfo_ (clientConfig s)) ->
                heap s' (header_at (clientConfig s) p + i) = 0).
Proof.
  intros Hpool Hty Hfit Hpad E.
  pose proof (Allocate_Done_Allocations sys label s p s' Hpool E) as Hnum.
  destruct (Allocate_Done_state sys label s p s' Hpool E)
    as (s1 & m1 & _ & _ & _ & _ & _ & Eh & Hs').
  unfold header_allocated in Eh. rewrite Hty in Eh. inversion Eh as [Hm1]. clear Eh.
  set (h := header_at (clientConfig s) p) in *.
  set (hs := size_ (HBlockInfo_ (clientConfig s))) in *.
  set (n := Allocations_ (stats (counted_alloc s1))) in *.
  assert (Hn : Allocations_ (stats s') = n) by (rewrite Hs'; reflexivity).
  assert (Hh : h + hs <= p) by (unfold h, header_at; fold hs; lia).
  assert (Hheap : forall y, h <= y < h + hs -> heap s' y = m1 y).
  { intros y Hy. rewrite Hs'. cbn [heap]. destruct (DebugOn_ (clientConfig s)); auto.
    apply memset_out. lia. }
  unfold sizeof_int, sizeof_char in *.
  split; [|split; [exact Hnum|split]].
  - rewrite (load_ext m1 (heap s')) by (intros x Hx; apply Hheap; lia).
    rewrite <- Hm1.
    rewrite (load_ext (store (memset (heap s1) h 0 hs) h 4 n))
      by (intros x Hx; apply store_out; lia).
    rewrite load_store_same by lia. rewrite Hn.
    rewrite <- Hn, Hnum. apply Z.mod_small. apply u32_range.
  - rewrite Hheap by lia. rewrite <- Hm1. rewrite store_in by lia.
    replace (h + 4 - (h + 4)) with 0 by lia. reflexivity.
  - intros i Hi. rewrite Hheap by lia. rewrite <- Hm1.
    rewrite !store_out by lia. rewrite memset_in by lia. reflexivity.
Qed.

Lemma Allocate_basic_header_witness :
  load (heap basic_one) (header_at (clientConfig basic_fresh) 4161) sizeof_int
  = Allocations_ (stats basic_one)
  /\ Allocations_ (stats basic_one) = u32 (Allocations_ (stats basic_fresh) + 1)
  /\ heap basic_one (header_at (clientConfig basic_fresh) 4161 + sizeof_int) = 1
  /\ (forall i, sizeof_int + sizeof_char <= i < size_ (HBlockInfo_ (clientConfig basic_fresh)) ->
                heap basic_one (header_at (clientConfig basic_fresh) 4161 + i) = 0).
Proof.
  apply (Allocate_basic_header no_sys None basic_fresh 4161 basic_one).
  - vm_compute. reflexivity.
  - vm_compute. reflexivity.
  - vm_compute. discriminate.
  - vm_compute. discriminate.
  - unfold basic_one. eval_goal.
Defined.

(** X11.  With extended headers, an [Allocate] that takes [p] from the free
    list zeroes the user bytes of the header of [p], adds one to its 16-bit
    use counter, stores the number of this allocation after it and sets the
    flag byte that follows to 1. *)
Theorem Allocate_extended_header sys label s p s' :
  UseCPPMemManager_ (clientConfig s) = false ->
  type_ (HBlockInfo_ (clientConfig s)) = hbExtended ->
  0 <= additional_ (HBlockInfo_ (clientConfig s)) ->
  additional_ (HBlockInfo_ (clientConfig s)) + sizeof_short + sizeof_int + sizeof_char
  <= size_ (HBlockInfo_ (clientConfig s)) ->
  0 <= PadBytes_ (clientConfig s) ->
  FreeList_ s <> nullptr ->
  Allocate sys label s = Done p s' ->
  (forall i, 0 <= i < additional_ (HBlockInfo_ (clientConfig s)) ->
             heap s' (header_at (clientConfig s) p + i) = 0)
  /\ load (heap s') (header_at (clientConfig s) p + additional_ (HBlockInfo_ (clientConfig s)))
          sizeof_short
     = u16 (load (heap s) (header_at (clientConfig s) p
                           + additional_ (HBlockInfo_ (clientConfig s))) sizeof_short + 1)
  /\ load (heap s') (header_at (clientConfig s) p + additional_ (HBlockInfo_ (clientConfig s))
                     + sizeof_short) sizeof_int
     = Allocations_ (stats s')
  /\ heap s' (header_at (clientConfig s) p + additional_ (HBlockInfo_ (clientConfig s))
              + sizeof_short + sizeof_int) = 1.
Proof.
  intros Hpool Hty Hadd Hfit Hpad Hnn E.
  pose proof (Allocate_Done_Allocations sys label s p s' Hpool E) as Hnum.
  destruct (Allocate_Done_state sys label s p s' Hpool E)
    as (s1 & m1 & H1 & _ & _ & _ & _ & Eh & Hs').
  destruct (Z.eqb_spec (FreeList_ s) nullptr) as [|_]; [contradiction|]. subst s1.
  unfold header_allocated in Eh. rewrite Hty in Eh. inversion Eh as [Hm1]. clear Eh.
  set (h := header_at (clientConfig s) p) in *.
  set (hs := size_ (HBlockInfo_ (clientConfig s))) in *.
  set (ad := additional_ (HBlockInfo_ (clientConfig s))) in *.
  set (n := Allocations_ (stats (counted_alloc s))) in *.
  assert (Hn : Allocations_ (stats s') = n) by (rewrite Hs'; reflexivity).
  assert (Hh : h + hs <= p) by (unfold h, header_at; fold hs; lia).
  assert (Hheap : forall y, h <= y < h + hs -> heap s' y = m1 y).
  { intros y Hy. rewrite Hs'. cbn [heap]. destruct (DebugOn_ (clientConfig s)); auto.
    apply memset_out. lia. }
  unfold sizeof_int, sizeof_char, sizeof_short in *.
  split; [|split; [|split]].
  - intros i Hi. rewrite Hheap by lia. rewrite <- Hm1.
    rewrite !store_out by lia. rewrite memset_in by lia. reflexivity.
  - rewrite (load_ext m1 (heap s')) by (intros x Hx; apply Hheap; lia).
    rewrite <- Hm1.
    match goal with |- load (store (store ?m2 _ _ _) _ _ _) _ _ = _ =>
      rewrite (load_ext m2) by (intros x Hx; rewrite !store_out by lia; reflexivity) end.
    rewrite load_store_same by lia.
    rewrite (load_ext (heap s) (memset (heap s) h 0 ad))
      by (intros x Hx; apply memset_out; lia).
    unfold u16. apply Z.mod_mod. lia.
  - rewrite (load_ext m1 (heap s')) by (intros x Hx; apply Hheap; lia).
    rewrite <- Hm1.
    match goal with |- load (store ?m3 _ _ _) _ _ = _ =>
      rewrite (load_ext m3) by (intros x Hx; apply store_out; lia) end.
    rewrite load_store_same by lia. rewrite Hn.
    rewrite <- Hn, Hnum. apply Z.mod_small. apply u32_range.
  - rewrite Hheap by lia. rewrite <- Hm1. rewrite store_in by lia.
    match goal with |- (1 / 2 ^ (8 * ?d)) mod 256 = 1 => replace d with 0 by lia end.
    reflexivity.
Qed.

(** X12.  With extended headers, a [Free] that returns leaves the use
    counter and the user bytes of the header as they were and zeroes the
    allocation number and the flag. *)
Theorem Free_extended_header fuel p s s' :
  UseCPPMemManager_ (clientConfig s) = false ->
  type_ (HBlockInfo_ (clientConfig s)) = hbExtended ->
  0 <= additional_ (HBlockInfo_ (clientConfig s)) ->
  additional_ (HBlockInfo_ (clientConfig s)) + sizeof_short + sizeof_int + sizeof_char
  <= size_ (HBlockInfo_ (clientConfig s)) ->
  0 <= PadBytes_ (clientConfig s) ->
  Free fuel p s = Done tt s' ->
  (forall i, 0 <= i < additional_ (HBlockInfo_ (clientConfig s)) + sizeof_short ->
             heap s' (header_at (clientConfig s) p + i)
             = heap s (header_at (clientConfig s) p + i))
  /\ load (heap s') (header_at (clientConfig s) p + additional_ (HBlockInfo_ (clientConfig s)))
          sizeof_short
     = load (heap s) (header_at (clientConfig s) p
                      + additional_ (HBlockInfo_ (clientConfig s))) sizeof_short
  /\ (forall i, 0 <= i < sizeof_int + sizeof_char ->
                heap s' (header_at (clientConfig s) p
                         + additional_ (HBlockInfo_ (clientConfig s)) + sizeof_short + i) = 0).
Proof.
  intros Hpool Hty Hadd Hfit Hpad E.
  destruct (Free_Done_state fuel p s s' Hpool E) as [_ Hs'].
  set (h := header_at (clientConfig s) p) in *.
  set (hs := size_ (HBlockInfo_ (clientConfig s))) in *.
  set (ad := additional_ (HBlockInfo_ (clientConfig s))) in *.
  assert (Hh : h + hs <= p) by (unfold h, header_at; fold hs; lia).
  unfold sizeof_int, sizeof_char, sizeof_short in *.
  assert (Hheap : forall y, h <= y < h + hs ->
                            heap s' y = memset (heap s) (h + ad + 2) 0 5 y).
  { intros y Hy. rewrite Hs'. cbn [heap]. unfold store_ptr, sizeof_ptr.
    rewrite store_out by lia. unfold header_freed. rewrite Hty. fold h ad.
    unfold sizeof_int, sizeof_char, sizeof_short.
    destruct (DebugOn_ (clientConfig s)); auto. apply memset_out. lia. }
  assert (Hkeep : forall i, 0 <= i < ad + 2 -> heap s' (h + i) = heap s (h + i)).
  { intros i Hi. rewrite Hheap by lia. apply memset_out. lia. }
  split; [exact Hkeep|]. split.
  - apply load_ext. intros x Hx. replace x with (h + (x - h)) by lia. apply Hkeep. lia.
  - intros i Hi. rewrite Hheap by lia. rewrite memset_in by lia. reflexivity.
Qed.

Lemma Allocate_extended_header_witness :
  (forall i, 0 <= i < additional_ (HBlockInfo_ (clientConfig extended_freed)) ->
             heap extended_again (header_at (clientConfig extended_freed) 4173 + i) = 0)
  /\ load (heap extended_again)
          (header_at (clientConfig extended_freed) 4173
           + additional_ (HBlockInfo_ (clientConfig extended_freed))) sizeof_short
     = u16 (load (heap extended_freed)
                 (header_at (clientConfig extended_freed) 4173
                  + additional_ (HBlockInfo_ (clientConfig extended_freed))) sizeof_short + 1)
  /\ load (heap extended_again)
          (header_at (clientConfig extended_freed) 4173
           + additional_ (HBlockInfo_ (clientConfig extended_freed)) + sizeof_short) sizeof_int
     = Allocations_ (stats extended_again)
  /\ heap extended_again
          (header_at (clientConfig extended_freed) 4173
           + additional_ (HBlockInfo_ (clientConfig extended_freed))
           + sizeof_short + sizeof_int) = 1.
Proof.
  apply (Allocate_extended_header no_sys None extended_freed 4173 extended_again).
  - vm_compute. reflexivity.
  - vm_compute. reflexivity.
  - vm_compute. discriminate.
  - vm_compute. discriminate.
  - vm_compute. discriminate.
  - vm_compute. discriminate.
  - unfold extended_again. eval_goal.
Defined.

Lemma Free_extended_header_witness :
  (forall i, 0 <= i < additional_ (HBlockInfo_ (clientConfig extended_one)) + sizeof_short ->
             heap extended_freed (header_at (clientConfig extended_one) 4173 + i)
             = heap extended_one (header_at (clientConfig extended_one) 4173 + i))
  /\ load (heap extended_freed)
          (header_at (clientConfig extended_one) 4173
           + additional_ (HBlockInfo_ (clientConfig extended_one))) sizeof_short
     = load (heap extended_one)
            (header_at (clientConfig extended_one) 4173
             + additional_ (HBlockInfo_ (clientConfig extended_one))) sizeof_short
  /\ (forall i, 0 <= i < sizeof_int + sizeof_char ->
                heap extended_freed
                     (header_at (clientConfig extended_one) 4173
                      + additional_ (HBlockInfo_ (clientConfig extended_one))
                      + sizeof_short + i) = 0).
Proof.
  apply (Free_extended_header 10 4173 extended_one extended_freed).
  - vm_compute. reflexivity.
  - vm_compute. reflexivity.
  - vm_compute. discriminate.
  - vm_compute. discriminate.
  - vm_compute. discriminate.
  - unfold extended_freed. eval_goal.
Defined.

(** The use counter of the block at 4173 after its second allocation. *)
Lemma extended_use_counter_example :
  returned (Allocate no_sys None extended_fresh) = Some 4173
  /\ returned (Allocate no_sys None extended_freed) = Some 4173
  /\ load (heap extended_one) (4173 - 2 - 9 + 2) sizeof_short = 1
  /\ load (heap extended_freed) (4173 - 2 - 9 + 2) sizeof_short = 1
  /\ load (heap extended_again) (4173 - 2 - 9 + 2) sizeof_short = 2.
Proof. eval_goal. Qed.

(** ** The statistics over arbitrary calls *)

Lemma allocate_new_page_Done_limit sys s s' :
  allocate_new_page sys s = Done tt s' ->
  PagesInUse_ (stats s) < MaxPages_ (clientConfig s).
Proof.
  unfold allocate_new_page, bind.
  destruct (allocate_empty_page (new_page sys) s) as [[] s1| | |] eqn:E; try discriminate.
  intros _. apply (allocate_empty_page_Done _ _ _ E).
Qed.

Lemma do_call_meta c s s' :
  do_call c s = Some s' ->
  clientConfig s' = clientConfig s /\ stats_step (clientConfig s) (stats s) (stats s').
Proof.
  unfold stats_step. destruct c as [sys label | fuel p]; cbn [do_call].
  - destruct (UseCPPMemManager_ (clientConfig s)) eqn:Hm.
    + unfold Allocate, bind, get, modify. rewrite Hm. cbn [negb].
      destruct (new_object sys); cbn; intros E; inversion E; auto.
    + rewrite (Allocate_pool sys label s Hm). unfold bind.
      destruct (FreeList_ s =? nullptr); cbn [when].
      * pose proof (allocate_new_page_meta sys s) as Hn. unfold post in Hn.
        destruct (allocate_new_page sys s) as [[] s1|e s1| |] eqn:E1;
          cbn [state_after]; try discriminate.
        -- destruct Hn as [Hc1 Hs1].
           pose proof (allocate_new_page_Done_limit sys s s1 E1) as Hlim.
           pose proof (take_off_freelist_meta sys label s1) as Ht. unfold post in Ht.
           destruct (take_off_freelist sys label s1) as [q s2|e s2| |];
             cbn [state_after]; intros E; inversion E; subst;
               destruct Ht as [Hc2 Hs2]; (split; [congruence|]);
                 right; right; left; (split; [exact Hlim|]);
                   rewrite Hs2, Hs1; reflexivity.
        -- intros E. inversion E; subst. destruct Hn as [Hc Hs]. split; [exact Hc|].
           left. exact Hs.
      * unfold ret.
        pose proof (take_off_freelist_meta sys label s) as Ht. unfold post in Ht.
        destruct (take_off_freelist sys label s) as [q s2|e s2| |];
          cbn [state_after]; intros E; inversion E; subst;
            destruct Ht as [Hc2 Hs2]; (split; [exact Hc2|]); right; left; exact Hs2.
  - destruct (UseCPPMemManager_ (clientConfig s)) eqn:Hm.
    + unfold Free, bind, get, modify. rewrite Hm. cbn. intros E. inversion E. auto.
    + rewrite (Free_pool fuel p s Hm).
      pose proof (put_on_freelist_meta fuel p s) as Ht. unfold post in Ht.
      destruct (put_on_freelist fuel p s) as [q s2|e s2| |];
        cbn [state_after]; intros E; inversion E; subst;
          destruct Ht as [Hc2 Hs2]; (split; [exact Hc2|]); right; right; right; exact Hs2.
Qed.

Lemma run_stats_invariant (I : OAConfig -> OAStats -> Prop) :
  (forall c st st', I c st -> stats_step c st st' -> I c st') ->
  forall cs s s',
    I (clientConfig s) (stats s) -> run cs s = Some s' ->
    clientConfig s' = clientConfig s /\ I (clientConfig s) (stats s').
Proof.
  intros Hstep. induction cs as [|c cs IH]; intros s s' HI Hrun; cbn [run] in Hrun.
  - inversion Hrun; subst. auto.
  - destruct (do_call c s) as [s1|] eqn:E; [|discriminate].
    destruct (do_call_meta c s s1 E) as [Hc1 Hs1].
    destruct (IH s1 s') as [Hc Hs]; [rewrite Hc1; eauto | exact Hrun |].
    split; [congruence|]. rewrite <- Hc1. exact Hs.
Qed.

Lemma ctor_Done_meta m0 sys ObjectSize config s0 :
  ObjectAllocator_ctor m0 sys ObjectSize config = Done tt s0 ->
  clientConfig s0 = config
  /\ ObjectSize_ (stats s0) = ObjectSize
  /\ PageSize_ (stats s0) = calculate_page_size s0
  /\ ObjectsInUse_ (stats s0) = 0 /\ MostObjects_ (stats s0) = 0
  /\ Allocations_ (stats s0) = 0 /\ Deallocations_ (stats s0) = 0
  /\ (if UseCPPMemManager_ config
      then PagesInUse_ (stats s0) = 0 /\ FreeObjects_ (stats s0) = 0
           /\ PageList_ s0 = nullptr /\ FreeList_ s0 = nullptr
      else 0 < MaxPages_ config /\ PagesInUse_ (stats s0) = 1
           /\ FreeObjects_ (stats s0) = u32 (Z.of_nat (Z.to_nat (ObjectsPerPage_ config)))).
Proof.
  unfold ObjectAllocator_ctor.
  match goal with |- (if _ then _ ?s else _) = _ -> _ => set (s1 := s) end.
  assert (Hps : forall s, clientConfig s = config -> ObjectSize_ (stats s) = ObjectSize ->
                          calculate_page_size s = PageSize_ (stats s1)).
  { intros s Hc Ho. unfold calculate_page_size, calculate_block_size. rewrite Hc, Ho.
    reflexivity. }
  destruct (UseCPPMemManager_ config) eqn:Hm; cbn [negb]; intros E.
  - inversion E. subst s0. rewrite (Hps s1) by reflexivity. repeat split; reflexivity.
  - pose proof (allocate_new_page_meta sys s1) as Hn. unfold post in Hn. rewrite E in Hn.
    destruct Hn as [Hc Hs].
    destruct (iter_inc_FreeObjects (Z.to_nat (ObjectsPerPage_ (clientConfig s1))) (stats s1))
      as (IO & IP & IU & IPg & IM & IA & ID & _).
    pose proof (iter_inc_FreeObjects_from_zero
                  (Z.to_nat (ObjectsPerPage_ (clientConfig s1))) (stats s1) eq_refl) as IF.
    pose proof (allocate_new_page_Done_limit sys s1 s0 E) as Hlim.
    assert (Ho : ObjectSize_ (stats s0) = ObjectSize)
      by (rewrite Hs; cbn [inc_PagesInUse ObjectSize_]; rewrite IO; reflexivity).
    rewrite (Hps s0 Hc Ho). rewrite Hs.
    cbn [inc_PagesInUse ObjectSize_ PageSize_ FreeObjects_ ObjectsInUse_ PagesInUse_
         MostObjects_ Allocations_ Deallocations_].
    rewrite IO, IP, IU, IPg, IM, IA, ID, IF.
    split; [exact Hc|]. repeat split; try reflexivity. exact Hlim.
Qed.

Lemma iter_inc_FreeObjects_fields n st :
  ObjectSize_ (Nat.iter n inc_FreeObjects st) = ObjectSize_ st
  /\ PageSize_ (Nat.iter n inc_FreeObjects st) = PageSize_ st
  /\ ObjectsInUse_ (Nat.iter n inc_FreeObjects st) = ObjectsInUse_ st
  /\ PagesInUse_ (Nat.iter n inc_FreeObjects st) = PagesInUse_ st
  /\ MostObjects_ (Nat.iter n inc_FreeObjects st) = MostObjects_ st
  /\ Allocations_ (Nat.iter n inc_FreeObjects st) = Allocations_ st
  /\ Deallocations_ (Nat.iter n inc_FreeObjects st) = Deallocations_ st.
Proof.
  destruct (iter_inc_FreeObjects n st) as (H1 & H2 & H3 & H4 & H5 & H6 & H7 & _).
  auto 10.
Qed.

Ltac stats_fields :=
  unfold allocated_stats, freed_stats, paged_stats;
  cbn [inc_FreeObjects dec_FreeObjects inc_ObjectsInUse dec_ObjectsInUse inc_PagesInUse
       inc_MostObjects inc_Allocations inc_Deallocations
       ObjectSize_ PageSize_ FreeObjects_ ObjectsInUse_ PagesInUse_ MostObjects_
       Allocations_ Deallocations_].

(** X13.  After construction and any sequence of [Allocate] and [Free]
    calls, whatever their arguments and whether they return or throw, the
    page count is at most [MaxPages_]. *)
Theorem pages_within_limit m0 sys ObjectSize config s0 cs s :
  is_unsigned (MaxPages_ config) ->
  ObjectAllocator_ctor m0 sys ObjectSize config = Done tt s0 ->
  run cs s0 = Some s ->
  0 <= PagesInUse_ (stats s) <= MaxPages_ config.
Proof.
  intros Hmax Hctor Hrun.
  destruct (ctor_Done_meta m0 sys ObjectSize config s0 Hctor)
    as (Hc & _ & _ & _ & _ & _ & _ & Hmode).
  destruct (run_stats_invariant
              (fun c st => is_unsigned (MaxPages_ c) /\ 0 <= PagesInUse_ st <= MaxPages_ c))
    with (cs := cs) (s := s0) (s' := s) as [_ [_ H]].
  - intros c st st' [Hm Hp] Hstep. split; [exact Hm|]. unfold stats_step in Hstep.
    destruct (UseCPPMemManager_ c).
    + destruct Hstep as [-> | ->]; stats_fields; exact Hp.
    + destruct Hstep as [-> | [-> | [[Hlt ->] | ->]]]; stats_fields; try exact Hp.
      destruct (iter_inc_FreeObjects_fields (Z.to_nat (ObjectsPerPage_ c)) st)
        as (_ & _ & _ & -> & _).
      unfold is_unsigned in Hm. rewrite u32_small by lia. lia.
  - rewrite Hc. split; [exact Hmax|]. unfold is_unsigned in Hmax.
    destruct (UseCPPMemManager_ config).
    + destruct Hmode as (-> & _). lia.
    + destruct Hmode as (H0 & -> & _). lia.
  - exact Hrun.
  - rewrite Hc in H. exact H.
Qed.

Lemma u32_idemp_sub_r x y : u32 (x - u32 y) = u32 (x - y).
Proof. unfold u32. apply Zminus_mod_idemp_r. Qed.

(** X14.  In pool mode, after construction and any sequence of [Allocate]
    and [Free] calls, whatever their arguments and whether they return or
    throw, the in-use count is the allocation count minus the deallocation
    count, as a 32-bit counter. *)
Theorem in_use_is_allocations_minus_deallocations m0 sys ObjectSize config s0 cs s :
  UseCPPMemManager_ config = false ->
  ObjectAllocator_ctor m0 sys ObjectSize config = Done tt s0 ->
  run cs s0 = Some s ->
  ObjectsInUse_ (stats s) = u32 (Allocations_ (stats s) - Deallocations_ (stats s)).
Proof.
  intros Hpool Hctor Hrun.
  destruct (ctor_Done_meta m0 sys ObjectSize config s0 Hctor)
    as (Hc & _ & _ & HU & _ & HA & HD & _).
  destruct (run_stats_invariant
              (fun c st => UseCPPMemManager_ c = false
                           /\ ObjectsInUse_ st = u32 (Allocations_ st - Deallocations_ st)))
    with (cs := cs) (s := s0) (s' := s) as [_ [_ H]].
  - intros c st st' [Hm Hp] Hstep. split; [exact Hm|]. unfold stats_step in Hstep.
    rewrite Hm in Hstep.
    destruct Hstep as [-> | [-> | [[Hlt ->] | ->]]]; stats_fields; try exact Hp.
    + rewrite Hp, u32_idemp_add_l, u32_idemp_sub_l. f_equal. lia.
    + destruct (iter_inc_FreeObjects_fields (Z.to_nat (ObjectsPerPage_ c)) st)
        as (_ & _ & -> & _ & _ & -> & ->).
      rewrite Hp, u32_idemp_add_l, u32_idemp_sub_l. f_equal. lia.
    + rewrite Hp, u32_idemp_sub_l, u32_idemp_sub_r. f_equal. lia.
  - rewrite Hc. split; [exact Hpool|]. rewrite HU, HA, HD. reflexivity.
  - exact Hrun.
  - exact H.
Qed.

(** X15.  After construction and any sequence of [Allocate] and [Free]
    calls, in both modes, the counter [MostObjects_] equals the allocation
    count: it is incremented with it and never compared with the in-use
    count. *)
Theorem most_objects_is_allocations m0 sys ObjectSize config s0 cs s :
  ObjectAllocator_ctor m0 sys ObjectSize config = Done tt s0 ->
  run cs s0 = Some s ->
  MostObjects_ (stats s) = Allocations_ (stats s).
Proof.
  intros Hctor Hrun.
  destruct (ctor_Done_meta m0 sys ObjectSize config s0 Hctor)
    as (Hc & _ & _ & _ & HM & HA & _).
  destruct (run_stats_invariant (fun c st => MostObjects_ st = Allocations_ st))
    with (cs := cs) (s := s0) (s' := s) as [_ H].
  - intros c st st' Hp Hstep. unfold stats_step in Hstep.
    destruct (UseCPPMemManager_ c).
    + destruct Hstep as [-> | ->]; stats_fields; congruence.
    + destruct Hstep as [-> | [-> | [[Hlt ->] | ->]]]; stats_fields; try congruence.
      destruct (iter_inc_FreeObjects_fields (Z.to_nat (ObjectsPerPage_ c)) st)
        as (_ & _ & _ & _ & -> & -> & _). congruence.
  - congruence.
  - exact Hrun.
  - exact H.
Qed.

(** X16.  [Allocate] and [Free] never change what the constructor was
    given or computed: after any sequence of calls the configuration and the
    object size are those of the construction and [PageSize_] is the page
    size computed from them. *)
Theorem construction_parameters_kept m0 sys ObjectSize config s0 cs s :
  ObjectAllocator_ctor m0 sys ObjectSize config = Done tt s0 ->
  run cs s0 = Some s ->
  clientConfig s = config
  /\ ObjectSize_ (stats s) = ObjectSize
  /\ PageSize_ (stats s) = calculate_page_size s.
Proof.
  intros Hctor Hrun.
  destruct (ctor_Done_meta m0 sys ObjectSize config s0 Hctor) as (Hc & HO & HP & _).
  destruct (run_stats_invariant
              (fun c st => ObjectSize_ st = ObjectSize_ (stats s0)
                           /\ PageSize_ st = PageSize_ (stats s0)))
    with (cs := cs) (s := s0) (s' := s) as [Hcs [H1 H2]].
  - intros c st st' Hp Hstep. unfold stats_step in Hstep.
    destruct (UseCPPMemManager_ c).
    + destruct Hstep as [-> | ->]; stats_fields; exact Hp.
    + destruct Hstep as [-> | [-> | [[Hlt ->] | ->]]]; stats_fields; try exact Hp.
      destruct (iter_inc_FreeObjects_fields (Z.to_nat (ObjectsPerPage_ c)) st)
        as (-> & -> & _). exact Hp.
  - auto.
  - exact Hrun.
  - split; [congruence|]. split; [congruence|]. rewrite H2, HP.
    unfold calculate_page_size, calculate_block_size. rewrite Hcs, H1. reflexivity.
Qed.

Lemma basic_fresh_ctor :
  ObjectAllocator_ctor zero_memory (sys_page 4096) 16 basic_config = Done tt basic_fresh.
Proof. unfold basic_fresh. apply returned_Done. vm_compute. reflexivity. Qed.

Lemma basic_after_calls_run : run example_calls basic_fresh = Some basic_after_calls.
Proof. unfold basic_after_calls. apply is_some_the_state. vm_compute. reflexivity. Qed.

Lemma pages_within_limit_witness :
  0 <= PagesInUse_ (stats basic_after_calls) <= MaxPages_ basic_config.
Proof.
  apply (pages_within_limit zero_memory (sys_page 4096) 16 basic_config basic_fresh
                            example_calls).
  - unfold is_unsigned. vm_compute. split; [discriminate | reflexivity].
  - exact basic_fresh_ctor.
  - exact basic_after_calls_run.
Defined.

Lemma in_use_is_allocations_minus_deallocations_witness :
  ObjectsInUse_ (stats basic_after_calls)
  = u32 (Allocations_ (stats basic_after_calls) - Deallocations_ (stats basic_after_calls)).
Proof.
  apply (in_use_is_allocations_minus_deallocations
           zero_memory (sys_page 4096) 16 basic_config basic_fresh example_calls).
  - reflexivity.
  - exact basic_fresh_ctor.
  - exact basic_after_calls_run.
Defined.

Lemma most_objects_is_allocations_witness :
  MostObjects_ (stats basic_after_calls) = Allocations_ (stats basic_after_calls).
Proof.
  apply (most_objects_is_allocations
           zero_memory (sys_page 4096) 16 basic_config basic_fresh example_calls).
  - exact basic_fresh_ctor.
  - exact basic_after_calls_run.
Defined.

Lemma construction_parameters_kept_witness :
  clientConfig basic_after_calls = basic_config
  /\ ObjectSize_ (stats basic_after_calls) = 16
  /\ PageSize_ (stats basic_after_calls) = calculate_page_size basic_after_calls.
Proof.
  apply (construction_parameters_kept
           zero_memory (sys_page 4096) 16 basic_config basic_fresh example_calls).
  - exact basic_fresh_ctor.
  - exact basic_after_calls_run.
Defined.

(** The counters of the example, after five allocations and two calls of
    [Free], the second of which was refused. *)
Lemma basic_after_calls_statistics :
  ObjectsInUse_ (stats basic_after_calls) = 3
  /\ Allocations_ (stats basic_after_calls) = 5
  /\ Deallocations_ (stats basic_after_calls) = 2
  /\ MostObjects_ (stats basic_after_calls) = 5
  /\ PagesInUse_ (stats basic_after_calls) = 2
  /\ FreeObjects_ (stats basic_after_calls) = 3.
Proof. eval_goal. Qed.

(** ** Fallback mode *)

Lemma fallback_call_ok s held cc s' held' :
  UseCPPMemManager_ (clientConfig s) = true ->
  NoDup held ->
  fallback_call (s, held) cc = Some (s', held') ->
  clientConfig s' = clientConfig s
  /\ PageList_ s' = PageList_ s /\ FreeList_ s' = FreeList_ s
  /\ heap s' = heap s
  /\ FreeObjects_ (stats s') = FreeObjects_ (stats s)
  /\ ObjectsInUse_ (stats s') = ObjectsInUse_ (stats s)
  /\ PagesInUse_ (stats s') = PagesInUse_ (stats s)
  /\ NoDup held'.
Proof.
  intros Hm Hd. destruct cc as [sys label | fuel p]; cbn [fallback_call].
  - unfold Allocate, bind, get, modify. rewrite Hm. cbn [negb].
    destruct (new_object sys) as [q|]; cbn [ret throw].
    + destruct (in_dec Z.eq_dec q held) as [|Hq]; [discriminate|].
      intros E. inversion E; subst. cbn. repeat split; try reflexivity.
      constructor; assumption.
    + intros E. inversion E; subst. cbn. repeat split; try reflexivity. assumption.
  - destruct (in_dec Z.eq_dec p held) as [Hp|]; [|discriminate].
    unfold Free, bind, get, modify. rewrite Hm. cbn [negb].
    intros E. inversion E; subst. cbn. repeat split; try reflexivity.
    apply NoDup_remove_Z. assumption.
Qed.

Lemma fallback_run_ok cs : forall s held s' held',
  UseCPPMemManager_ (clientConfig s) = true ->
  NoDup held ->
  fallback_run cs (s, held) = Some (s', held') ->
  clientConfig s' = clientConfig s
  /\ PageList_ s' = PageList_ s /\ FreeList_ s' = FreeList_ s
  /\ heap s' = heap s
  /\ FreeObjects_ (stats s') = FreeObjects_ (stats s)
  /\ ObjectsInUse_ (stats s') = ObjectsInUse_ (stats s)
  /\ PagesInUse_ (stats s') = PagesInUse_ (stats s)
  /\ NoDup held'.
Proof.
  induction cs as [|cc cs IH]; intros s held s' held' Hm Hd; cbn [fallback_run].
  - intros E. inversion E; subst. auto 10.
  - destruct (fallback_call (s, held) cc) as [[s1 held1]|] eqn:E1; [|discriminate].
    intros E.
    destruct (fallback_call_ok _ _ _ _ _ Hm Hd E1) as (Hc & Hp & Hf & Hh & HF & HU & HP & Hd1).
    destruct (IH s1 held1 s' held') as (Hc' & Hp' & Hf' & Hh' & HF' & HU' & HP' & Hd');
      [congruence | assumption | assumption |].
    repeat split; congruence || assumption.
Qed.

(** X17.  In fallback mode ([UseCPPMemManager_] set) the constructor
    returns without asking for a page.  Take any sequence of calls in which
    every [Allocate] returns a pointer the client does not hold already, or
    throws, and every [Free] is given a pointer the client holds (one
    that [new[]] returned and [delete[]] has not been given since).  After
    it the page list and the free list are empty, the memory is as the
    constructor found it, the free, in-use and page counts are 0, and the
    pointers held are distinct.  The next [Allocate] returns the pointer
    the system allocator provides, or throws [E_NO_MEMORY] when it
    provides none, and the [Free] of a held pointer returns and adds one to
    [Deallocations_]. *)
Theorem fallback_mode_keeps_no_pool m0 sys ObjectSize config :
  UseCPPMemManager_ config = true ->
  exists s0,
    ObjectAllocator_ctor m0 sys ObjectSize config = Done tt s0
    /\ forall cs s held,
         fallback_run cs (s0, []) = Some (s, held) ->
         PageList_ s = nullptr /\ FreeList_ s = nullptr
         /\ heap s = m0
         /\ FreeObjects_ (stats s) = 0
         /\ ObjectsInUse_ (stats s) = 0
         /\ PagesInUse_ (stats s) = 0
         /\ NoDup held
         /\ (forall sy label,
                match new_object sy with
                | Some p => exists s', Allocate sy label s = Done p s'
                | None => exists s', Allocate sy label s = Throw E_NO_MEMORY s'
                end)
         /\ (forall fuel p, In p held ->
                exists s', Free fuel p s = Done tt s'
                           /\ Deallocations_ (stats s') = u32 (Deallocations_ (stats s) + 1)
                           /\ fallback_call (s, held) (Call_Free fuel p)
                              = Some (s', remove Z.eq_dec p held)).
Proof.
  intros Hm. unfold ObjectAllocator_ctor. rewrite Hm. cbn [negb].
  eexists. split; [reflexivity|].
  match goal with |- forall cs s held, fallback_run cs (?s1, _) = _ -> _ => set (s0 := s1) end.
  intros cs s held E.
  destruct (fallback_run_ok cs s0 [] s held Hm (NoDup_nil _) E)
    as (Hc & Hp & Hf & Hh & HF & HU & HP & Hd).
  assert (Hms : UseCPPMemManager_ (clientConfig s) = true) by (rewrite Hc; exact Hm).
  repeat match goal with |- _ /\ _ => split end; try assumption.
  - intros sy label. unfold Allocate, bind, get, modify. rewrite Hms. cbn [negb].
    destruct (new_object sy); eexists; reflexivity.
  - intros fuel p Hin. cbn [fallback_call].
    destruct (in_dec Z.eq_dec p held) as [_|Hn]; [|contradiction].
    unfold Free, bind, get, modify. rewrite Hms. cbn [negb].
    eexists. split; [reflexivity|]. split; reflexivity.
Qed.

Lemma fallback_mode_keeps_no_pool_witness :
  UseCPPMemManager_ fallback_config = true
  /\ exists s0,
       ObjectAllocator_ctor zero_memory no_sys 16 fallback_config = Done tt s0
       /\ forall cs s held,
            fallback_run cs (s0, []) = Some (s, held) ->
            PageList_ s = nullptr /\ FreeList_ s = nullptr
            /\ heap s = zero_memory
            /\ FreeObjects_ (stats s) = 0
            /\ ObjectsInUse_ (stats s) = 0
            /\ PagesInUse_ (stats s) = 0
            /\ NoDup held
            /\ (forall sy label,
                   match new_object sy with
                   | Some p => exists s', Allocate sy label s = Done p s'
                   | None => exists s', Allocate sy label s = Throw E_NO_MEMORY s'
                   end)
            /\ (forall fuel p, In p held ->
                   exists s', Free fuel p s = Done tt s'
                              /\ Deallocations_ (stats s') = u32 (Deallocations_ (stats s) + 1)
                              /\ fallback_call (s, held) (Call_Free fuel p)
                                 = Some (s', remove Z.eq_dec p held)).
Proof.
  split; [reflexivity|].
  apply (fallback_mode_keeps_no_pool zero_memory no_sys 16 fallback_config).
  reflexivity.
Defined.

(** The sequence [fallback_calls] is such a sequence: the client holds the
    second pointer after it, and the counters show two allocations and one
    deallocation.  A second [Free] of 20480 is not part of any such
    sequence. *)
Lemma fallback_calls_run :
  option_map snd (fallback_run fallback_calls (fallback_fresh, [])) = Some [24576]
  /\ option_map (fun cl => Allocations_ (stats (fst cl)))
                (fallback_run fallback_calls (fallback_fresh, [])) = Some 2
  /\ option_map (fun cl => Deallocations_ (stats (fst cl)))
                (fallback_run fallback_calls (fallback_fresh, [])) = Some 1
  /\ option_map snd (fallback_run (fallback_calls ++ [Call_Free 0 20480]) (fallback_fresh, []))
     = None.
Proof. repeat split; vm_compute; reflexivity. Qed.

(** ** The pool under valid use *)

Lemma client_pool_ok m0 sys ObjectSize config cs cl s pgs live :
  good_layout config ObjectSize ->
  client_new m0 sys ObjectSize config = Some cl ->
  client_run cs cl = Some (s, pgs, live) ->
  exists fl, pool_ok s pgs fl live /\ clientConfig s = config /\ osize s = ObjectSize.
Proof.
  destruct cl as [[s0 pgs0] live0]. intros Hgood Hnew Hrun.
  destruct (client_new_ok m0 sys ObjectSize config s0 pgs0 live0 Hgood Hnew)
    as (fl0 & ok0 & Hc0 & Hos0).
  destruct (client_run_ok cs s0 pgs0 fl0 live0 s pgs live ok0 Hrun) as (fl & ok & Hc & Hos & _).
  exists fl. split; [exact ok|]. split; congruence.
Qed.

(** X18.  Under valid use the pointers the client holds are pairwise
    distinct, each is the object address of a block of one of the pages and
    lies with its padding inside that page, and two of them are at least one
    block stride apart: objects handed out never overlap. *)
Theorem held_objects_apart m0 sys ObjectSize config cs cl s pgs live :
  good_layout config ObjectSize ->
  client_new m0 sys ObjectSize config = Some cl ->
  client_run cs cl = Some (s, pgs, live) ->
  NoDup live
  /\ (forall p, In p live ->
        exists pg k, In pg pgs /\ 0 <= k < ObjectsPerPage_ config
                     /\ p = block_at config ObjectSize pg k
                     /\ pg + sizeof_ptr + size_ (HBlockInfo_ config) + PadBytes_ config <= p
                     /\ p + ObjectSize + PadBytes_ config <= pg + PageSize_ (stats s))
  /\ (forall p q, In p live -> In q live -> p <> q ->
        p + stride config ObjectSize <= q \/ q + stride config ObjectSize <= p).
Proof.
  intros Hgood Hnew Hrun.
  destruct (client_pool_ok _ _ _ _ _ _ _ _ _ Hgood Hnew Hrun) as (fl & ok & Hc & Hos).
  pose proof (ok_live_blocks _ _ _ _ ok) as Hlb. rewrite Hc, Hos in Hlb.
  pose proof (ok_pages_apart _ _ _ _ ok) as Hap. rewrite Hc, Hos in Hap.
  pose proof (ok_page_size _ _ _ _ ok) as Hps. rewrite Hc, Hos in Hps.
  split; [apply ok|]. split.
  - intros p Hp. destruct (Hlb p Hp) as (pg & k & Hpg & Hk & Hpk).
    exists pg, k. split; [exact Hpg|]. split; [exact Hk|]. split; [exact Hpk|].
    destruct (block_at_bounds config ObjectSize Hgood pg k Hk) as [B1 B2].
    rewrite Hps, Hpk. unfold sizeof_ptr. split; [exact B1 | exact B2].
  - intros p q Hp Hq Hne.
    apply (blocks_apart config ObjectSize Hgood pgs p q Hap (Hlb p Hp) (Hlb q Hq) Hne).
Qed.

Lemma basic_good : good_layout basic_config 16.
Proof. unfold good_layout, is_unsigned, header_fits. vm_compute. repeat split; congruence. Qed.

Lemma basic_client_new :
  client_new zero_memory (sys_page 4096) 16 basic_config = Some basic_client.
Proof. unfold basic_client. apply the_client_some. vm_compute. reflexivity. Qed.

Lemma basic_client_two_run :
  client_run [Call_Allocate no_sys None; Call_Allocate no_sys None] basic_client
  = Some (fst (fst basic_client_two), snd (fst basic_client_two), snd basic_client_two).
Proof. unfold basic_client_two. apply the_client_triple. vm_compute. reflexivity. Qed.

Lemma held_objects_apart_witness :
  NoDup (snd basic_client_two)
  /\ (forall p, In p (snd basic_client_two) ->
        exists pg k, In pg (snd (fst basic_client_two)) /\ 0 <= k < ObjectsPerPage_ basic_config
                     /\ p = block_at basic_config 16 pg k
                     /\ pg + sizeof_ptr + size_ (HBlockInfo_ basic_config)
                        + PadBytes_ basic_config <= p
                     /\ p + 16 + PadBytes_ basic_config
                        <= pg + PageSize_ (stats (fst (fst basic_client_two))))
  /\ (forall p q, In p (snd basic_client_two) -> In q (snd basic_client_two) -> p <> q ->
        p + stride basic_config 16 <= q \/ q + stride basic_config 16 <= p).
Proof.
  exact (held_objects_apart zero_memory (sys_page 4096) 16 basic_config
           [Call_Allocate no_sys None; Call_Allocate no_sys None] basic_client
           _ _ _ basic_good basic_client_new basic_client_two_run).
Defined.

(** The two objects of the example. *)
Lemma basic_client_two_live : snd basic_client_two = [4136; 4161].
Proof. vm_compute. reflexivity. Qed.




(** X20.  For a pool with a well-formed layout ([good_layout]: objects of
    at least eight bytes, the size of the free-list link, a header large
    enough for the fields of its type, and sizes that do not overflow) and
    under valid use, with debug mode on or off, [Free] of a pointer the
    client holds returns: it is not refused by the validation, and it
    neither crashes nor runs out of fuel once the fuel exceeds the number of
    pages and blocks. *)
Theorem valid_Free_returns m0 sys ObjectSize config cs cl s pgs live p fuel :
  good_layout config ObjectSize ->
  client_new m0 sys ObjectSize config = Some cl ->
  client_run cs cl = Some (s, pgs, live) ->
  In p live ->
  enough_fuel config pgs fuel ->
  exists s', Free fuel p s = Done tt s'.
Proof.
  intros Hgood Hnew Hrun Hlive Hfuel.
  destruct (client_pool_ok _ _ _ _ _ _ _ _ _ Hgood Hnew Hrun) as (fl & ok & Hc & Hos).
  pose proof (pool_free_length s pgs fl live ok) as Hlen. rewrite Hc in Hlen.
  unfold enough_fuel in Hfuel.
  destruct (Free_ok fuel s pgs fl live p ok Hlive) as (s' & E & _); [lia | lia |].
  exists s'. exact E.
Qed.




Lemma basic_client_six_run :
  client_run six_allocations basic_client
  = Some (fst (fst basic_client_six), snd (fst basic_client_six), snd basic_client_six).
Proof. unfold basic_client_six. apply the_client_triple. vm_compute. reflexivity. Qed.


(** The client of the example holds six objects, the capacity of two pages
    of three. *)
Lemma basic_client_six_live :
  snd basic_client_six = [8207; 8232; 8257; 4111; 4136; 4161]
  /\ snd (fst basic_client_six) = [8192; 4096].
Proof. split; vm_compute; reflexivity. Qed.

Lemma valid_Free_returns_witness :
  exists s', Free 10 4136 (fst (fst basic_client_two)) = Done tt s'.
Proof.
  apply (valid_Free_returns zero_memory (sys_page 4096) 16 basic_config
           [Call_Allocate no_sys None; Call_Allocate no_sys None] basic_client
           _ (snd (fst basic_client_two)) (snd basic_client_two)).
  - exact basic_good.
  - exact basic_client_new.
  - exact basic_client_two_run.
  - vm_compute. left. reflexivity.
  - unfold enough_fuel. vm_compute. lia.
Defined.


(** ** New pages *)

Lemma client_new_ok_blocks m0 sys ObjectSize config s pgs live :
  good_layout config ObjectSize ->
  client_new m0 sys ObjectSize config = Some (s, pgs, live) ->
  exists np,
    new_page sys = Some np /\ pgs = [np] /\ live = []
    /\ pool_ok s [np] (page_blocks config ObjectSize np (Z.to_nat (ObjectsPerPage_ config))) []
    /\ clientConfig s = config /\ osize s = ObjectSize.
Proof.
  intros Hgood E. unfold client_new in E.
  destruct (new_page sys) as [np|] eqn:Hnp; [|discriminate].
  destruct (region_free config ObjectSize [] np (span config ObjectSize)) eqn:Hfree;
    [|discriminate].
  destruct (ObjectAllocator_ctor m0 sys ObjectSize config) as [[] s0| | |] eqn:Ec;
    try discriminate.
  inversion E; subst. clear E.
  unfold ObjectAllocator_ctor in Ec.
  assert (Hpool : UseCPPMemManager_ config = false) by apply Hgood.
  rewrite Hpool in Ec. cbn [negb] in Ec.
  match type of Ec with allocate_new_page sys ?s1 = _ => set (s_init := s1) in * end.
  assert (ok0 : pool_ok s_init [] [] []).
  { constructor.
    - exact Hgood.
    - unfold s_init. cbn [stats set_stats PageSize_].
      match goal with |- calculate_page_size ?s1 = _ =>
        rewrite (good_layout_page_size s1 Hgood) end.
      reflexivity.
    - reflexivity.
    - intros pg [].
    - intros pg1 pg2 [].
    - split; [reflexivity|]. cbn. destruct Hgood as (_ & _ & Hm & _).
      unfold is_unsigned in Hm. lia.
    - reflexivity.
    - constructor.
    - intros b [].
    - constructor.
    - intros b [].
    - intros b [].
    - reflexivity.
    - intros _ b (pg & k & [] & _).
    - intros _ b []. }
  destruct (allocate_new_page_ok s_init [] [] np sys ok0 Hnp Hfree s Ec) as (ok & Hc & Hos & _).
  exists np. split; [reflexivity|]. split; [reflexivity|]. split; [reflexivity|].
  split; [exact ok|]. split; [exact Hc | exact Hos].
Qed.

(** X22.  After the construction of a pool with a well-formed layout
    ([good_layout]: objects of at least eight bytes, the size of the
    free-list link, a header large enough for the fields of its type, and
    sizes that do not overflow) the page list holds the one page, whose
    link is null; the free list threads the blocks of the page from the
    last one down to the first; the page count is 1 and the free count is
    [ObjectsPerPage_]; and in debug mode both pad zones of every block hold
    the pad pattern. *)
Theorem fresh_pool_free_list m0 sys ObjectSize config s pgs live :
  good_layout config ObjectSize ->
  client_new m0 sys ObjectSize config = Some (s, pgs, live) ->
  exists np,
    new_page sys = Some np /\ pgs = [np] /\ live = []
    /\ PageList_ s = np /\ load_ptr (heap s) np = nullptr
    /\ chain (heap s) (FreeList_ s)
             (page_blocks config ObjectSize np (Z.to_nat (ObjectsPerPage_ config)))
    /\ PagesInUse_ (stats s) = 1
    /\ FreeObjects_ (stats s) = ObjectsPerPage_ config
    /\ (DebugOn_ config = true ->
        forall k, 0 <= k < ObjectsPerPage_ config ->
                  pads_ok config ObjectSize (heap s) (block_at config ObjectSize np k)).
Proof.
  intros Hgood Hnew.
  destruct (client_new_ok_blocks m0 sys ObjectSize config s pgs live Hgood Hnew)
    as (np & Hnp & Hpgs & Hlive & ok & Hc & Hos).
  exists np. split; [exact Hnp|]. split; [exact Hpgs|]. split; [exact Hlive|].
  pose proof (ok_pages _ _ _ _ ok) as Hch. cbn [chain] in Hch. destruct Hch as (Hpl & _ & Hnext).
  split; [exact Hpl|]. split; [exact Hnext|]. split; [apply ok|].
  destruct (ok_pages_count _ _ _ _ ok) as [Hcount _]. split; [exact Hcount|].
  split.
  - rewrite (ok_free_count _ _ _ _ ok), page_blocks_length.
    destruct (layout_facts config ObjectSize Hgood) as (_ & _ & _ & Ho & _).
    rewrite Z2Nat.id by lia. apply u32_small. lia.
  - intros Hd k Hk. pose proof (ok_pads _ _ _ _ ok) as Hp. rewrite Hc, Hos in Hp.
    apply (Hp Hd). exists np, k. split; [left; reflexivity|]. split; [exact Hk | reflexivity].
Qed.

Lemma chain_same_head m m' : forall l h h', chain m h l -> chain m' h' l -> h = h'.
Proof.
  intros [|a l] h h'; cbn [chain].
  - intros -> ->. reflexivity.
  - intros (-> & _) (-> & _). reflexivity.
Qed.

(** X23.  Under valid use, an [Allocate] that finds the free list empty and
    returns has obtained one page from the system allocator and linked it in
    front of the page list; it returns the last block of that page and
    leaves the other blocks of the page on the free list, from the last but
    one down to the first. *)
Theorem Allocate_from_new_page
        m0 sys ObjectSize config cs cl s pgs live sys' label s' pgs' live' :
  good_layout config ObjectSize ->
  client_new m0 sys ObjectSize config = Some cl ->
  client_run cs cl = Some (s, pgs, live) ->
  FreeList_ s = nullptr ->
  client_call (s, pgs, live) (Call_Allocate sys' label) = Some (s', pgs', live') ->
  exists np,
    new_page sys' = Some np /\ pgs' = np :: pgs
    /\ PageList_ s' = np /\ load_ptr (heap s') np = PageList_ s
    /\ live' = block_at config ObjectSize np (ObjectsPerPage_ config - 1) :: live
    /\ chain (heap s') (FreeList_ s')
             (page_blocks config ObjectSize np (Z.to_nat (ObjectsPerPage_ config - 1)))
    /\ PagesInUse_ (stats s') = PagesInUse_ (stats s) + 1.
Proof.
  intros Hgood Hnew Hrun Hnull Hcall.
  destruct (client_pool_ok _ _ _ _ _ _ _ _ _ Hgood Hnew Hrun) as (fl & ok & Hc & Hos).
  assert (Hpool : UseCPPMemManager_ (clientConfig s) = false) by (rewrite Hc; apply Hgood).
  cbn [client_call] in Hcall.
  destruct (sys_fresh s pgs sys' label) eqn:Hfresh; [|discriminate].
  destruct (Allocate sys' label s) as [p s1| | |] eqn:Ea; try discriminate.
  inversion Hcall; subst s1 pgs' live'. clear Hcall.
  rewrite (Allocate_pool sys' label s Hpool) in Ea. unfold bind in Ea.
  unfold sys_fresh, pages_after in *. rewrite Hnull in *. cbn [Z.eqb nullptr when] in *.
  apply andb_true_iff in Hfresh. destruct Hfresh as [Hpage Hrec].
  destruct (allocate_new_page sys' s) as [[] s1| | |] eqn:E1; try discriminate.
  destruct (allocate_new_page_Done _ _ _ E1) as [np Hnp]. rewrite Hnp in *.
  assert (Hfl : fl = []) by (eapply chain_nil_inv; [apply ok | exact Hnull]). subst fl.
  destruct (allocate_new_page_ok s pgs live np sys' ok Hnp Hpage s1 E1)
    as (ok1 & Hc1 & Hos1 & _).
  rewrite Hc, Hos in ok1.
  destruct (take_off_ok s1 (np :: pgs) _ live sys' label p s' ok1) as (fl' & Hfl' & ok' & Hc' & Hos');
    [|exact Ea|].
  { rewrite Hc1, Hos1. intros Ht. rewrite Ht in Hrec.
    apply andb_true_iff in Hrec. destruct Hrec as [Hinfo Hlabel]. split.
    - intros info Hi. rewrite Hi in Hinfo. exact Hinfo.
    - intros str l Hstr Hl. rewrite Hstr, Hl in Hlabel. exact Hlabel. }
  destruct (layout_facts config ObjectSize Hgood) as (_ & _ & _ & Ho & _).
  destruct (Z.to_nat (ObjectsPerPage_ config)) as [|n] eqn:En; [discriminate|].
  cbn [page_blocks] in Hfl'. inversion Hfl' as [[Hp Hfl'']].
  assert (Hn : Z.of_nat n = ObjectsPerPage_ config - 1) by lia.
  exists np. split; [reflexivity|]. split; [reflexivity|].
  pose proof (ok_pages _ _ _ _ ok') as Hch. cbn [chain] in Hch.
  destruct Hch as (Hpl & _ & Hnext).
  split; [exact Hpl|]. split.
  - apply (chain_same_head (heap s') (heap s) pgs); [exact Hnext | apply ok].
  - split; [rewrite Hn; reflexivity|]. split.
    + replace (Z.to_nat (ObjectsPerPage_ config - 1)) with n by lia.
      rewrite Hfl''. apply ok'.
    + destruct (ok_pages_count _ _ _ _ ok') as [-> _].
      destruct (ok_pages_count _ _ _ _ ok) as [-> _].
      change (List.length (np :: pgs)) with (S (List.length pgs)). lia.
Qed.

Lemma fresh_pool_free_list_witness :
  exists np,
    new_page (sys_page 4096) = Some np /\ snd (fst basic_client) = [np]
    /\ snd basic_client = []
    /\ PageList_ (fst (fst basic_client)) = np
    /\ load_ptr (heap (fst (fst basic_client))) np = nullptr
    /\ chain (heap (fst (fst basic_client))) (FreeList_ (fst (fst basic_client)))
             (page_blocks basic_config 16 np (Z.to_nat (ObjectsPerPage_ basic_config)))
    /\ PagesInUse_ (stats (fst (fst basic_client))) = 1
    /\ FreeObjects_ (stats (fst (fst basic_client))) = ObjectsPerPage_ basic_config
    /\ (DebugOn_ basic_config = true ->
        forall k, 0 <= k < ObjectsPerPage_ basic_config ->
                  pads_ok basic_config 16 (heap (fst (fst basic_client)))
                          (block_at basic_config 16 np k)).
Proof.
  apply (fresh_pool_free_list zero_memory (sys_page 4096) 16 basic_config).
  - exact basic_good.
  - unfold basic_client. apply the_client_triple. vm_compute. reflexivity.
Defined.

(** The blocks of the page at 4096, in free-list order. *)
Lemma basic_page_blocks : page_blocks basic_config 16 4096 3 = [4161; 4136; 4111].
Proof. vm_compute. reflexivity. Qed.

Lemma basic_client_full_run :
  client_run [Call_Allocate no_sys None; Call_Allocate no_sys None; Call_Allocate no_sys None]
             basic_client
  = Some (fst (fst basic_client_full), snd (fst basic_client_full), snd basic_client_full).
Proof. unfold basic_client_full. apply the_client_triple. vm_compute. reflexivity. Qed.

Lemma Allocate_from_new_page_witness :
  exists np,
    new_page (sys_page 8192) = Some np
    /\ snd (fst basic_client_next) = np :: snd (fst basic_client_full)
    /\ PageList_ (fst (fst basic_client_next)) = np
    /\ load_ptr (heap (fst (fst basic_client_next))) np = PageList_ (fst (fst basic_client_full))
    /\ snd basic_client_next
       = block_at basic_config 16 np (ObjectsPerPage_ basic_config - 1) :: snd basic_client_full
    /\ chain (heap (fst (fst basic_client_next))) (FreeList_ (fst (fst basic_client_next)))
             (page_blocks basic_config 16 np (Z.to_nat (ObjectsPerPage_ basic_config - 1)))
    /\ PagesInUse_ (stats (fst (fst basic_client_next)))
       = PagesInUse_ (stats (fst (fst basic_client_full))) + 1.
Proof.
  apply (Allocate_from_new_page zero_memory (sys_page 4096) 16 basic_config
           [Call_Allocate no_sys None; Call_Allocate no_sys None; Call_Allocate no_sys None]
           basic_client _ _ _ (sys_page 8192) None).
  - exact basic_good.
  - exact basic_client_new.
  - exact basic_client_full_run.
  - vm_compute. reflexivity.
  - unfold basic_client_next. apply the_client_triple. vm_compute. reflexivity.
Defined.

(** ** Calls leave the other objects alone *)

Lemma block_range_in_page c OS pgs b y :
  good_layout c OS -> is_block c OS pgs b ->
  b - PadBytes_ c - size_ (HBlockInfo_ c) <= y < b + OS + PadBytes_ c ->
  exists pg, In pg pgs /\ pg + 8 <= y < pg + span c OS.
Proof.
  intros Hgood Hb Hy.
  destruct (block_in_page c OS Hgood pgs b Hb) as (pg & Hpg & B1 & B2).
  exists pg. split; [exact Hpg|]. lia.
Qed.

(** X24.  Under valid use, a call of [Allocate] or [Free] changes no byte
    of the block (header, padding and object) of any other object the client
    holds: the client's data survive the calls made for other objects. *)
Theorem held_objects_untouched
        m0 sys ObjectSize config cs cl s pgs live cc s' pgs' live' q y :
  good_layout config ObjectSize ->
  client_new m0 sys ObjectSize config = Some cl ->
  client_run cs cl = Some (s, pgs, live) ->
  client_call (s, pgs, live) cc = Some (s', pgs', live') ->
  In q live -> In q live' ->
  q - PadBytes_ config - size_ (HBlockInfo_ config) <= y < q + ObjectSize + PadBytes_ config ->
  heap s' y = heap s y.
Proof.
  intros Hgood Hnew Hrun Hcall Hq Hq' Hy.
  destruct (client_pool_ok _ _ _ _ _ _ _ _ _ Hgood Hnew Hrun) as (fl & ok & Hc & Hos).
  destruct (client_call_ok s pgs fl live cc s' pgs' live' ok Hcall) as (fl' & ok' & Hc' & Hos' & _).
  assert (Hpool : UseCPPMemManager_ (clientConfig s) = false) by (rewrite Hc; apply Hgood).
  assert (Hfit : header_fits (HBlockInfo_ config)) by apply Hgood.
  destruct (layout_facts config ObjectSize Hgood) as (Hh & Hpd & Hos8 & Ho & Hst & Hsp & _).
  assert (Hqb : is_block config ObjectSize pgs q).
  { pose proof (ok_live_blocks _ _ _ _ ok q Hq) as H. rewrite Hc, Hos in H. exact H. }
  assert (Hqb' : is_block config ObjectSize pgs' q).
  { pose proof (ok_live_blocks _ _ _ _ ok' q Hq') as H. rewrite Hc', Hc, Hos', Hos in H. exact H. }
  pose proof (ok_pages_apart _ _ _ _ ok') as Hap'. rewrite Hc', Hc, Hos', Hos in Hap'.
  destruct (block_range_in_page config ObjectSize pgs q y Hgood Hqb Hy) as (pgq & Hpgq & Hyq).
  destruct cc as [sys' label | fuel p]; cbn [client_call] in Hcall.
  - destruct (sys_fresh s pgs sys' label) eqn:Hfresh; [|discriminate].
    destruct (Allocate sys' label s) as [p s1| | |] eqn:Ea; try discriminate.
    inversion Hcall; subst s1 pgs' live'. clear Hcall.
    assert (Hne : q <> p).
    { pose proof (ok_live_nodup _ _ _ _ ok') as Hnd. inversion Hnd; subst.
      intros ->. contradiction. }
    assert (Hpb : is_block config ObjectSize (pages_after s pgs sys') p).
    { pose proof (ok_live_blocks _ _ _ _ ok' p (or_introl eq_refl)) as H.
      rewrite Hc', Hc, Hos', Hos in H. exact H. }
    pose proof (blocks_apart config ObjectSize Hgood _ q p Hap' Hqb' Hpb Hne) as Hfar.
    destruct (Allocate_Done_state sys' label s p s' Hpool Ea)
      as (s1 & m1 & H1 & Hc1 & Hos1 & _ & _ & Eh & Hs').
    rewrite Hc in Eh.
    unfold sys_fresh in Hfresh. apply andb_true_iff in Hfresh. destruct Hfresh as [Hpage Hrec].
    rewrite Hc, Hos in Hpage, Hrec.
    assert (Hpgq' : In pgq (pages_after s pgs sys')).
    { unfold pages_after. destruct (FreeList_ s =? nullptr); [|exact Hpgq].
      destruct (new_page sys'); [right|]; exact Hpgq. }
    assert (Hm1 : m1 y = heap s1 y).
    { apply (header_allocated_outside config _ sys' label p (heap s1) m1 y Hfit Eh).
      - unfold header_at. lia.
      - intros Ht. rewrite Ht in Hrec. apply andb_true_iff in Hrec.
        destruct Hrec as [Hinfo Hlabel]. split.
        + intros info Hi. rewrite Hi in Hinfo. apply region_free_spec in Hinfo.
          destruct Hinfo as (_ & _ & Hi'). destruct (Hi' pgq Hpgq'); lia.
        + intros str l Hstr Hl. rewrite Hstr, Hl in Hlabel. apply region_free_spec in Hlabel.
          destruct Hlabel as (_ & _ & Hi'). destruct (Hi' pgq Hpgq'); lia. }
    assert (Hs1 : heap s1 y = heap s y).
    { destruct (Z.eqb_spec (FreeList_ s) nullptr) as [Hnull|Hnn]; [|subst s1; reflexivity].
      destruct (allocate_new_page_Done _ _ _ H1) as [np Hnp]. rewrite Hnp in Hpage.
      assert (Hfl : fl = []) by (eapply chain_nil_inv; [apply ok | exact Hnull]). subst fl.
      assert (Hpage' : region_free (clientConfig s) (osize s) pgs np
                                   (span (clientConfig s) (osize s)) = true).
      { rewrite Hc, Hos. exact Hpage. }
      destruct (allocate_new_page_ok s pgs live np sys' ok Hnp Hpage' s1 H1)
        as (_ & _ & _ & Hout).
      apply Hout. rewrite Hc, Hos. apply region_free_spec in Hpage.
      destruct Hpage as (_ & _ & Hi'). destruct (Hi' pgq Hpgq); lia. }
    rewrite Hs'. cbn [heap]. rewrite <- Hs1, <- Hm1.
    destruct (DebugOn_ (clientConfig s)); [|reflexivity].
    apply memset_out. rewrite Hos. lia.
  - destruct (in_dec Z.eq_dec p live) as [Hlive|]; [|discriminate].
    destruct (Free fuel p s) as [[] s1| | |] eqn:Ef; try discriminate.
    inversion Hcall; subst s1 pgs' live'. clear Hcall.
    apply in_remove in Hq'. destruct Hq' as [_ Hne].
    assert (Hpb : is_block config ObjectSize pgs p).
    { pose proof (ok_live_blocks _ _ _ _ ok p Hlive) as H. rewrite Hc, Hos in H. exact H. }
    pose proof (blocks_apart config ObjectSize Hgood _ q p Hap' Hqb Hpb Hne) as Hfar.
    destruct (Free_Done_state fuel p s s' Hpool Ef) as [_ Hs'].
    rewrite Hs'. cbn [heap]. rewrite Hc, Hos. unfold store_ptr, sizeof_ptr.
    rewrite store_out by lia.
    assert (Hhf : header_freed config p (heap s) y = heap s y).
    { apply header_freed_outside; [exact Hfit|]. unfold header_at. lia. }
    destruct (DebugOn_ config); [|exact Hhf].
    rewrite memset_out by lia. exact Hhf.
Qed.

Lemma held_objects_untouched_witness :
  4136 - PadBytes_ basic_config - size_ (HBlockInfo_ basic_config) <= 4140
  < 4136 + 16 + PadBytes_ basic_config
  /\ heap (fst (fst basic_client_freed)) 4140 = heap (fst (fst basic_client_two)) 4140.
Proof.
  assert (H : 4136 - PadBytes_ basic_config - size_ (HBlockInfo_ basic_config) <= 4140
              < 4136 + 16 + PadBytes_ basic_config) by eval_goal.
  split; [exact H|].
  apply (held_objects_untouched zero_memory (sys_page 4096) 16 basic_config
           [Call_Allocate no_sys None; Call_Allocate no_sys None] basic_client
           _ (snd (fst basic_client_two)) (snd basic_client_two)
           (Call_Free 10 4161) _ (snd (fst basic_client_freed)) (snd basic_client_freed)
           4136 4140).
  - exact basic_good.
  - exact basic_client_new.
  - exact basic_client_two_run.
  - unfold basic_client_freed. apply the_client_triple. vm_compute. reflexivity.
  - vm_compute. left. reflexivity.
  - vm_compute. left. reflexivity.
  - exact H.
Defined.

(** ** [ValidatePages] *)

Lemma in_blocks_from n : forall b step x,
  In x (blocks_from b step n) <-> exists k, 0 <= k < Z.of_nat n /\ x = b + step * k.
Proof.
  induction n as [|n IH]; intros b step x; cbn [blocks_from In].
  - split; [tauto | intros (k & Hk & _); lia].
  - rewrite IH. split.
    + intros [<- | (k & Hk & ->)].
      * exists 0. split; lia.
      * exists (k + 1). split; lia.
    + intros (k & Hk & ->). destruct (Z.eq_dec k 0) as [->|Hne].
      * left. lia.
      * right. exists (k - 1). split; lia.
Qed.

Lemma in_pool_objects c OS pgs b :
  0 <= ObjectsPerPage_ c ->
  In b (pool_objects c OS pgs) <-> is_block c OS pgs b.
Proof.
  intros Ho. unfold pool_objects, page_objects, is_block. rewrite in_flat_map. split.
  - intros (pg & Hpg & Hin). apply in_blocks_from in Hin. destruct Hin as (k & Hk & ->).
    exists pg, k. split; [exact Hpg|]. split; [lia|]. unfold block_at. lia.
  - intros (pg & k & Hpg & Hk & ->). exists pg. split; [exact Hpg|].
    apply in_blocks_from. exists k. split; [lia|]. unfold block_at. lia.
Qed.

Lemma ValidatePages_blocks_spec n : forall s b calls num,
  hsize s <> 0 ->
  ValidatePages_blocks n s b calls num
  = (calls ++ map (fun x => (x + hsize s, osize s))
                  (filter (check_corruption s) (blocks_from b (calculate_block_size s) n)),
     num + Z.of_nat (List.length
                       (filter (check_corruption s) (blocks_from b (calculate_block_size s) n)))).
Proof.
  induction n as [|n IH]; intros s b calls num Hh; cbn [ValidatePages_blocks blocks_from filter].
  - cbn. rewrite app_nil_r. f_equal. lia.
  - destruct (Z.eqb_spec (hsize s) 0); [contradiction|]. cbn [negb].
    destruct (check_corruption s b); rewrite IH by exact Hh.
    + cbn [map List.length]. rewrite <- app_assoc. cbn [app]. f_equal. lia.
    + reflexivity.
Qed.

Lemma ValidatePages_pages_spec fuel : forall s head pgs calls num,
  hsize s <> 0 -> chain (heap s) head pgs -> (List.length pgs < fuel)%nat ->
  ValidatePages_pages fuel s head calls num
  = Some (calls ++ map (fun x => (x + hsize s, osize s))
                       (filter (check_corruption s)
                               (flat_map (fun pg => blocks_from (create_offset pg + (hsize s + pad s))
                                                                (calculate_block_size s)
                                                                (Z.to_nat (ObjectsPerPage_ (clientConfig s))))
                                         pgs)),
          num + Z.of_nat (List.length
                 (filter (check_corruption s)
                         (flat_map (fun pg => blocks_from (create_offset pg + (hsize s + pad s))
                                                          (calculate_block_size s)
                                                          (Z.to_nat (ObjectsPerPage_ (clientConfig s))))
                                   pgs)))).
Proof.
  induction fuel as [|fuel IH]; intros s head pgs calls num Hh Hc Hf; [lia|].
  cbn [ValidatePages_pages]. destruct pgs as [|pg pgs]; cbn [chain List.length] in Hc, Hf.
  - subst head. cbn. rewrite app_nil_r. f_equal. f_equal. lia.
  - destruct Hc as (-> & Hn & Hc). destruct (Z.eqb_spec pg nullptr); [contradiction|].
    rewrite ValidatePages_blocks_spec by exact Hh.
    rewrite (IH s _ pgs) by (auto; lia).
    cbn [flat_map]. rewrite filter_app, map_app, length_app, app_assoc.
    f_equal. f_equal. lia.
Qed.

Lemma ValidatePages_eq fuel s pgs :
  good_layout (clientConfig s) (osize s) ->
  size_ (HBlockInfo_ (clientConfig s)) <> 0 ->
  chain (heap s) (PageList_ s) pgs ->
  (List.length pgs < fuel)%nat ->
  ValidatePages fuel s
  = Some (map (fun b => (b + size_ (HBlockInfo_ (clientConfig s)), osize s))
              (filter (check_corruption s) (pool_objects (clientConfig s) (osize s) pgs)),
          u32 (Z.of_nat (List.length
                 (filter (check_corruption s) (pool_objects (clientConfig s) (osize s) pgs))))).
Proof.
  intros Hgood Hh Hc Hf.
  destruct (good_layout_block_size s Hgood) as [Hbs _].
  unfold ValidatePages. rewrite (ValidatePages_pages_spec fuel s _ pgs [] 0 Hh Hc Hf).
  assert (E : flat_map (fun pg => blocks_from (create_offset pg + (hsize s + pad s))
                                              (calculate_block_size s)
                                              (Z.to_nat (ObjectsPerPage_ (clientConfig s)))) pgs
              = pool_objects (clientConfig s) (osize s) pgs).
  { unfold pool_objects, page_objects. apply flat_map_ext. intros pg.
    rewrite Hbs. unfold block_stride, stride, create_offset, block_at, hsize, pad, osize.
    f_equal; lia. }
  rewrite E. cbn [app]. reflexivity.
Qed.

(** X25.  For a well-formed layout with a header configured and a page
    list that ends, [ValidatePages] visits the blocks page by page in list
    order and in address order within a page, calls the callback exactly for
    the blocks with a damaged pad byte, passing the object address plus the
    header size and the object size, and returns their number. *)
Theorem ValidatePages_reports_damaged_blocks fuel s pgs :
  good_layout (clientConfig s) (osize s) ->
  size_ (HBlockInfo_ (clientConfig s)) <> 0 ->
  chain (heap s) (PageList_ s) pgs ->
  (List.length pgs < fuel)%nat ->
  ValidatePages fuel s
  = Some (map (fun b => (b + size_ (HBlockInfo_ (clientConfig s)), osize s))
              (filter (check_corruption s) (pool_objects (clientConfig s) (osize s) pgs)),
          u32 (Z.of_nat (List.length
                 (filter (check_corruption s) (pool_objects (clientConfig s) (osize s) pgs)))))
  /\ forall b, In b (filter (check_corruption s) (pool_objects (clientConfig s) (osize s) pgs))
               <-> is_block (clientConfig s) (osize s) pgs b /\ ~ pads_intact s b.
Proof.
  intros Hgood Hh Hc Hf.
  destruct (layout_facts _ _ Hgood) as (_ & _ & _ & Ho & Hst & _).
  split; [apply ValidatePages_eq; assumption|].
  intros b. rewrite filter_In, in_pool_objects by lia.
  rewrite <- check_corruption_false.
  destruct (check_corruption s b); split; intros [H1 H2]; split; auto; congruence.
Qed.

Lemma basic_two_overrun_good :
  good_layout (clientConfig basic_two_overrun) (osize basic_two_overrun).
Proof. unfold good_layout, is_unsigned, header_fits. vm_compute. repeat split; congruence. Qed.

Lemma ValidatePages_reports_damaged_blocks_witness :
  ValidatePages 5 basic_two_overrun
  = Some (map (fun b => (b + size_ (HBlockInfo_ (clientConfig basic_two_overrun)),
                         osize basic_two_overrun))
              (filter (check_corruption basic_two_overrun)
                      (pool_objects (clientConfig basic_two_overrun)
                                    (osize basic_two_overrun) [4096])),
          u32 (Z.of_nat (List.length
                 (filter (check_corruption basic_two_overrun)
                         (pool_objects (clientConfig basic_two_overrun)
                                       (osize basic_two_overrun) [4096])))))
  /\ forall b, In b (filter (check_corruption basic_two_overrun)
                            (pool_objects (clientConfig basic_two_overrun)
                                          (osize basic_two_overrun) [4096]))
               <-> is_block (clientConfig basic_two_overrun) (osize basic_two_overrun) [4096] b
                   /\ ~ pads_intact basic_two_overrun b.
Proof.
  apply (ValidatePages_reports_damaged_blocks 5 basic_two_overrun [4096]).
  - exact basic_two_overrun_good.
  - vm_compute. discriminate.
  - chain_tac.
  - vm_compute. lia.
Defined.

(** The overrun past the object at 4136 is reported, with the pointer
    4136 + 5. *)
Lemma ValidatePages_overrun_example :
  ValidatePages 5 basic_two_overrun = Some ([(4141, 16)], 1)
  /\ ValidatePages 5 (fst (fst basic_client_two)) = Some ([], 0).
Proof. split; vm_compute; reflexivity. Qed.

Lemma filter_none {A} (f : A -> bool) l : (forall x, In x l -> f x = false) -> filter f l = [].
Proof.
  induction l as [|a l IH]; intros H; cbn [filter]; [reflexivity|].
  rewrite (H a (or_introl eq_refl)). apply IH. intros x Hx. apply H. right. exact Hx.
Qed.

(** X26.  For a pool with a well-formed layout ([good_layout]: objects of
    at least eight bytes, the size of the free-list link, a header large
    enough for the fields of its type, and sizes that do not overflow),
    under valid use in debug mode and whatever the header type,
    [ValidatePages] calls no callback and returns 0: without a write of the
    client outside its objects no block is reported. *)
Theorem ValidatePages_clean_under_valid_use m0 sys ObjectSize config cs cl s pgs live fuel :
  good_layout config ObjectSize ->
  DebugOn_ config = true ->
  client_new m0 sys ObjectSize config = Some cl ->
  client_run cs cl = Some (s, pgs, live) ->
  (List.length pgs < fuel)%nat ->
  ValidatePages fuel s = Some ([], 0).
Proof.
  intros Hgood Hd Hnew Hrun Hfuel.
  destruct (client_pool_ok _ _ _ _ _ _ _ _ _ Hgood Hnew Hrun) as (fl & ok & Hc & Hos).
  assert (Hgood' : good_layout (clientConfig s) (osize s)) by apply ok.
  destruct (layout_facts _ _ Hgood') as (_ & _ & _ & Ho & _).
  destruct (Z.eq_dec (size_ (HBlockInfo_ (clientConfig s))) 0) as [Hz|Hnz].
  - apply (ValidatePages_no_header fuel s pgs Hz (ok_pages _ _ _ _ ok) Hfuel).
  - rewrite (ValidatePages_eq fuel s pgs Hgood' Hnz (ok_pages _ _ _ _ ok) Hfuel).
    rewrite filter_none; [reflexivity|].
    intros b Hb. apply in_pool_objects in Hb; [|lia].
    apply check_corruption_false. apply (ok_pads _ _ _ _ ok); [|exact Hb].
    rewrite Hc. exact Hd.
Qed.

Lemma ValidatePages_clean_under_valid_use_witness :
  ValidatePages 5 (fst (fst basic_client_six)) = Some ([], 0).
Proof.
  apply (ValidatePages_clean_under_valid_use zero_memory (sys_page 4096) 16 basic_config
           six_allocations basic_client _ (snd (fst basic_client_six)) (snd basic_client_six)).
  - exact basic_good.
  - reflexivity.
  - exact basic_client_new.
  - exact basic_client_six_run.
  - vm_compute. lia.
Defined.

(** ** The destructor *)

Lemma chain_suffix m : forall l1 h a l2, chain m h (l1 ++ a :: l2) -> chain m a (a :: l2).
Proof.
  induction l1 as [|b l1 IH]; intros h a l2; cbn [app chain].
  - intros (-> & Hn & Hc). auto.
  - intros (_ & _ & Hc). apply (IH _ _ _ Hc).
Qed.

Lemma chain_NoDup m : forall l h, chain m h l -> NoDup l.
Proof.
  induction l as [|a l IH]; intros h Hc; [constructor|].
  cbn [chain] in Hc. destruct Hc as (-> & Hn & Hc).
  constructor; [|apply (IH _ Hc)].
  intros Hin. apply in_split in Hin. destruct Hin as (l1 & l2 & ->).
  pose proof (chain_suffix m l1 _ a l2 Hc) as Hs. cbn [chain] in Hs.
  destruct Hs as (_ & _ & Hs).
  pose proof (chain_unique m _ _ _ Hc Hs) as E.
  apply (f_equal (@List.length ptr)) in E. rewrite length_app in E. cbn [List.length] in E. lia.
Qed.

Lemma dtor_loop_spec fuel : forall s pgs deleted,
  chain (heap s) (PageList_ s) pgs -> (List.length pgs < fuel)%nat ->
  ObjectAllocator_dtor_loop fuel s deleted = Some (deleted ++ pgs, set_PageList nullptr s).
Proof.
  induction fuel as [|fuel IH]; intros s pgs deleted Hc Hf; [lia|].
  cbn [ObjectAllocator_dtor_loop]. destruct pgs as [|pg pgs]; cbn [chain List.length] in Hc, Hf.
  - rewrite Hc. cbn [Z.eqb nullptr]. rewrite app_nil_r. f_equal. f_equal.
    destruct s; cbn in *. subst. reflexivity.
  - destruct Hc as (Hpl & Hn & Hc). rewrite Hpl.
    destruct (Z.eqb_spec pg nullptr); [contradiction|].
    rewrite (IH _ pgs) by (cbn; auto; lia).
    rewrite <- app_assoc. reflexivity.
Qed.

(** X27.  Under valid use the destructor ends, hands to [delete[]] exactly
    the pages the pool obtained from the system allocator, newest first and
    each once, and leaves the page list empty. *)
Theorem destructor_releases_each_page_once m0 sys ObjectSize config cs cl s pgs live fuel :
  good_layout config ObjectSize ->
  client_new m0 sys ObjectSize config = Some cl ->
  client_run cs cl = Some (s, pgs, live) ->
  (List.length pgs < fuel)%nat ->
  exists s',
    ObjectAllocator_dtor fuel s = Some (pgs, s')
    /\ PageList_ s' = nullptr
    /\ NoDup pgs.
Proof.
  intros Hgood Hnew Hrun Hfuel.
  destruct (client_pool_ok _ _ _ _ _ _ _ _ _ Hgood Hnew Hrun) as (fl & ok & Hc & Hos).
  exists (set_PageList nullptr s). split; [|split].
  - unfold ObjectAllocator_dtor.
    rewrite (dtor_loop_spec fuel s pgs [] (ok_pages _ _ _ _ ok) Hfuel). reflexivity.
  - reflexivity.
  - apply (chain_NoDup (heap s) pgs _ (ok_pages _ _ _ _ ok)).
Qed.

Lemma destructor_releases_each_page_once_witness :
  exists s',
    ObjectAllocator_dtor 5 (fst (fst basic_client_six)) = Some (snd (fst basic_client_six), s')
    /\ PageList_ s' = nullptr
    /\ NoDup (snd (fst basic_client_six)).
Proof.
  apply (destructor_releases_each_page_once zero_memory (sys_page 4096) 16 basic_config
           six_allocations basic_client _ _ (snd basic_client_six)).
  - exact basic_good.
  - exact basic_client_new.
  - exact basic_client_six_run.
  - vm_compute. lia.
Defined.

(** ** [DumpMemoryInUse] *)

Lemma filter_map_comm {A B} (f : B -> bool) (g : A -> B) l :
  filter f (map g l) = map g (filter (fun x => f (g x)) l).
Proof.
  induction l as [|a l IH]; cbn [map filter]; [reflexivity|].
  destruct (f (g a)); cbn [map]; rewrite IH; reflexivity.
Qed.

Lemma blocks_from_shift d n : forall b step,
  blocks_from (b + d) step n = map (fun x => x + d) (blocks_from b step n).
Proof.
  induction n as [|n IH]; intros b step; cbn [blocks_from map]; [reflexivity|].
  f_equal. rewrite <- IH. f_equal. lia.
Qed.

Lemma DumpMemoryInUse_blocks_spec n : forall s b calls num,
  hsize s <> 0 ->
  DumpMemoryInUse_blocks n s b calls num
  = (calls ++ map (fun x => (x + hsize s, osize s))
                  (filter (check_leak_in_header s) (blocks_from b (calculate_block_size s) n)),
     num + Z.of_nat (List.length
                       (filter (check_leak_in_header s)
                               (blocks_from b (calculate_block_size s) n)))).
Proof.
  induction n as [|n IH]; intros s b calls num Hh;
    cbn [DumpMemoryInUse_blocks blocks_from filter].
  - cbn. rewrite app_nil_r. f_equal. lia.
  - destruct (Z.eqb_spec (hsize s) 0); [contradiction|]. cbn [negb].
    destruct (check_leak_in_header s b); rewrite IH by exact Hh.
    + cbn [map List.length]. rewrite <- app_assoc. cbn [app]. f_equal. lia.
    + reflexivity.
Qed.

Lemma DumpMemoryInUse_pages_spec fuel : forall s head pgs calls num,
  hsize s <> 0 -> chain (heap s) head pgs -> (List.length pgs < fuel)%nat ->
  DumpMemoryInUse_pages fuel s head calls num
  = Some (calls ++ map (fun x => (x + hsize s, osize s))
                       (filter (check_leak_in_header s)
                               (flat_map (fun pg => blocks_from (create_offset pg)
                                                                (calculate_block_size s)
                                                                (Z.to_nat (ObjectsPerPage_ (clientConfig s))))
                                         pgs)),
          num + Z.of_nat (List.length
                 (filter (check_leak_in_header s)
                         (flat_map (fun pg => blocks_from (create_offset pg)
                                                          (calculate_block_size s)
                                                          (Z.to_nat (ObjectsPerPage_ (clientConfig s))))
                                   pgs)))).
Proof.
  induction fuel as [|fuel IH]; intros s head pgs calls num Hh Hc Hf; [lia|].
  cbn [DumpMemoryInUse_pages]. destruct pgs as [|pg pgs]; cbn [chain List.length] in Hc, Hf.
  - subst head. cbn. rewrite app_nil_r. f_equal. f_equal. lia.
  - destruct Hc as (-> & Hn & Hc). destruct (Z.eqb_spec pg nullptr); [contradiction|].
    rewrite DumpMemoryInUse_blocks_spec by exact Hh.
    rewrite (IH s _ pgs) by (auto; lia).
    cbn [flat_map]. rewrite filter_app, map_app, length_app, app_assoc.
    f_equal. f_equal. lia.
Qed.

Lemma flat_map_map {A B C} (g : A -> list B) (h : B -> C) l :
  flat_map (fun x => map h (g x)) l = map h (flat_map g l).
Proof.
  induction l as [|a l IH]; cbn [flat_map map]; [reflexivity|].
  rewrite map_app, IH. reflexivity.
Qed.

Lemma DumpMemoryInUse_eq fuel s pgs :
  good_layout (clientConfig s) (osize s) ->
  size_ (HBlockInfo_ (clientConfig s)) <> 0 ->
  chain (heap s) (PageList_ s) pgs ->
  (List.length pgs < fuel)%nat ->
  DumpMemoryInUse fuel s
  = Some (map (fun b => (b - PadBytes_ (clientConfig s), osize s))
              (filter (fun b => check_leak_in_header s (header_at (clientConfig s) b))
                      (pool_objects (clientConfig s) (osize s) pgs)),
          u32 (Z.of_nat (List.length
                 (filter (fun b => check_leak_in_header s (header_at (clientConfig s) b))
                         (pool_objects (clientConfig s) (osize s) pgs))))).
Proof.
  intros Hgood Hh Hc Hf.
  destruct (good_layout_block_size s Hgood) as [Hbs _].
  unfold DumpMemoryInUse. rewrite (DumpMemoryInUse_pages_spec fuel s _ pgs [] 0 Hh Hc Hf).
  set (d := - (PadBytes_ (clientConfig s) + size_ (HBlockInfo_ (clientConfig s)))).
  assert (E : flat_map (fun pg => blocks_from (create_offset pg) (calculate_block_size s)
                                              (Z.to_nat (ObjectsPerPage_ (clientConfig s)))) pgs
              = map (fun x => x + d) (pool_objects (clientConfig s) (osize s) pgs)).
  { unfold pool_objects, page_objects.
    rewrite <- flat_map_map.
    apply flat_map_ext. intros pg. rewrite <- blocks_from_shift.
    rewrite Hbs. unfold block_stride, stride, create_offset, block_at, hsize, pad, osize, d,
                 sizeof_ptr.
    f_equal; lia. }
  rewrite E. cbn [app]. rewrite filter_map_comm, map_map, length_map.
  assert (Ef : filter (fun x => check_leak_in_header s (x + d))
                      (pool_objects (clientConfig s) (osize s) pgs)
               = filter (fun b => check_leak_in_header s (header_at (clientConfig s) b))
                        (pool_objects (clientConfig s) (osize s) pgs)).
  { apply filter_ext. intros b. unfold header_at, d. f_equal; lia. }
  rewrite Ef. f_equal. f_equal.
  apply map_ext. intros b. unfold hsize, d. f_equal; lia.
Qed.
(** * The in-use flags of the headers *)

(** ** What one call changes in the other blocks *)

Lemma take_off_frame s pgs fl live sys label p s' b y :
  pool_ok s pgs fl live ->
  sys_outside (clientConfig s) (osize s) pgs sys label ->
  take_off_freelist sys label s = Done p s' ->
  is_block (clientConfig s) (osize s) pgs b -> b <> p ->
  b - PadBytes_ (clientConfig s) - size_ (HBlockInfo_ (clientConfig s)) <= y
  < b + osize s + PadBytes_ (clientConfig s) ->
  heap s' y = heap s y.
Proof.
  intros ok Hsys E Hb Hne Hy.
  destruct (take_off_ok s pgs fl live sys label p s' ok Hsys E) as (fl' & Hfl & _).
  set (c := clientConfig s) in *. set (OS := osize s) in *.
  assert (Hgood : good_layout c OS) by apply ok.
  assert (Hfit : header_fits (HBlockInfo_ c)) by apply Hgood.
  destruct (layout_facts c OS Hgood) as (Hh & Hpd & Hos8 & Ho & Hst & Hsp & _).
  assert (Hpb : is_block c OS pgs p).
  { apply (ok_free_blocks _ _ _ _ ok). rewrite Hfl. left. reflexivity. }
  pose proof (blocks_apart c OS Hgood pgs b p (ok_pages_apart _ _ _ _ ok) Hb Hpb Hne) as Hfar.
  destruct (block_range_in_page c OS pgs b y Hgood Hb Hy) as (pg & Hpg & Hyp).
  rewrite take_off_freelist_eq in E. fold c OS in E.
  destruct (header_allocated c _ sys label (FreeList_ s) (heap s)) as [[e|] m1] eqn:Eh;
    [discriminate|].
  destruct (Z.eqb_spec (FreeList_ s) nullptr) as [|Hnn]; [discriminate|].
  inversion E as [[Hp Hs']]. rewrite Hp in *. cbn [heap].
  assert (Hm1 : m1 y = heap s y).
  { apply (header_allocated_outside c _ sys label p (heap s) m1 y Hfit Eh).
    - unfold header_at. lia.
    - intros Ht. destruct (Hsys Ht) as [Hinfo Hlabel]. split.
      + intros info Hi. apply Hinfo, region_free_spec in Hi. destruct Hi as (_ & _ & Hi).
        destruct (Hi pg Hpg); lia.
      + intros str l Hstr Hl. specialize (Hlabel str l Hstr Hl).
        apply region_free_spec in Hlabel. destruct Hlabel as (_ & _ & Hi).
        destruct (Hi pg Hpg); lia. }
  destruct (DebugOn_ c); [|exact Hm1]. rewrite memset_out by lia. exact Hm1.
Qed.

Lemma Free_frame fuel s pgs fl live p s' b y :
  pool_ok s pgs fl live -> In p live ->
  Free fuel p s = Done tt s' ->
  is_block (clientConfig s) (osize s) pgs b -> b <> p ->
  b - PadBytes_ (clientConfig s) - size_ (HBlockInfo_ (clientConfig s)) <= y
  < b + osize s + PadBytes_ (clientConfig s) ->
  heap s' y = heap s y.
Proof.
  intros ok Hlive E Hb Hne Hy.
  set (c := clientConfig s) in *. set (OS := osize s) in *.
  assert (Hgood : good_layout c OS) by apply ok.
  assert (Hfit : header_fits (HBlockInfo_ c)) by apply Hgood.
  destruct (layout_facts c OS Hgood) as (Hh & Hpd & Hos8 & Ho & Hst & Hsp & _).
  assert (Hpb : is_block c OS pgs p) by (apply (ok_live_blocks _ _ _ _ ok); exact Hlive).
  pose proof (blocks_apart c OS Hgood pgs b p (ok_pages_apart _ _ _ _ ok) Hb Hpb Hne) as Hfar.
  assert (Hpool : UseCPPMemManager_ (clientConfig s) = false) by apply Hgood.
  destruct (Free_Done_state fuel p s s' Hpool E) as [_ Hs'].
  rewrite Hs'. cbn [heap]. fold c OS. unfold store_ptr, sizeof_ptr.
  rewrite store_out by lia.
  assert (Hhf : header_freed c p (heap s) y = heap s y).
  { apply header_freed_outside; [exact Hfit|]. unfold header_at. lia. }
  destruct (DebugOn_ c); [|exact Hhf].
  rewrite memset_out by lia. exact Hhf.
Qed.

(** ** The headers of a new page are zero *)

Section SegmentHeaders.
Variables (c : OAConfig) (OS : Z).
Hypothesis good : good_layout c OS.
Variable pg : ptr.

Lemma block_added_header i m y :
  type_ (HBlockInfo_ c) <> hbNone ->
  header_at c (block_at c OS pg i) <= y
  < header_at c (block_at c OS pg i) + size_ (HBlockInfo_ c) ->
  block_added c OS pg i m y = 0.
Proof.
  intros Ht Hy. unfold block_added, clear_header.
  destruct (type_ (HBlockInfo_ c)); try contradiction; rewrite memset_in by exact Hy;
    reflexivity.
Qed.

Lemma segment_loop_headers : forall n i s s',
  clientConfig s = c -> osize s = OS -> PageList_ s = pg ->
  blockIter s = Z.of_nat i ->
  Z.of_nat i + Z.of_nat n <= ObjectsPerPage_ c ->
  type_ (HBlockInfo_ c) <> hbNone ->
  (forall k y, 0 <= k < Z.of_nat i ->
               header_at c (block_at c OS pg k) <= y
               < header_at c (block_at c OS pg k) + size_ (HBlockInfo_ c) ->
               heap s y = 0) ->
  repeatM n add_to_page s = Done tt s' ->
  forall k y, 0 <= k < Z.of_nat (i + n) ->
              header_at c (block_at c OS pg k) <= y
              < header_at c (block_at c OS pg k) + size_ (HBlockInfo_ c) ->
              heap s' y = 0.
Proof.
  induction n as [|n IH]; intros i s s' Hc Hos Hpl Hbi Hle Ht Hz E.
  - cbn in E. inversion E; subst s'. rewrite Nat.add_0_r. exact Hz.
  - cbn [repeatM] in E. unfold bind in E.
    assert (Hgood : good_layout (clientConfig s) (osize s)) by (rewrite Hc, Hos; exact good).
    rewrite (add_to_page_eq s Hgood) in E. rewrite Hc, Hos, Hpl, Hbi in E.
    set (s1 := mkOA c (inc_FreeObjects (stats s)) pg (block_at c OS pg (Z.of_nat i))
                    (Z.of_nat i + 1) (block_added c OS pg (Z.of_nat i) (heap s))) in E.
    assert (Hi : 0 <= Z.of_nat i < ObjectsPerPage_ c) by lia.
    destruct (layout_facts c OS good) as (Hh & Hp & Hos8 & Ho & Hst & Hsp & _).
    intros k y Hk Hy.
    apply (IH (S i) s1 s') with (k := k); try reflexivity; try exact Ht; try exact E.
    + cbn. fold (osize s). exact Hos.
    + cbn [blockIter s1]. lia.
    + lia.
    + clear k y Hk Hy. intros k y Hk Hy. cbn [heap s1].
      destruct (Z.eq_dec k (Z.of_nat i)) as [->|Hne].
      * apply block_added_header; assumption.
      * assert (Hk' : 0 <= k < Z.of_nat i) by lia.
        assert (Hlt : block_at c OS pg k + stride c OS <= block_at c OS pg (Z.of_nat i)).
        { unfold block_at. set (st := stride c OS) in *. nia. }
        unfold header_at in Hy.
        destruct (block_added_outside c OS good pg (Z.of_nat i) (heap s) Hi y)
          as [E0|(_ & Hne0 & _ & Hr)].
        -- lia.
        -- rewrite E0. apply (Hz k y Hk'). unfold header_at. exact Hy.
        -- exfalso.
           assert (Hlt' : block_at c OS pg k <= block_at c OS pg (Z.of_nat i - 1)).
           { unfold block_at. set (st := stride c OS) in *. nia. }
           destruct (Z.eq_dec k (Z.of_nat i - 1)) as [->|Hk2]; [lia|].
           assert (block_at c OS pg k + stride c OS <= block_at c OS pg (Z.of_nat i - 1)).
           { unfold block_at. set (st := stride c OS) in *. nia. }
           lia.
    + replace (S i + n)%nat with (i + S n)%nat by lia. exact Hk.
    + exact Hy.
Qed.
End SegmentHeaders.

Lemma new_page_headers sys s np s' k y :
  good_layout (clientConfig s) (osize s) ->
  new_page sys = Some np ->
  allocate_new_page sys s = Done tt s' ->
  type_ (HBlockInfo_ (clientConfig s)) <> hbNone ->
  0 <= k < ObjectsPerPage_ (clientConfig s) ->
  header_at (clientConfig s) (block_at (clientConfig s) (osize s) np k) <= y
  < header_at (clientConfig s) (block_at (clientConfig s) (osize s) np k)
    + size_ (HBlockInfo_ (clientConfig s)) ->
  heap s' y = 0.
Proof.
  intros Hgood Hnp E Ht Hk Hy.
  set (c := clientConfig s) in *. set (OS := osize s) in *.
  unfold allocate_new_page, bind in E. rewrite Hnp in E.
  destruct (allocate_empty_page (Some np) s) as [[] s1| | |] eqn:E1; try discriminate.
  destruct (allocate_empty_page_Done _ _ _ E1) as [Hlt _].
  rewrite (allocate_empty_page_eq s np Hlt) in E1. inversion E1 as [Hs1]. clear E1.
  unfold segment_page, bind, modify, get in E. cbn [clientConfig] in E.
  set (s1' := set_blockIter 0 s1) in E.
  assert (Hc1 : clientConfig s1' = c) by (subst s1' s1; reflexivity).
  rewrite Hc1 in E.
  destruct (repeatM (Z.to_nat (ObjectsPerPage_ c)) add_to_page s1') as [[] s2| | |] eqn:E2;
    try discriminate.
  inversion E as [Hs']. cbn [heap set_stats].
  destruct (layout_facts c OS Hgood) as (_ & _ & _ & Ho & _).
  apply (segment_loop_headers c OS Hgood np (Z.to_nat (ObjectsPerPage_ c)) O s1' s2)
    with (k := k); try exact E2; try exact Ht; try exact Hy.
  - exact Hc1.
  - subst s1' s1. reflexivity.
  - subst s1' s1. reflexivity.
  - subst s1' s1. reflexivity.
  - lia.
  - intros k0 y0 Hk0. cbn in Hk0. lia.
  - cbn [Nat.add]. lia.
Qed.

(** ** The flag of the block a call works on *)

Lemma flagged_eq s b :
  type_ (HBlockInfo_ (clientConfig s)) <> hbExternal ->
  flagged s b
  = negb (heap s (header_at (clientConfig s) b + (size_ (HBlockInfo_ (clientConfig s)) - 1))
          mod 256 =? 0).
Proof.
  unfold flagged, check_leak_in_header, hsize. intros Ht.
  destruct (type_ (HBlockInfo_ (clientConfig s))); try contradiction; reflexivity.
Qed.

Lemma header_exact_not_external h : header_exact h -> type_ h <> hbExternal /\ type_ h <> hbNone.
Proof. unfold header_exact. destruct (type_ h); intros H; try contradiction; split; discriminate. Qed.

Lemma flagged_same s s' b :
  header_exact (HBlockInfo_ (clientConfig s)) ->
  clientConfig s' = clientConfig s ->
  heap s' (header_at (clientConfig s) b + (size_ (HBlockInfo_ (clientConfig s)) - 1))
  = heap s (header_at (clientConfig s) b + (size_ (HBlockInfo_ (clientConfig s)) - 1)) ->
  flagged s' b = flagged s b.
Proof.
  intros Hx Hc E. destruct (header_exact_not_external _ Hx) as [Ht _].
  rewrite (flagged_eq s b Ht). rewrite flagged_eq by (rewrite Hc; exact Ht).
  rewrite Hc, E. reflexivity.
Qed.

Lemma take_off_flag sys label s p s' :
  header_exact (HBlockInfo_ (clientConfig s)) ->
  header_fits (HBlockInfo_ (clientConfig s)) ->
  0 <= PadBytes_ (clientConfig s) ->
  take_off_freelist sys label s = Done p s' ->
  clientConfig s' = clientConfig s /\ flagged s' p = true.
Proof.
  intros Hx Hfit Hpad E. destruct (header_exact_not_external _ Hx) as [Ht _].
  rewrite take_off_freelist_eq in E.
  destruct (header_allocated (clientConfig s) _ sys label (FreeList_ s) (heap s))
    as [[e|] m1] eqn:Eh; [discriminate|].
  destruct (Z.eqb_spec (FreeList_ s) nullptr) as [|Hnn]; [discriminate|].
  inversion E as [[Hp Hs']]. rewrite Hp in *. split; [reflexivity|].
  rewrite flagged_eq by exact Ht. cbn [clientConfig heap].
  set (c := clientConfig s) in *.
  set (h := header_at c p). set (hs := size_ (HBlockInfo_ c)).
  assert (Hh : h + hs <= p).
  { unfold h, header_at, hs. lia. }
  assert (Hm1 : m1 (h + (hs - 1)) = 1).
  { unfold header_allocated, header_exact, header_fits in *. fold h in Eh.
    unfold sizeof_int, sizeof_char, sizeof_short in *.
    destruct (type_ (HBlockInfo_ c)); try contradiction.
    - inversion Eh. fold hs in Hx. rewrite Hx.
      rewrite store_in by lia. replace (h + (4 + 1 - 1) - (h + 4)) with 0 by lia. reflexivity.
    - inversion Eh. fold hs in Hx. rewrite Hx.
      rewrite store_in by lia.
      match goal with |- (1 / 2 ^ (8 * ?d)) mod 256 = 1 => replace d with 0 by lia end.
      reflexivity. }
  assert (Hpos : 0 < hs).
  { unfold header_exact, header_fits, hs, sizeof_int, sizeof_char, sizeof_short in *.
    destruct (type_ (HBlockInfo_ c)); try contradiction; lia. }
  destruct (DebugOn_ c).
  - rewrite memset_out by lia. rewrite Hm1. reflexivity.
  - rewrite Hm1. reflexivity.
Qed.

Lemma Free_flag fuel p s s' :
  UseCPPMemManager_ (clientConfig s) = false ->
  header_exact (HBlockInfo_ (clientConfig s)) ->
  header_fits (HBlockInfo_ (clientConfig s)) ->
  0 <= PadBytes_ (clientConfig s) ->
  Free fuel p s = Done tt s' ->
  clientConfig s' = clientConfig s /\ flagged s' p = false.
Proof.
  intros Hpool Hx Hfit Hpad E. destruct (header_exact_not_external _ Hx) as [Ht _].
  destruct (Free_Done_state fuel p s s' Hpool E) as [_ Hs'].
  rewrite Hs'. split; [reflexivity|].
  rewrite flagged_eq by exact Ht. cbn [clientConfig heap].
  set (c := clientConfig s) in *.
  set (h := header_at c p). set (hs := size_ (HBlockInfo_ c)).
  assert (Hh : h + hs <= p).
  { unfold h, header_at, hs. lia. }
  assert (Hpos : 0 < hs).
  { unfold header_exact, header_fits, hs, sizeof_int, sizeof_char, sizeof_short in *.
    destruct (type_ (HBlockInfo_ c)); try contradiction; lia. }
  assert (Hf : header_freed c p (heap s) (h + (hs - 1)) = 0).
  { unfold header_freed, header_exact, header_fits in *. fold h hs.
    unfold sizeof_int, sizeof_char, sizeof_short in *.
    destruct (type_ (HBlockInfo_ c)); try contradiction; rewrite memset_in by lia; reflexivity. }
  unfold store_ptr, sizeof_ptr. rewrite store_out by lia.
  destruct (DebugOn_ c).
  - rewrite memset_out by lia. rewrite Hf. reflexivity.
  - rewrite Hf. reflexivity.
Qed.

(** ** The flags under valid use *)

Lemma take_off_flags s pgs fl live sys label p s' :
  pool_ok s pgs fl live -> flags_ok s pgs live ->
  header_exact (HBlockInfo_ (clientConfig s)) ->
  sys_outside (clientConfig s) (osize s) pgs sys label ->
  take_off_freelist sys label s = Done p s' ->
  flags_ok s' pgs (p :: live).
Proof.
  intros ok Hfl Hx Hsys E.
  destruct (take_off_ok s pgs fl live sys label p s' ok Hsys E) as (fl' & _ & ok' & Hc & Hos).
  assert (Hgood : good_layout (clientConfig s) (osize s)) by apply ok.
  assert (Hfit : header_fits (HBlockInfo_ (clientConfig s))) by apply Hgood.
  destruct (layout_facts _ _ Hgood) as (Hh & Hpd & Hos8 & _).
  destruct (take_off_flag sys label s p s' Hx Hfit Hpd E) as [_ Hp].
  assert (Hpos : 0 < size_ (HBlockInfo_ (clientConfig s))).
  { unfold header_exact, header_fits, sizeof_int, sizeof_char, sizeof_short in *.
    destruct (type_ (HBlockInfo_ (clientConfig s))); try contradiction; lia. }
  intros b Hb. rewrite Hc, Hos in Hb.
  destruct (Z.eq_dec b p) as [->|Hne].
  - rewrite Hp. split; [intros _; left; reflexivity | reflexivity].
  - rewrite (flagged_same s s' b Hx Hc).
    + rewrite (Hfl b Hb). split; [intros H; right; exact H | intros [H|H]; [congruence | exact H]].
    + apply (take_off_frame s pgs fl live sys label p s' b _ ok Hsys E Hb Hne).
      unfold header_at. lia.
Qed.

Lemma Free_flags fuel s pgs fl live p s' :
  pool_ok s pgs fl live -> flags_ok s pgs live ->
  header_exact (HBlockInfo_ (clientConfig s)) ->
  In p live ->
  Free fuel p s = Done tt s' ->
  clientConfig s' = clientConfig s -> osize s' = osize s ->
  flags_ok s' pgs (remove Z.eq_dec p live).
Proof.
  intros ok Hfl Hx Hlive E Hc Hos.
  assert (Hgood : good_layout (clientConfig s) (osize s)) by apply ok.
  assert (Hfit : header_fits (HBlockInfo_ (clientConfig s))) by apply Hgood.
  assert (Hpool : UseCPPMemManager_ (clientConfig s) = false) by apply Hgood.
  destruct (layout_facts _ _ Hgood) as (Hh & Hpd & Hos8 & _).
  destruct (Free_flag fuel p s s' Hpool Hx Hfit Hpd E) as [_ Hp].
  assert (Hpos : 0 < size_ (HBlockInfo_ (clientConfig s))).
  { unfold header_exact, header_fits, sizeof_int, sizeof_char, sizeof_short in *.
    destruct (type_ (HBlockInfo_ (clientConfig s))); try contradiction; lia. }
  intros b Hb. rewrite Hc, Hos in Hb.
  destruct (Z.eq_dec b p) as [->|Hne].
  - rewrite Hp. split; [discriminate|]. intros H. apply in_remove in H. tauto.
  - rewrite (flagged_same s s' b Hx Hc).
    + rewrite (Hfl b Hb). split.
      * intros H. apply in_in_remove; assumption.
      * intros H. apply in_remove in H. tauto.
    + apply (Free_frame fuel s pgs fl live p s' b _ ok Hlive E Hb Hne).
      unfold header_at. lia.
Qed.

Lemma new_page_flags s pgs live sys np s' :
  pool_ok s pgs [] live -> flags_ok s pgs live ->
  header_exact (HBlockInfo_ (clientConfig s)) ->
  new_page sys = Some np ->
  region_free (clientConfig s) (osize s) pgs np (span (clientConfig s) (osize s)) = true ->
  allocate_new_page sys s = Done tt s' ->
  flags_ok s' (np :: pgs) live.
Proof.
  intros ok Hfl Hx Hnp Hfree E.
  destruct (allocate_new_page_ok s pgs live np sys ok Hnp Hfree s' E) as (ok' & Hc & Hos & Hout).
  assert (Hgood : good_layout (clientConfig s) (osize s)) by apply ok.
  destruct (layout_facts _ _ Hgood) as (Hh & Hpd & Hos8 & Ho & _).
  destruct (header_exact_not_external _ Hx) as [Hte Htn].
  assert (Hpos : 0 < size_ (HBlockInfo_ (clientConfig s))).
  { assert (Hfit : header_fits (HBlockInfo_ (clientConfig s))) by apply Hgood.
    unfold header_exact, header_fits, sizeof_int, sizeof_char, sizeof_short in *.
    destruct (type_ (HBlockInfo_ (clientConfig s))); try contradiction; lia. }
  intros b Hb. rewrite Hc, Hos in Hb. destruct Hb as (pg & k & [<-|Hpg] & Hk & Hbk).
  - (* a block of the new page: its header is zero and nobody holds it *)
    assert (Hz : flagged s' b = false).
    { rewrite flagged_eq by (rewrite Hc; exact Hte). rewrite Hc.
      rewrite (new_page_headers sys s np s' k _ Hgood Hnp E Htn Hk); [reflexivity|].
      rewrite <- Hbk. lia. }
    rewrite Hz. split; [discriminate|]. intros Hin. exfalso.
    apply (ok_disjoint _ _ _ _ ok' b Hin). rewrite Hbk.
    apply (page_blocks_in (clientConfig s) (osize s) np). exists k. split; [lia | reflexivity].
  - assert (Hb : is_block (clientConfig s) (osize s) pgs b) by (exists pg, k; auto).
    rewrite (flagged_same s s' b Hx Hc); [apply (Hfl b Hb)|].
    apply Hout. apply region_free_spec in Hfree. destruct Hfree as (_ & _ & Hi).
    destruct (block_at_bounds _ _ Hgood pg k Hk) as [B1 B2]. rewrite <- Hbk in B1, B2.
    unfold header_at. destruct (Hi pg Hpg); lia.
Qed.

Lemma client_call_flags s pgs fl live cc s' pgs' live' :
  pool_ok s pgs fl live -> flags_ok s pgs live ->
  header_exact (HBlockInfo_ (clientConfig s)) ->
  client_call (s, pgs, live) cc = Some (s', pgs', live') ->
  flags_ok s' pgs' live'.
Proof.
  intros ok Hfl Hx Hcall.
  assert (Hgood : good_layout (clientConfig s) (osize s)) by apply ok.
  assert (Hpool : UseCPPMemManager_ (clientConfig s) = false) by apply Hgood.
  destruct cc as [sys label | fuel p]; cbn [client_call] in Hcall.
  - destruct (sys_fresh s pgs sys label) eqn:Hfresh; [|discriminate].
    destruct (Allocate sys label s) as [p s1| | |] eqn:Ea; try discriminate.
    inversion Hcall; subst s1 pgs' live'. clear Hcall.
    rewrite (Allocate_pool sys label s Hpool) in Ea. unfold bind in Ea.
    unfold sys_fresh, pages_after in *.
    apply andb_true_iff in Hfresh. destruct Hfresh as [Hpage Hrec].
    destruct (header_exact_not_external _ Hx) as [Hte _].
    destruct (Z.eqb_spec (FreeList_ s) nullptr) as [Hnull|Hnn]; cbn [when] in Ea.
    + destruct (allocate_new_page sys s) as [[] s1| | |] eqn:E1; try discriminate.
      destruct (allocate_new_page_Done _ _ _ E1) as [np Hnp]. rewrite Hnp in *.
      assert (Hnil : fl = []) by (eapply chain_nil_inv; [apply ok | exact Hnull]). subst fl.
      destruct (allocate_new_page_ok s pgs live np sys ok Hnp Hpage s1 E1)
        as (ok1 & Hc1 & Hos1 & _).
      pose proof (new_page_flags s pgs live sys np s1 ok Hfl Hx Hnp Hpage E1) as Hfl1.
      apply (take_off_flags s1 (np :: pgs) _ live sys label p s' ok1 Hfl1).
      * rewrite Hc1. exact Hx.
      * rewrite Hc1. intros Ht. contradiction.
      * exact Ea.
    + unfold ret in Ea. apply (take_off_flags s pgs fl live sys label p s' ok Hfl Hx); [|exact Ea].
      intros Ht. contradiction.
  - destruct (in_dec Z.eq_dec p live) as [Hlive|]; [|discriminate].
    destruct (Free fuel p s) as [[] s1| | |] eqn:Ef; try discriminate.
    inversion Hcall; subst s1 pgs' live'. clear Hcall.
    assert (Hs' := Free_Done_state fuel p s s' Hpool Ef). destruct Hs' as [_ Hs'].
    apply (Free_flags fuel s pgs fl live p s' ok Hfl Hx Hlive Ef).
    + rewrite Hs'. reflexivity.
    + rewrite Hs'. reflexivity.
Qed.

Lemma client_run_flags cs : forall s pgs fl live s' pgs' live',
  pool_ok s pgs fl live -> flags_ok s pgs live ->
  header_exact (HBlockInfo_ (clientConfig s)) ->
  client_run cs (s, pgs, live) = Some (s', pgs', live') ->
  flags_ok s' pgs' live'.
Proof.
  induction cs as [|cc cs IH]; intros s pgs fl live s' pgs' live' ok Hfl Hx E;
    cbn [client_run] in E.
  - inversion E; subst. exact Hfl.
  - destruct (client_call (s, pgs, live) cc) as [[[s1 pgs1] live1]|] eqn:E1; [|discriminate].
    destruct (client_call_ok s pgs fl live cc s1 pgs1 live1 ok E1) as (fl1 & ok1 & Hc1 & _).
    apply (IH s1 pgs1 fl1 live1 s' pgs' live' ok1).
    + apply (client_call_flags s pgs fl live cc s1 pgs1 live1 ok Hfl Hx E1).
    + rewrite Hc1. exact Hx.
    + exact E.
Qed.

Lemma client_new_flags m0 sys ObjectSize config s pgs live :
  good_layout config ObjectSize ->
  header_exact (HBlockInfo_ config) ->
  client_new m0 sys ObjectSize config = Some (s, pgs, live) ->
  flags_ok s pgs live.
Proof.
  intros Hgood Hx E. unfold client_new in E.
  destruct (new_page sys) as [np|] eqn:Hnp; [|discriminate].
  destruct (region_free config ObjectSize [] np (span config ObjectSize)) eqn:Hfree;
    [|discriminate].
  destruct (ObjectAllocator_ctor m0 sys ObjectSize config) as [[] s0| | |] eqn:Ec;
    try discriminate.
  inversion E; subst. clear E.
  unfold ObjectAllocator_ctor in Ec.
  assert (Hpool : UseCPPMemManager_ config = false) by apply Hgood.
  rewrite Hpool in Ec. cbn [negb] in Ec.
  match type of Ec with allocate_new_page sys ?s1 = _ => set (s_init := s1) in * end.
  assert (ok0 : pool_ok s_init [] [] []).
  { constructor.
    - exact Hgood.
    - unfold s_init. cbn [stats set_stats PageSize_].
      match goal with |- calculate_page_size ?s1 = _ =>
        rewrite (good_layout_page_size s1 Hgood) end.
      reflexivity.
    - reflexivity.
    - intros pg [].
    - intros pg1 pg2 [].
    - split; [reflexivity|]. cbn. destruct Hgood as (_ & _ & Hm & _).
      unfold is_unsigned in Hm. lia.
    - reflexivity.
    - constructor.
    - intros b [].
    - constructor.
    - intros b [].
    - intros b [].
    - reflexivity.
    - intros _ b (pg & k & [] & _).
    - intros _ b []. }
  apply (new_page_flags s_init [] [] sys np s ok0); auto.
  intros b (pg & k & [] & _).
Qed.

(** ** The blocks of a pool are pairwise distinct *)

Lemma NoDup_app_intro {A} (l1 l2 : list A) :
  NoDup l1 -> NoDup l2 -> (forall a, In a l1 -> ~ In a l2) -> NoDup (l1 ++ l2).
Proof.
  induction l1 as [|a l1 IH]; intros H1 H2 Hd; cbn [app]; [exact H2|].
  inversion H1; subst. constructor.
  - intros Hin. apply in_app_or in Hin. destruct Hin as [Hin|Hin]; [contradiction|].
    apply (Hd a); [left; reflexivity | exact Hin].
  - apply IH; auto. intros b Hb. apply Hd. right. exact Hb.
Qed.

Lemma NoDup_blocks_from n : forall b step, 0 < step -> NoDup (blocks_from b step n).
Proof.
  induction n as [|n IH]; intros b step Hs; cbn [blocks_from]; constructor.
  - rewrite in_blocks_from. intros (k & Hk & E). nia.
  - apply IH. exact Hs.
Qed.

Lemma pool_objects_NoDup s pgs fl live :
  pool_ok s pgs fl live -> NoDup (pool_objects (clientConfig s) (osize s) pgs).
Proof.
  intros ok. set (c := clientConfig s). set (OS := osize s).
  assert (Hgood : good_layout c OS) by apply ok.
  destruct (layout_facts c OS Hgood) as (Hh & Hpd & Hos8 & Ho & Hst & Hsp & _).
  pose proof (chain_NoDup (heap s) pgs _ (ok_pages _ _ _ _ ok)) as Hnd.
  pose proof (ok_pages_apart _ _ _ _ ok) as Hap. fold c OS in Hap.
  clear ok. unfold pool_objects.
  induction pgs as [|pg pgs IH]; cbn [flat_map]; [constructor|].
  inversion Hnd as [|? ? Hnotin Hnd']; subst.
  apply NoDup_app_intro.
  - apply NoDup_blocks_from. lia.
  - apply IH; [exact Hnd'|]. intros pg1 pg2 H1 H2. apply Hap; right; assumption.
  - intros b Hb Hin. apply in_flat_map in Hin. destruct Hin as (pg' & Hpg' & Hin).
    unfold page_objects in Hb, Hin.
    apply in_blocks_from in Hb. destruct Hb as (k & Hk & Eb).
    apply in_blocks_from in Hin. destruct Hin as (k' & Hk' & Eb').
    assert (Hne : pg <> pg') by (intros ->; contradiction).
    destruct (block_at_bounds c OS Hgood pg k) as [B1 B2]; [lia|].
    destruct (block_at_bounds c OS Hgood pg' k') as [C1 C2]; [lia|].
    assert (E1 : b = block_at c OS pg k) by (rewrite Eb; unfold block_at; lia).
    assert (E2 : b = block_at c OS pg' k') by (rewrite Eb'; unfold block_at; lia).
    rewrite <- E1 in B1, B2. rewrite <- E2 in C1, C2.
    destruct (Hap pg pg' (or_introl eq_refl) (or_intror Hpg') Hne); lia.
Qed.

Lemma NoDup_same_length {A} (l1 l2 : list A) :
  NoDup l1 -> NoDup l2 -> (forall a, In a l1 <-> In a l2) -> List.length l1 = List.length l2.
Proof.
  intros H1 H2 H. apply Nat.le_antisymm; apply NoDup_incl_length; auto;
    intros a Ha; apply H; exact Ha.
Qed.

(** ** [DumpMemoryInUse] *)

(** X28.  For a well-formed layout with a header configured and a page
    list that ends, [DumpMemoryInUse] visits the blocks page by page in list
    order and in address order within a page, calls the callback exactly for
    the blocks whose header passes [check_leak_in_header], passing the
    address where the left padding of the block starts (the object address
    minus the pad width) and the object size, and returns their number. *)
Theorem DumpMemoryInUse_reports_flagged_blocks fuel s pgs :
  good_layout (clientConfig s) (osize s) ->
  size_ (HBlockInfo_ (clientConfig s)) <> 0 ->
  chain (heap s) (PageList_ s) pgs ->
  (List.length pgs < fuel)%nat ->
  DumpMemoryInUse fuel s
  = Some (map (fun b => (b - PadBytes_ (clientConfig s), osize s))
              (filter (flagged s) (pool_objects (clientConfig s) (osize s) pgs)),
          u32 (Z.of_nat (List.length
                 (filter (flagged s) (pool_objects (clientConfig s) (osize s) pgs)))))
  /\ forall b, In b (filter (flagged s) (pool_objects (clientConfig s) (osize s) pgs))
               <-> is_block (clientConfig s) (osize s) pgs b /\ flagged s b = true.
Proof.
  intros Hgood Hh Hc Hf.
  destruct (layout_facts _ _ Hgood) as (_ & _ & _ & Ho & _).
  split; [exact (DumpMemoryInUse_eq fuel s pgs Hgood Hh Hc Hf)|].
  intros b. rewrite filter_In, in_pool_objects by lia. reflexivity.
Qed.

Lemma basic_two_good :
  good_layout (clientConfig (fst (fst basic_client_two))) (osize (fst (fst basic_client_two))).
Proof. unfold good_layout, is_unsigned, header_fits. vm_compute. repeat split; congruence. Qed.

Lemma DumpMemoryInUse_reports_flagged_blocks_witness :
  DumpMemoryInUse 5 (fst (fst basic_client_two))
  = Some (map (fun b => (b - PadBytes_ (clientConfig (fst (fst basic_client_two))),
                         osize (fst (fst basic_client_two))))
              (filter (flagged (fst (fst basic_client_two)))
                      (pool_objects (clientConfig (fst (fst basic_client_two)))
                                    (osize (fst (fst basic_client_two))) [4096])),
          u32 (Z.of_nat (List.length
                 (filter (flagged (fst (fst basic_client_two)))
                         (pool_objects (clientConfig (fst (fst basic_client_two)))
                                       (osize (fst (fst basic_client_two))) [4096])))))
  /\ forall b, In b (filter (flagged (fst (fst basic_client_two)))
                            (pool_objects (clientConfig (fst (fst basic_client_two)))
                                          (osize (fst (fst basic_client_two))) [4096]))
               <-> is_block (clientConfig (fst (fst basic_client_two)))
                            (osize (fst (fst basic_client_two))) [4096] b
                   /\ flagged (fst (fst basic_client_two)) b = true.
Proof.
  apply (DumpMemoryInUse_reports_flagged_blocks 5 (fst (fst basic_client_two)) [4096]).
  - exact basic_two_good.
  - vm_compute. discriminate.
  - chain_tac.
  - vm_compute. lia.
Defined.

(** The two objects of the example are reported, in address order, each
    with the address two bytes (the pad width) below the object. *)
Lemma DumpMemoryInUse_example :
  DumpMemoryInUse 5 (fst (fst basic_client_two)) = Some ([(4134, 16); (4159, 16)], 2).
Proof. vm_compute. reflexivity. Qed.

(** X29.  With basic headers of five bytes or extended headers of the user
    bytes plus seven, under valid use [DumpMemoryInUse] returns the number
    of objects the client holds and calls the callback once for each of
    them and for no other block. *)
Theorem DumpMemoryInUse_counts_held_objects
        m0 sys ObjectSize config cs cl s pgs live fuel :
  good_layout config ObjectSize ->
  header_exact (HBlockInfo_ config) ->
  client_new m0 sys ObjectSize config = Some cl ->
  client_run cs cl = Some (s, pgs, live) ->
  (List.length pgs < fuel)%nat ->
  exists calls,
    DumpMemoryInUse fuel s = Some (calls, u32 (Z.of_nat (List.length live)))
    /\ List.length calls = List.length live
    /\ forall b, In (b - PadBytes_ config, ObjectSize) calls <-> In b live.
Proof.
  destruct cl as [[s0 pgs0] live0]. intros Hgood Hx Hnew Hrun Hfuel.
  destruct (client_new_ok m0 sys ObjectSize config s0 pgs0 live0 Hgood Hnew)
    as (fl0 & ok0 & Hc0 & Hos0).
  pose proof (client_new_flags m0 sys ObjectSize config s0 pgs0 live0 Hgood Hx Hnew) as Hfl0.
  destruct (client_run_ok cs s0 pgs0 fl0 live0 s pgs live ok0 Hrun) as (fl & ok & Hc & Hos & _).
  assert (Hflags : flags_ok s pgs live).
  { apply (client_run_flags cs s0 pgs0 fl0 live0 s pgs live ok0 Hfl0); [|exact Hrun].
    rewrite Hc0. exact Hx. }
  assert (Hcfg : clientConfig s = config) by congruence.
  assert (Hosz : osize s = ObjectSize) by congruence.
  assert (Hgood' : good_layout (clientConfig s) (osize s)) by apply ok.
  destruct (layout_facts _ _ Hgood') as (_ & _ & _ & Ho & _).
  assert (Hnz : size_ (HBlockInfo_ (clientConfig s)) <> 0).
  { rewrite Hcfg. assert (Hfit : header_fits (HBlockInfo_ config)) by apply Hgood.
    unfold header_exact, header_fits, sizeof_int, sizeof_char, sizeof_short in *.
    destruct (type_ (HBlockInfo_ config)); try contradiction; lia. }
  set (F := filter (flagged s) (pool_objects (clientConfig s) (osize s) pgs)).
  assert (HF : forall b, In b F <-> In b live).
  { intros b. unfold F. rewrite filter_In, in_pool_objects by lia. split.
    - intros [Hb Hf]. apply (Hflags b Hb). exact Hf.
    - intros Hin. pose proof (ok_live_blocks _ _ _ _ ok b Hin) as Hb. split; [exact Hb|].
      apply (Hflags b Hb). exact Hin. }
  assert (Hlen : List.length F = List.length live).
  { apply NoDup_same_length; [|apply ok | exact HF].
    unfold F. apply NoDup_filter. apply (pool_objects_NoDup s pgs fl live ok). }
  exists (map (fun b => (b - PadBytes_ (clientConfig s), osize s)) F).
  split; [|split].
  - rewrite (DumpMemoryInUse_eq fuel s pgs Hgood' Hnz (ok_pages _ _ _ _ ok) Hfuel).
    change (filter (fun b => check_leak_in_header s (header_at (clientConfig s) b))
                   (pool_objects (clientConfig s) (osize s) pgs)) with F.
    rewrite Hlen. reflexivity.
  - rewrite length_map. exact Hlen.
  - intros b. rewrite Hcfg, Hosz, in_map_iff. rewrite <- HF. split.
    + intros (b' & E & Hin). inversion E. replace b with b' by lia. exact Hin.
    + intros Hin. exists b. auto.
Qed.

Lemma DumpMemoryInUse_counts_held_objects_witness :
  exists calls,
    DumpMemoryInUse 5 (fst (fst basic_client_three))
    = Some (calls, u32 (Z.of_nat (List.length (snd basic_client_three))))
    /\ List.length calls = List.length (snd basic_client_three)
    /\ forall b, In (b - PadBytes_ basic_config, 16) calls <-> In b (snd basic_client_three).
Proof.
  apply (DumpMemoryInUse_counts_held_objects zero_memory (sys_page 4096) 16 basic_config
           [Call_Allocate no_sys None; Call_Allocate no_sys None; Call_Free 10 4161]
           basic_client _ (snd (fst basic_client_three))).
  - exact basic_good.
  - vm_compute. reflexivity.
  - exact basic_client_new.
  - unfold basic_client_three. apply the_client_triple. vm_compute. reflexivity.
  - vm_compute. lia.
Defined.
(** * The external header *)

Lemma strcpy_string_at : forall l m a, string_at (strcpy m a l) a l.
Proof.
  induction l as [|ch rest IH]; intros m a; cbn [strcpy string_at].
  - rewrite store_in by lia. replace (a - a) with 0 by lia. reflexivity.
  - split; [|apply IH].
    rewrite strcpy_out by lia. rewrite store_in by lia. replace (a - a) with 0 by lia.
    cbn [Z.mul Z.pow]. rewrite Z.div_1_r. apply Z.mod_small.
    pose proof (nat_ascii_bounded ch). lia.
Qed.

Lemma string_at_ext : forall l m m' a,
  string_at m a l ->
  (forall x, a <= x < a + Z.of_nat (String.length l) + 1 -> m' x = m x) ->
  string_at m' a l.
Proof.
  induction l as [|ch rest IH]; intros m m' a H Hext; cbn [string_at String.length] in *.
  - rewrite Hext by lia. exact H.
  - destruct H as [H1 H2]. split.
    + rewrite Hext by lia. exact H1.
    + apply (IH m); [exact H2|]. intros x Hx. apply Hext. lia.
Qed.

Lemma load_bytes_zero n : forall m a,
  (forall x, a <= x < a + Z.of_nat n -> m x = 0) -> load_bytes m a n = 0.
Proof.
  induction n as [|n IH]; intros m a H; cbn [load_bytes]; [reflexivity|].
  rewrite H by lia. rewrite IH; [reflexivity|]. intros x Hx. apply H. lia.
Qed.

(** X30.  With external headers, after an [Allocate] that returns [p]
    (the record and the label placed by the system allocator apart from each
    other, from the header and from the object), the header of [p] holds the
    address of the record; the record holds the flag 1, the number of this
    allocation and the address of a copy of the label, or null for an
    allocation without label. *)
Theorem Allocate_external_header sys label s p s' info :
  UseCPPMemManager_ (clientConfig s) = false ->
  type_ (HBlockInfo_ (clientConfig s)) = hbExternal ->
  sizeof_ptr <= size_ (HBlockInfo_ (clientConfig s)) ->
  0 <= PadBytes_ (clientConfig s) ->
  0 <= ObjectSize_ (stats s) ->
  Allocate sys label s = Done p s' ->
  new_info sys = Some info ->
  0 <= info < 2 ^ 64 ->
  (info + sizeof_MemBlockInfo <= header_at (clientConfig s) p
   \/ p + ObjectSize_ (stats s) <= info) ->
  (forall l, label = Some l ->
     exists str, new_label sys = Some str /\ 0 <= str < 2 ^ 64
                 /\ (str + Z.of_nat (String.length l) + 1 <= info
                     \/ info + sizeof_MemBlockInfo <= str)
                 /\ (str + Z.of_nat (String.length l) + 1 <= header_at (clientConfig s) p
                     \/ p + ObjectSize_ (stats s) <= str)) ->
  load_ptr (heap s') (header_at (clientConfig s) p) = info
  /\ heap s' (info + MemBlockInfo_in_use) = 1
  /\ load (heap s') (info + MemBlockInfo_alloc_num) sizeof_int = Allocations_ (stats s')
  /\ match label with
     | None => load_ptr (heap s') (info + MemBlockInfo_label) = nullptr
     | Some l => exists str, new_label sys = Some str
                             /\ load_ptr (heap s') (info + MemBlockInfo_label) = str
                             /\ string_at (heap s') str l
     end.
Proof.
  intros Hpool Hty Hfit Hpad Hobs E Hinfo Hir Hid Hlabel.
  pose proof (Allocate_Done_Allocations sys label s p s' Hpool E) as Hnum.
  destruct (Allocate_Done_state sys label s p s' Hpool E)
    as (s1 & m1 & _ & _ & _ & _ & _ & Eh & Hs').
  set (c := clientConfig s) in *. set (h := header_at c p) in *.
  set (hs := size_ (HBlockInfo_ c)) in *. set (OS := ObjectSize_ (stats s)) in *.
  set (n := Allocations_ (stats (counted_alloc s1))) in *.
  assert (Hn : Allocations_ (stats s') = n) by (rewrite Hs'; reflexivity).
  assert (Hnr : 0 <= n < 2 ^ 32) by (rewrite <- Hn, Hnum; apply u32_range).
  assert (Hh : h + hs <= p) by (unfold h, header_at; fold hs; lia).
  unfold sizeof_ptr, sizeof_MemBlockInfo, MemBlockInfo_in_use, MemBlockInfo_alloc_num,
    MemBlockInfo_label, sizeof_int in *.
  assert (Hobj : forall y, ~ (p <= y < p + OS) -> heap s' y = m1 y).
  { intros y Hy. rewrite Hs'. cbn [heap]. destruct (DebugOn_ c); auto.
    apply memset_out. exact Hy. }
  assert (Hin_info : forall y, info <= y < info + 24 -> heap s' y = m1 y).
  { intros y Hy. apply Hobj. lia. }
  assert (Hin_hdr : forall y, h <= y < h + 8 -> heap s' y = m1 y).
  { intros y Hy. apply Hobj. lia. }
  unfold header_allocated in Eh. rewrite Hty, Hinfo in Eh. fold h in Eh.
  unfold sizeof_MemBlockInfo, MemBlockInfo_in_use, MemBlockInfo_alloc_num,
    MemBlockInfo_label, sizeof_int, sizeof_char in Eh.
  set (m0 := memset (heap s1) info 0 24) in Eh.
  assert (Hfinish : forall m,
             m1 = store_ptr (store (store m (info + 16) 4 n) (info + 0) 1 1) h info ->
             load_ptr (heap s') h = info
             /\ heap s' (info + 0) = 1
             /\ load (heap s') (info + 16) 4 = n
             /\ (forall y, ~ (info + 16 <= y < info + 20) -> ~ (info <= y < info + 1) ->
                           ~ (h <= y < h + 8) -> ~ (p <= y < p + OS) -> heap s' y = m y)).
  { intros m Hm. split; [|split; [|split]].
    - rewrite (load_ptr_ext m1 (heap s')) by (unfold sizeof_ptr; exact Hin_hdr).
      rewrite Hm. apply load_ptr_store_ptr. exact Hir.
    - rewrite Hin_info by lia. rewrite Hm. unfold store_ptr, sizeof_ptr.
      rewrite store_out by lia. rewrite store_in by lia.
      replace (info + 0 - (info + 0)) with 0 by lia. reflexivity.
    - rewrite (load_ext m1 (heap s')) by (intros x Hx; apply Hin_info; lia).
      rewrite Hm. unfold store_ptr, sizeof_ptr.
      rewrite (load_ext (store m (info + 16) 4 n))
        by (intros x Hx; rewrite !store_out by lia; reflexivity).
      rewrite load_store_same by lia. apply Z.mod_small. exact Hnr.
    - intros y H1 H2 H3 H4. rewrite Hobj by exact H4. rewrite Hm.
      unfold store_ptr, sizeof_ptr. rewrite !store_out by lia. reflexivity. }
  destruct label as [l|].
  - destruct (Hlabel l eq_refl) as (str & Hstr & Hsr & Hsi & Hsh).
    rewrite Hstr in Eh. inversion Eh as [Hm1]. symmetry in Hm1.
    destruct (Hfinish _ Hm1) as (F1 & F2 & F3 & F4).
    rewrite Hn. split; [exact F1|]. split; [exact F2|]. split; [exact F3|].
    exists str. split; [exact Hstr|]. split.
    + rewrite (load_ptr_ext (store_ptr m0 (info + 8) str)).
      * apply load_ptr_store_ptr. exact Hsr.
      * intros x Hx. unfold sizeof_ptr in Hx. rewrite F4 by lia.
        apply strcpy_out. lia.
    + apply (string_at_ext l (strcpy (store_ptr m0 (info + 8) str) str l));
        [apply strcpy_string_at|].
      intros x Hx. apply F4; lia.
  - inversion Eh as [Hm1]. symmetry in Hm1.
    destruct (Hfinish _ Hm1) as (F1 & F2 & F3 & F4).
    rewrite Hn. split; [exact F1|]. split; [exact F2|]. split; [exact F3|].
    unfold load_ptr, load, sizeof_ptr. apply load_bytes_zero.
    intros x Hx. rewrite F4 by lia. unfold m0. rewrite memset_in by lia. reflexivity.
Qed.

Lemma Allocate_external_header_witness :
  load_ptr (heap external_labelled) (header_at (clientConfig external_fresh) 4160) = 8192
  /\ heap external_labelled (8192 + MemBlockInfo_in_use) = 1
  /\ load (heap external_labelled) (8192 + MemBlockInfo_alloc_num) sizeof_int
     = Allocations_ (stats external_labelled)
  /\ exists str, new_label sys_record = Some str
                 /\ load_ptr (heap external_labelled) (8192 + MemBlockInfo_label) = str
                 /\ string_at (heap external_labelled) str "ab"%string.
Proof.
  apply (Allocate_external_header sys_record (Some "ab"%string) external_fresh 4160
                                  external_labelled 8192).
  - vm_compute. reflexivity.
  - vm_compute. reflexivity.
  - vm_compute. discriminate.
  - vm_compute. discriminate.
  - vm_compute. discriminate.
  - unfold external_labelled. eval_goal.
  - reflexivity.
  - eval_goal.
  - right. vm_compute. discriminate.
  - intros l Hl. inversion Hl; subst l. exists 8300.
    split; [reflexivity|]. split; [eval_goal|]. split; right; vm_compute; discriminate.
Defined.

(** The label of the example read back from the record. *)
Lemma external_label_example :
  load_ptr (heap external_labelled) 4152 = 8192
  /\ load_ptr (heap external_labelled) (8192 + 8) = 8300
  /\ heap external_labelled 8300 = 97 /\ heap external_labelled 8301 = 98
  /\ heap external_labelled 8302 = 0.
Proof. eval_goal. Qed.
